(** * forkify-cmdline: sessions, prompt ids, context window, branching,
      retrying invocation and usage accounting

    A shallow embedding of [session_manager.py] (Session, BranchInfo,
    SessionManager), of the retry decorator and the DocumentProcessor methods
    of [document_processor.py] that touch a session, and of the [/ld] handler
    of [claude.py].

    Conventions of the embedding:
    - Python [int] is [Z]; Python [float] is the kernel's binary64 [float];
      [str] is [string], read as a sequence of bytes (only ASCII white space
      and ASCII digits are recognised by [strip] and [int]).
    - A dict read from JSON is a record whose fields are [option]s: [None] is
      an absent key.  The values have the types the program writes: a
      message field is a string, [branch_info] is null or a complete record.
    - A file holds bytes; a read in text mode translates the newlines.
    - [sessions/] is kept apart from the other directories, which are a map
      from the path of a directory to its files; paths are compared as they
      are written, [..] is not resolved, and a path names a directory or a
      file, not both.
    - The sleeps of the retry decorator are exact rationals; the program
      computes them in binary64.
    - List objects live in a heap of locations, so that two references to one
      list are told apart from two lists with equal contents.
    - Exceptions are values of [exn]; a computation returns [exn + A] together
      with the state reached, which keeps the mutations made before a raise.
    - Printing to the terminal and the debug log are not modelled. *)

From Stdlib Require Import ZArith QArith Floats String Ascii List Lia Lqa Bool Sorted.
From stdpp Require Import gmap strings list.

Open Scope string_scope.
Open Scope list_scope.
Open Scope Z_scope.

(** ** Python builtins used by the program *)

Module Py.

(** [l[start:]], with CPython's adjustment of a negative or too large start. *)
Definition slice_from {A} (start : Z) (l : list A) : list A :=
  let n := Z.of_nat (length l) in
  let i := if start <? 0 then Z.max (start + n) 0 else Z.min start n in
  skipn (Z.to_nat i) l.

(** [l[-k:]]: the slice the program writes for its windows. *)
Definition last_k {A} (k : Z) (l : list A) : list A := slice_from (- k) l.

(** [s[i:]] and [s[i:j]] on strings, for the constant bounds the code uses. *)
Fixpoint str_drop (n : nat) (s : string) : string :=
  match n, s with
  | O, _ => s
  | S _, EmptyString => EmptyString
  | S n', String _ r => str_drop n' r
  end.

Definition str_slice (i j : nat) (s : string) : string := substring i (j - i) s.

Definition startswith (s p : string) : bool := String.prefix p s.

Definition endswith (s p : string) : bool :=
  let ls := String.length s in
  let lp := String.length p in
  (lp <=? ls)%nat && String.eqb (str_drop (ls - lp) s) p.

(** [sub in s] for strings. *)
Fixpoint contains (sub s : string) : bool :=
  String.prefix sub s ||
  match s with
  | EmptyString => false
  | String _ r => contains sub r
  end.

(** White space as [str.isspace] sees it on ASCII, which is what
    [str.strip] removes, and as C's [isspace] sees it, which is what [int]
    skips around an ASCII literal. *)
Definition isspace (c : ascii) : bool :=
  let n := nat_of_ascii c in
  ((9 <=? n)%nat && (n <=? 13)%nat) || ((28 <=? n)%nat && (n <=? 32)%nat).

Definition c_isspace (c : ascii) : bool :=
  let n := nat_of_ascii c in
  ((9 <=? n)%nat && (n <=? 13)%nat) || (n =? 32)%nat.

Fixpoint lstrip_by (sp : ascii -> bool) (s : string) : string :=
  match s with
  | String c r => if sp c then lstrip_by sp r else s
  | EmptyString => EmptyString
  end.

Fixpoint rstrip_by (sp : ascii -> bool) (s : string) : string :=
  match s with
  | EmptyString => EmptyString
  | String c r =>
      match rstrip_by sp r with
      | EmptyString => if sp c then EmptyString else String c EmptyString
      | r' => String c r'
      end
  end.

Definition strip_by (sp : ascii -> bool) (s : string) : string :=
  rstrip_by sp (lstrip_by sp s).

(** [s.strip()]. *)
Definition strip (s : string) : string := strip_by isspace s.

(** What a read in text mode makes of the bytes of a file: with the
    universal newlines of [open(path, 'r')], a carriage return, with the
    line feed that follows it if there is one, becomes a line feed. *)
Fixpoint universal_newlines (s : string) : string :=
  match s with
  | EmptyString => EmptyString
  | String c r =>
      if Ascii.eqb c "013" then
        match r with
        | String c' r' =>
            if Ascii.eqb c' "010" then String "010" (universal_newlines r')
            else String "010" (universal_newlines r)
        | EmptyString => String "010" EmptyString
        end
      else String c (universal_newlines r)
  end.

(** Lines of a text as [for line in f] yields them, once the newlines are
    translated: each keeps its newline. *)
Fixpoint lines_from (s : string) (cur : string) : list string :=
  match s with
  | EmptyString => match cur with EmptyString => [] | _ => [cur] end
  | String c r =>
      if Ascii.eqb c "010"
      then (cur +:+ String c EmptyString) :: lines_from r EmptyString
      else lines_from r (cur +:+ String c EmptyString)
  end.

Definition lines (s : string) : list string := lines_from s EmptyString.

(** *** [int(s)] *)

Definition digit_of (c : ascii) : option Z :=
  let n := nat_of_ascii c in
  if (48 <=? n)%nat && (n <=? 57)%nat then Some (Z.of_nat (n - 48)) else None.

(** Digits with single underscores between them; [prev] says the previous
    character was a digit. *)
Fixpoint int_digits (s : string) (acc : Z) (prev : bool) : option Z :=
  match s with
  | EmptyString => if prev then Some acc else None
  | String c r =>
      match digit_of c with
      | Some d => int_digits r (10 * acc + d) true
      | None => if Ascii.eqb c "_" && prev then int_digits r acc false else None
      end
  end.

(** [int(s)]: [None] stands for [ValueError]. *)
Definition int (s : string) : option Z :=
  match strip_by c_isspace s with
  | String "+" r => int_digits r 0 false
  | String "-" r => Z.opp <$> int_digits r 0 false
  | t => int_digits t 0 false
  end.

(** *** [f"{n:05d}"] *)

Definition digit_char (d : Z) : ascii := ascii_of_nat (48 + Z.to_nat d).

Fixpoint decimal_aux (fuel : nat) (n : Z) (acc : string) : string :=
  match fuel with
  | O => acc
  | S f =>
      let acc' := String (digit_char (n mod 10)) acc in
      if n / 10 =? 0 then acc' else decimal_aux f (n / 10) acc'
  end.

(** [str(n)] for [0 <= n]. *)
Definition decimal (n : Z) : string :=
  decimal_aux (S (Z.to_nat (Z.log2 n))) n EmptyString.

Fixpoint zeros (k : nat) : string :=
  match k with
  | O => EmptyString
  | S k' => String "0" (zeros k')
  end.

Definition zfill (w : nat) (s : string) : string :=
  zeros (w - String.length s) +:+ s.

(** Width 5, zero fill, sign aware: the sign comes before the zeros. *)
Definition format_05d (n : Z) : string :=
  if n <? 0 then String "-" (zfill 4 (decimal (- n))) else zfill 5 (decimal n).

(** Predicates on the characters of a string, for the statements below. *)
Fixpoint str_all (P : ascii -> bool) (s : string) : bool :=
  match s with
  | EmptyString => true
  | String c r => P c && str_all P r
  end.

Definition is_digit (c : ascii) : bool :=
  match digit_of c with Some _ => true | None => false end.

End Py.

(** [os.path.join a b] for two components. *)
Definition path_join (a b : string) : string :=
  if Py.startswith b "/" then b
  else if String.eqb a "" then b
  else if Py.endswith a "/" then a +:+ b
  else a +:+ "/" +:+ b.

(** The directories [os.makedirs p] makes sure of: [p] and each prefix of [p]
    that stops before a separator. *)
Fixpoint path_prefixes (s : string) (cur : string) : list string :=
  match s with
  | EmptyString => [cur]
  | String c r =>
      if Ascii.eqb c "/"
      then cur :: path_prefixes r (cur +:+ "/")
      else path_prefixes r (cur +:+ String c EmptyString)
  end.

(** The components of a path, as [p.split('/')] gives them. *)
Fixpoint path_components (s : string) (cur : string) : list string :=
  match s with
  | EmptyString => [cur]
  | String c r =>
      if Ascii.eqb c "/"
      then cur :: path_components r EmptyString
      else path_components r (cur +:+ String c EmptyString)
  end.

(** A relative path without a [..] component: joined to a directory, it
    names a place below that directory. *)
Definition stays_below (nm : string) : bool :=
  negb (Py.startswith nm "/")
  && forallb (fun c => negb (String.eqb c "..")) (path_components nm EmptyString).

(** [s.find(sub, start)]. *)
Fixpoint find_at (sub s : string) (i : nat) : option nat :=
  if String.prefix sub s then Some i
  else
    match s with
    | EmptyString => None
    | String _ r => find_at sub r (S i)
    end.

Definition py_find (sub s : string) (start : Z) : Z :=
  let n := Z.of_nat (String.length s) in
  let i := Z.to_nat (if start <? 0 then Z.max (start + n) 0 else start) in
  match find_at sub (Py.str_drop i s) i with
  | Some k => Z.of_nat k
  | None => -1
  end.

(** [s[start:]] on a string, for a computed start. *)
Definition str_from (start : Z) (s : string) : string :=
  let n := Z.of_nat (String.length s) in
  Py.str_drop (Z.to_nat (if start <? 0 then Z.max (start + n) 0 else start)) s.

(** [str(n)]. *)
Definition py_str (n : Z) : string :=
  if n <? 0 then String "-" (Py.decimal (- n)) else Py.decimal n.

(** [float(n)] as [n / 1000.0] computes it: the nearest binary64, and
    OverflowError past the largest one. *)
Definition nearest_float (n : Z) : float :=
  SF2Prim (binary_normalize prec emax n 0 false).

Definition float_of_int (n : Z) : option float :=
  let f := nearest_float n in
  if PrimFloat.is_infinity f then None else Some f.

(** ** Exceptions and the state-and-error monad *)

Inductive exn : Type :=
  | ValueError
  | KeyError
  | TypeError
  | OverflowError
  | AttributeError
  | NameError
  | JSONDecodeError
  | ValidationError
  | RateLimitError
  | InternalServerError
  | APIError.

#[global] Instance exn_eq_dec : EqDecision exn.
Proof. solve_decision. Defined.

(** The errors the retry decorator retries: [RateLimitError] and
    [InternalServerError]. *)
Definition retryable (e : exn) : bool :=
  bool_decide (e = RateLimitError) || bool_decide (e = InternalServerError).


(** A computation over a state [S]: the outcome and the state reached.  A
    raise keeps the state of the moment it happens. *)
Definition M (S A : Type) : Type := S -> (exn + A) * S.

Definition ret {S A} (a : A) : M S A := fun s => (inr a, s).

Definition raise {S A} (e : exn) : M S A := fun s => (inl e, s).

Definition bind {S A B} (c : M S A) (k : A -> M S B) : M S B :=
  fun s =>
    match c s with
    | (inr a, s') => k a s'
    | (inl e, s') => (inl e, s')
    end.

Definition get {S} : M S S := fun s => (inr s, s).

Definition modify {S} (f : S -> S) : M S unit := fun s => (inr tt, f s).

(** [try: c except <handles>: h]. *)
Definition try_except {S A} (c : M S A) (handles : exn -> bool) (h : M S A) : M S A :=
  fun s =>
    match c s with
    | (inl e, s') => if handles e then h s' else (inl e, s')
    | r => r
    end.

(** A pure result that may be an exception. *)
Definition lift_result {S A} (r : exn + A) : M S A := fun s => (r, s).

(** [d[key]] on a dict whose key may be absent. *)
Definition subscript {S A} (o : option A) : M S A :=
  match o with
  | Some a => ret a
  | None => raise KeyError
  end.

(** A computation all of whose runs, whatever their outcome, relate the
    state before to the state after. *)
Definition preserves {S A} (R : S -> S -> Prop) (c : M S A) : Prop :=
  forall s r s', c s = (r, s') -> R s s'.

(** A computation whose exceptions are never rate-limit or overload errors. *)
Definition never_retryable {S A} (c : M S A) : Prop :=
  forall s e s', c s = (inl e, s') -> retryable e = false.

(** A computation that relates the states when it raises a retryable error. *)
Definition retryable_keeps {S A} (R : S -> S -> Prop) (c : M S A) : Prop :=
  forall s e s', c s = (inl e, s') -> retryable e = true -> R s s'.

Declare Scope py_scope.
Delimit Scope py_scope with py.
Notation "'do' x <- c ; k" := (bind c (fun x => k))
  (at level 10, x name, c at level 100, k at level 200, only parsing) : py_scope.
Notation "'exec' c ; k" := (bind c (fun _ => k))
  (at level 10, c at level 100, k at level 200, only parsing) : py_scope.
Open Scope py_scope.

(** ** Data model *)

Definition loc := nat.

(** A message dict: [role], [content] and [prompt_id] keys, each possibly
    absent. *)
Record Message : Type := mkMessage {
  role : option string;
  content : option string;
  prompt_id : option string
}.

#[global] Instance Message_eq_dec : EqDecision Message.
Proof. solve_decision. Defined.

(** [Message(role, content, prompt_id).model_dump()]. *)
Definition message_dump (r c p : string) : Message :=
  mkMessage (Some r) (Some c) (Some p).

(** Token prices and the float constants of the program, written in
    hexadecimal so that they are the binary64 values Python reads. *)
Definition price_input : float := 0x1.89374bc6a7efap-9%float.   (* 0.003 *)
Definition price_output : float := 0x1.eb851eb851eb8p-7%float.  (* 0.015 *)
Definition thousand : float := 1000%float.

Definition DEFAULT_CONTEXT_WINDOW : Z := 10.

(** The request sent to the inference endpoint and what it answers. *)
Record Request : Type := mkRequest {
  req_max_tokens : Z;
  req_system : list string;
  req_messages : list (string * string)   (* role, text *)
}.

Record Response : Type := mkResponse {
  resp_text : string;
  input_tokens : Z;
  output_tokens : Z
}.

(** The collaborators the core consumes: the clock and its two renderings,
    the sources of randomness, the inference endpoint, and the
    [DocumentUnderstanding] model of pydantic. *)
Class Collaborators : Type := {
  datetime : Type;
  isoformat : datetime -> string;
  fromisoformat : string -> option datetime;      (* [None]: ValueError *)
  strftime_seconds : datetime -> string;          (* '%Y-%m-%d %H:%M:%S' *)
  now_at : nat -> datetime;                       (* the n-th [datetime.now()] *)
  uuid4_at : nat -> string;                       (* the n-th [str(uuid.uuid4())] *)
  choices_at : nat -> string;                     (* [''.join(random.choices(chars, k=6))] *)
  uniform_at : nat -> Q;                          (* [random.uniform(0, 0.1)] *)
  messages_create : nat -> Request -> exn + Response;
  (* [json.dumps(DocumentUnderstanding.model_validate_json(s).model_dump())];
     [None]: ValidationError *)
  understanding_of_json : string -> option string;
  (* [json.dumps(DocumentUnderstanding(documents, summary).model_dump())] *)
  understanding_dump : list (string * string) -> string -> string;
  (* [json.dumps([doc.model_dump() for doc in documents])] *)
  documents_dump : list (string * string) -> string;
  (* [SYSTEM_PROMPTS]: the texts are authored outside the core *)
  system_prompts : string -> option string
}.

Section Sessions.
Context {C : Collaborators}.

(** [BranchInfo.created_at] is a [datetime] when [create_branch] builds the
    record, and the string JSON held when it is rebuilt from a file. *)
Inductive stamp : Type :=
  | Moment (d : datetime)
  | Text (s : string).

Record BranchInfo : Type := mkBranchInfo {
  branch_name : string;
  parent_id : string;
  branch_created_at : stamp;
  document_hash : option string
}.

Record Session : Type := mkSession {
  session_id : string;
  conversation_id : string;
  name : string;
  document_summary : string;
  message_window : loc;               (* a reference to the list object *)
  created_at : datetime;
  last_accessed : datetime;
  window_size : Z;
  branch_info : option BranchInfo;
  last_prompt_id : Z;
  total_input_tokens : Z;
  total_output_tokens : Z;
  total_cost : float
}.

Definition set_document_summary (v : string) (s : Session) : Session :=
  mkSession (session_id s) (conversation_id s) (name s) v (message_window s)
    (created_at s) (last_accessed s) (window_size s) (branch_info s) (last_prompt_id s)
    (total_input_tokens s) (total_output_tokens s) (total_cost s).

Definition set_message_window (v : loc) (s : Session) : Session :=
  mkSession (session_id s) (conversation_id s) (name s) (document_summary s) v
    (created_at s) (last_accessed s) (window_size s) (branch_info s) (last_prompt_id s)
    (total_input_tokens s) (total_output_tokens s) (total_cost s).

Definition set_last_accessed (v : datetime) (s : Session) : Session :=
  mkSession (session_id s) (conversation_id s) (name s) (document_summary s) (message_window s)
    (created_at s) v (window_size s) (branch_info s) (last_prompt_id s)
    (total_input_tokens s) (total_output_tokens s) (total_cost s).


Definition set_branch_info (v : option BranchInfo) (s : Session) : Session :=
  mkSession (session_id s) (conversation_id s) (name s) (document_summary s) (message_window s)
    (created_at s) (last_accessed s) (window_size s) v (last_prompt_id s)
    (total_input_tokens s) (total_output_tokens s) (total_cost s).

Definition set_last_prompt_id (v : Z) (s : Session) : Session :=
  mkSession (session_id s) (conversation_id s) (name s) (document_summary s) (message_window s)
    (created_at s) (last_accessed s) (window_size s) (branch_info s) v
    (total_input_tokens s) (total_output_tokens s) (total_cost s).

Definition set_total_input_tokens (v : Z) (s : Session) : Session :=
  mkSession (session_id s) (conversation_id s) (name s) (document_summary s) (message_window s)
    (created_at s) (last_accessed s) (window_size s) (branch_info s) (last_prompt_id s)
    v (total_output_tokens s) (total_cost s).

Definition set_total_output_tokens (v : Z) (s : Session) : Session :=
  mkSession (session_id s) (conversation_id s) (name s) (document_summary s) (message_window s)
    (created_at s) (last_accessed s) (window_size s) (branch_info s) (last_prompt_id s)
    (total_input_tokens s) v (total_cost s).

Definition set_total_cost (v : float) (s : Session) : Session :=
  mkSession (session_id s) (conversation_id s) (name s) (document_summary s) (message_window s)
    (created_at s) (last_accessed s) (window_size s) (branch_info s) (last_prompt_id s)
    (total_input_tokens s) (total_output_tokens s) v.

(** The dict [to_dict] builds and [from_dict] reads.  [MW] is what the
    [message_window] key holds: a reference to a list object in a Python
    dict, the messages themselves in a JSON document. *)
Record Data (MW : Type) : Type := mkData {
  d_session_id : option string;
  d_conversation_id : option string;
  d_name : option string;
  d_document_summary : option string;
  d_message_window : option MW;
  d_created_at : option string;
  d_last_accessed : option string;
  d_window_size : option Z;
  d_branch_info : option BranchInfo;   (* [None]: the key is absent or null *)
  d_last_prompt_id : option Z;
  d_total_input_tokens : option Z;
  d_total_output_tokens : option Z;
  d_total_cost : option float
}.
Arguments mkData {MW}.
Arguments d_session_id {MW}.
Arguments d_conversation_id {MW}.
Arguments d_name {MW}.
Arguments d_document_summary {MW}.
Arguments d_message_window {MW}.
Arguments d_created_at {MW}.
Arguments d_last_accessed {MW}.
Arguments d_window_size {MW}.
Arguments d_branch_info {MW}.
Arguments d_last_prompt_id {MW}.
Arguments d_total_input_tokens {MW}.
Arguments d_total_output_tokens {MW}.
Arguments d_total_cost {MW}.

Definition with_message_window {A B} (v : option B) (d : Data A) : Data B :=
  mkData (d_session_id d) (d_conversation_id d) (d_name d) (d_document_summary d) v
    (d_created_at d) (d_last_accessed d) (d_window_size d) (d_branch_info d)
    (d_last_prompt_id d) (d_total_input_tokens d) (d_total_output_tokens d) (d_total_cost d).

(** A file of [sessions/]: what [json.load] makes of it. *)
Inductive file : Type :=
  | Garbage                                  (* [json.load] raises JSONDecodeError *)
  | Json (d : Data (list Message)).

(** ** The world outside the session objects *)

Record World : Type := mkWorld {
  heap : gmap loc (list Message);                 (* the list objects *)
  sessions_dir : list (string * file);            (* [sessions/], in [os.listdir] order *)
  fs : gmap string (list (string * string));      (* other directories: path to (file name, text) *)
  clock : nat;                                    (* readings of [datetime.now()] so far *)
  uuids : nat;                                    (* calls of [uuid.uuid4()] so far *)
  rng : nat;                                      (* draws from the [random] module so far *)
  api_calls : nat                                 (* calls of the endpoint so far *)
}.

Definition set_heap (v : gmap loc (list Message)) (w : World) : World :=
  mkWorld v (sessions_dir w) (fs w) (clock w) (uuids w) (rng w) (api_calls w).
Definition set_sessions_dir (v : list (string * file)) (w : World) : World :=
  mkWorld (heap w) v (fs w) (clock w) (uuids w) (rng w) (api_calls w).
Definition set_fs (v : gmap string (list (string * string))) (w : World) : World :=
  mkWorld (heap w) (sessions_dir w) v (clock w) (uuids w) (rng w) (api_calls w).

Definition now : M World datetime :=
  fun w => (inr (now_at (clock w)),
            mkWorld (heap w) (sessions_dir w) (fs w) (S (clock w)) (uuids w) (rng w) (api_calls w)).

Definition uuid4 : M World string :=
  fun w => (inr (uuid4_at (uuids w)),
            mkWorld (heap w) (sessions_dir w) (fs w) (clock w) (S (uuids w)) (rng w) (api_calls w)).

Definition draw {A} (f : nat -> A) : M World A :=
  fun w => (inr (f (rng w)),
            mkWorld (heap w) (sessions_dir w) (fs w) (clock w) (uuids w) (S (rng w)) (api_calls w)).

Definition generate_conversation_id : M World string := draw choices_at.

(** List objects: a new object, the contents of one, [list.append],
    [list.copy]. *)
Definition alloc (l : list Message) : M World loc :=
  fun w => let r := fresh (dom (heap w)) in (inr r, set_heap (<[r := l]> (heap w)) w).

Definition contents (w : World) (r : loc) : list Message := default [] (heap w !! r).

Definition deref (r : loc) : M World (list Message) := fun w => (inr (contents w r), w).

Definition append (r : loc) (m : Message) : M World unit :=
  modify (fun w => set_heap (<[r := contents w r ++ [m]]> (heap w)) w).

Definition list_copy (r : loc) : M World loc := do l <- deref r; alloc l.

(** Files of [sessions/]: [open(path, 'w')] replaces the file, or adds it to
    the directory. *)
Fixpoint write_entry {A} (k : string) (v : A) (l : list (string * A)) : list (string * A) :=
  match l with
  | [] => [(k, v)]
  | (k', v') :: r => if String.eqb k' k then (k, v) :: r else (k', v') :: write_entry k v r
  end.

Fixpoint read_entry {A} (k : string) (l : list (string * A)) : option A :=
  match l with
  | [] => None
  | (k', v') :: r => if String.eqb k' k then Some v' else read_entry k r
  end.

Definition makedirs (p : string) : M World unit :=
  modify (fun w =>
    set_fs (foldr (fun d m => match m !! d with Some _ => m | None => <[d := []]> m end)
                  (fs w) (path_prefixes p EmptyString)) w).

(** ** session_manager.py *)

(** The generator [int(msg['prompt_id']) for msg in l if msg['role'] == 'user'],
    run to its end or to its first exception. *)
Fixpoint user_prompt_ints (l : list Message) : exn + list Z :=
  match l with
  | [] => inr []
  | msg :: rest =>
      match role msg with
      | None => inl KeyError
      | Some r =>
          if String.eqb r "user" then
            match prompt_id msg with
            | None => inl KeyError
            | Some p =>
                match Py.int p with
                | None => inl ValueError
                | Some i =>
                    match user_prompt_ints rest with
                    | inr ids => inr (i :: ids)
                    | inl e => inl e
                    end
                end
            end
          else user_prompt_ints rest
      end
  end.

(** [max] of a sequence: ValueError on the empty one. *)
Definition py_max (l : list Z) : exn + Z :=
  match l with
  | [] => inl ValueError
  | x :: r => inr (fold_left Z.max r x)
  end.

Definition max_user_prompt_id (l : list Message) : exn + Z :=
  match user_prompt_ints l with
  | inr ids => py_max ids
  | inl e => inl e
  end.

Definition is_nil {A} (l : list A) : bool :=
  match l with [] => true | _ => false end.

Definition to_dict (s : Session) : Data loc :=
  mkData (Some (session_id s)) (Some (conversation_id s)) (Some (name s))
    (Some (document_summary s)) (Some (message_window s))
    (Some (isoformat (created_at s))) (Some (isoformat (last_accessed s)))
    (Some (window_size s)) (branch_info s) (Some (last_prompt_id s))
    (Some (total_input_tokens s)) (Some (total_output_tokens s)) (Some (total_cost s)).

Definition parse_iso (s : string) : M World datetime :=
  match fromisoformat s with
  | Some d => ret d
  | None => raise ValueError
  end.

Definition from_dict (data : Data loc) : M World Session :=
  do sid <- subscript (d_session_id data);
  (* the default of [data.get] is computed whether or not it is used *)
  do generated <- generate_conversation_id;
  do nm <- subscript (d_name data);
  do summary <- subscript (d_document_summary data);
  do mw <- subscript (d_message_window data);
  do created_text <- subscript (d_created_at data);
  do created <- parse_iso created_text;
  do accessed_text <- subscript (d_last_accessed data);
  do accessed <- parse_iso accessed_text;
  let session :=
    mkSession sid (default generated (d_conversation_id data)) nm summary mw created accessed
      (default DEFAULT_CONTEXT_WINDOW (d_window_size data)) None
      (default 0 (d_last_prompt_id data))
      (default 0 (d_total_input_tokens data)) (default 0 (d_total_output_tokens data))
      (default 0%float (d_total_cost data)) in
  let session :=
    match d_branch_info data with
    | Some b => set_branch_info (Some b) session
    | None => session
    end in
  do msgs <- deref (message_window session);
  if (last_prompt_id session =? 0) && negb (is_nil msgs) then
    try_except
      (do m <- lift_result (max_user_prompt_id msgs); ret (set_last_prompt_id m session))
      (fun e => bool_decide (e = ValueError) || bool_decide (e = KeyError))
      (ret (set_last_prompt_id 0 session))
  else ret session.

(** [json.load]: the lists of the document become new list objects. *)
Definition json_load (f : file) : M World (Data loc) :=
  match f with
  | Garbage => raise JSONDecodeError
  | Json d =>
      match d_message_window d with
      | Some l => do r <- alloc l; ret (with_message_window (Some r) d)
      | None => ret (with_message_window None d)
      end
  end.

(** What [json.dump] can write: every value but a [datetime] object. *)
Definition serialisable (d : Data loc) : bool :=
  match d_branch_info d with
  | Some b => match branch_created_at b with Moment _ => false | Text _ => true end
  | None => true
  end.

Definition write_session_file (filename : string) (f : file) : M World unit :=
  modify (fun w => set_sessions_dir (write_entry filename f (sessions_dir w)) w).

(** [with open(path, 'w') as f: json.dump(d, f, indent=2)].  The encoder
    writes as it goes: when it meets a value it cannot write, the file is
    left cut short and TypeError is raised. *)
Definition json_dump_to (filename : string) (d : Data loc) : M World unit :=
  if serialisable d then
    match d_message_window d with
    | Some r =>
        do l <- deref r;
        write_session_file filename (Json (with_message_window (Some l) d))
    | None => write_session_file filename (Json (with_message_window None d))
    end
  else
    exec write_session_file filename Garbage;
    raise TypeError.

(** [SessionManager.save_session]: the session object as the call leaves it,
    beside the outcome. *)
Definition save_session (session : Session) (w : World) : (exn + unit) * Session * World :=
  match now w with
  | (inr t, w1) =>
      let session' := set_last_accessed t session in
      let '(r, w2) := json_dump_to (session_id session' +:+ ".json") (to_dict session') w1 in
      (r, session', w2)
  | (inl e, w1) => (inl e, session, w1)
  end.

(** One line of a conversation file, in the loop of [create_new]: the
    counter, the messages gathered and [current_prompt]. *)
Definition scan_line (st : Z * list Message * option string) (line : string)
  : Z * list Message * option string :=
  let '(last, window, current_prompt) := st in
  if Py.startswith line "## ID: " then
    match Py.int (Py.str_slice 7 12 line) with
    | Some pid => (Z.max last pid, window, Some (Py.format_05d pid))
    | None => st
    end
  else if Py.startswith line "**Q:** " then
    match current_prompt with
    | Some p => (last, window ++ [message_dump "user" (Py.strip (Py.str_drop 6 line)) p],
                 current_prompt)
    | None => st
    end
  else if Py.startswith line "**A:** " then
    match current_prompt with
    | Some p => (last, window ++ [message_dump "assistant" (Py.strip (Py.str_drop 6 line)) p],
                 current_prompt)
    | None => st
    end
  else st.

Definition scan_conversation_file (acc : Z * list Message) (f : string * string)
  : Z * list Message :=
  let '(filename, text) := f in
  if Py.startswith filename "conversation_" && Py.endswith filename ".md" then
    let '(last, window, _) :=
      fold_left scan_line (Py.lines (Py.universal_newlines text)) (fst acc, snd acc, None) in
    (last, window)
  else acc.

(** The body of the first loop of [create_new] on one file: the session it
    returns, or [None] when the loop goes on to the next file. *)
Definition recover (nm : string) (f : file) : M World (option Session) :=
  try_except
    (do data <- json_load f;
     if bool_decide (d_name data = Some nm) then
       do session <- from_dict data;
       do msgs <- deref (message_window session);
       if negb (is_nil msgs) then
         do max_id <- lift_result (max_user_prompt_id msgs);
         ret (Some (set_last_prompt_id max_id session))
       else ret (Some session)
     else ret None)
    (fun e => bool_decide (e = JSONDecodeError))
    (ret None).

(** The first loop of [create_new]: the first readable file of [sessions/]
    that carries the name decides. *)
Fixpoint find_existing (nm : string) (files : list (string * file)) : M World (option Session) :=
  match files with
  | [] => ret None
  | (filename, f) :: rest =>
      if Py.endswith filename ".json" then
        do found <- recover nm f;
        match found with
        | Some session => ret (Some session)
        | None => find_existing nm rest
        end
      else find_existing nm rest
  end.

(** The document that loop settles on, read off the directory. *)
Fixpoint first_named (nm : string) (files : list (string * file))
  : option (Data (list Message)) :=
  match files with
  | [] => None
  | (filename, f) :: rest =>
      if Py.endswith filename ".json" then
        match f with
        | Json d => if bool_decide (d_name d = Some nm) then Some d else first_named nm rest
        | Garbage => first_named nm rest
        end
      else first_named nm rest
  end.

Definition create_new (nm summary : string) (last_prompt_id0 : Z) : M World Session :=
  do files <- (fun w => (inr (sessions_dir w), w));
  do existing <- find_existing nm files;
  match existing with
  | Some session => ret session
  | None =>
      do sid <- uuid4;
      do cid <- generate_conversation_id;
      do listing <- (fun w => (inr (fs w !! path_join "output-docs" nm), w));
      let '(last, window) :=
        match listing with
        | Some conv_files => fold_left scan_conversation_file conv_files (last_prompt_id0, [])
        | None => (last_prompt_id0, [])
        end in
      exec makedirs (path_join "input-docs" nm);
      exec makedirs (path_join "processed-docs" nm);
      exec makedirs (path_join "output-docs" nm);
      do mw <- alloc window;
      do created <- now;
      do accessed <- now;
      ret (mkSession sid cid nm summary mw created accessed DEFAULT_CONTEXT_WINDOW None last
             0 0 0%float)
  end.

(** [_hash_documents] is a stub whose body is [pass]. *)
Definition _hash_documents (self : Session) : option string := None.

Definition create_branch (self : Session) (branch : string) (include_history : bool)
  : M World Session :=
  if Py.contains "/" branch then raise ValueError
  else
    let new_name := name self +:+ "/" +:+ branch in
    do new_session <- create_new new_name (document_summary self) 0;
    do t <- now;
    let new_session :=
      set_branch_info
        (Some (mkBranchInfo branch (session_id self) (Moment t) (_hash_documents self)))
        new_session in
    if include_history then
      do copy <- list_copy (message_window self);
      ret (set_message_window copy new_session)
    else ret new_session.

Definition get_next_prompt_id (self : Session) : Session * string :=
  let self' := set_last_prompt_id (last_prompt_id self + 1) self in
  (self', Py.format_05d (last_prompt_id self')).

(** The ids [n] successive calls return. *)
Fixpoint successive_ids (n : nat) (self : Session) : list string :=
  match n with
  | O => []
  | S n' => let '(self', pid) := get_next_prompt_id self in pid :: successive_ids n' self'
  end.

(** [SessionManager.load_session] and [get_session_by_name]. *)
Definition load_session (sid : string) : M World (option Session) :=
  do files <- (fun w => (inr (sessions_dir w), w));
  match read_entry (sid +:+ ".json") files with
  | None => ret None
  | Some f => do data <- json_load f; do session <- from_dict data; ret (Some session)
  end.

Fixpoint get_session_by_name_in (nm : string) (files : list (string * file))
  : M World (option Session) :=
  match files with
  | [] => ret None
  | (filename, _) :: rest =>
      if Py.endswith filename ".json" then
        do found <- load_session (substring 0 (String.length filename - 5) filename);
        match found with
        | Some session =>
            if String.eqb (name session) nm then ret (Some session)
            else get_session_by_name_in nm rest
        | None => get_session_by_name_in nm rest
        end
      else get_session_by_name_in nm rest
  end.

Definition get_session_by_name (nm : string) : M World (option Session) :=
  do files <- (fun w => (inr (sessions_dir w), w));
  get_session_by_name_in nm files.

(** The keys [from_dict] subscripts, with the two it parses as dates. *)
Definition has_required_keys (data : Data loc) : Prop :=
  is_Some (d_session_id data) /\ is_Some (d_name data) /\
  is_Some (d_document_summary data) /\ is_Some (d_message_window data) /\
  (exists t, d_created_at data = Some t /\ is_Some (fromisoformat t)) /\
  (exists t, d_last_accessed data = Some t /\ is_Some (fromisoformat t)).

(** *** [SessionManager.list_sessions] *)

(** [len([msg for msg in l if msg['role'] == 'user'])]. *)
Fixpoint count_user_messages (l : list Message) : exn + Z :=
  match l with
  | [] => inr 0
  | msg :: rest =>
      match role msg with
      | None => inl KeyError
      | Some r =>
          match count_user_messages rest with
          | inr n => inr (if String.eqb r "user" then 1 + n else n)
          | inl e => inl e
          end
      end
  end.

(** The body of the [try] on one file: the entries gathered, each a name
    and a message count, and [seen_names]. *)
Definition list_sessions_try (sessions : list (string * Z)) (seen_names : gset string)
    (content : file) : exn + (list (string * Z) * gset string) :=
  match content with
  | Garbage => inl JSONDecodeError
  | Json data =>
      match d_name data with
      | Some nm =>
          if bool_decide (nm ∈ seen_names) then inr (sessions, seen_names)
          else
            match count_user_messages (default [] (d_message_window data)) with
            | inr message_count => inr (sessions ++ [(nm, message_count)], {[nm]} ∪ seen_names)
            | inl e => inl e
            end
      | None => inr (sessions, seen_names)
      end
  end.

(** The loop over [sessions/]: [except (json.JSONDecodeError, KeyError)]
    goes on to the next file. *)
Fixpoint list_sessions_loop (files : list (string * file)) (sessions : list (string * Z))
    (seen_names : gset string) : exn + list (string * Z) :=
  match files with
  | [] => inr sessions
  | (filename, content) :: rest =>
      if Py.endswith filename ".json" then
        match list_sessions_try sessions seen_names content with
        | inr (sessions', seen_names') => list_sessions_loop rest sessions' seen_names'
        | inl e =>
            if bool_decide (e = JSONDecodeError) || bool_decide (e = KeyError)
            then list_sessions_loop rest sessions seen_names
            else inl e
        end
      else list_sessions_loop rest sessions seen_names
  end.

(** [sorted(sessions, key=lambda x: x['name'])]: a stable sort that compares
    the names as strings. *)
Fixpoint insert_by_name (x : string * Z) (l : list (string * Z)) : list (string * Z) :=
  match l with
  | [] => [x]
  | y :: r => if String.leb (fst x) (fst y) then x :: l else y :: insert_by_name x r
  end.

Definition sorted_by_name (l : list (string * Z)) : list (string * Z) :=
  foldr insert_by_name [] l.

Definition list_sessions (w : World) : exn + list (string * Z) :=
  match list_sessions_loop (sessions_dir w) [] ∅ with
  | inr sessions => inr (sorted_by_name sessions)
  | inl e => inl e
  end.

(** A file that [list_sessions] can list under the name [nm], with [k] user
    messages: a [.json] file that parses, carries the name, and whose
    messages all have a role. *)
Definition listable (nm : string) (k : Z) (f : string * file) : Prop :=
  Py.endswith (fst f) ".json" = true /\
  exists d, snd f = Json d /\ d_name d = Some nm /\
            count_user_messages (default [] (d_message_window d)) = inr k.

(** The first such file of a directory listing. *)
Definition first_listable (files : list (string * file)) (nm : string) (k : Z) : Prop :=
  exists pre x post,
    files = pre ++ x :: post /\ listable nm k x /\
    forall y k', y ∈ pre -> ~ listable nm k' y.

(** What the loop of [list_sessions] has established after the files
    [done_]. *)
Definition loop_inv (done_ : list (string * file)) (sessions : list (string * Z))
    (seen : gset string) : Prop :=
  NoDup (map fst sessions) /\
  (forall nm, nm ∈ seen <-> nm ∈ map fst sessions) /\
  (forall nm k, (nm, k) ∈ sessions <-> first_listable done_ nm k).

Definition name_le (a b : string * Z) : Prop := String.leb (fst a) (fst b) = true.

(** *** Relations between worlds *)

(** The list objects a computation found are still there, with the same
    contents, when it ends: it only makes new ones. *)
Definition heap_grows (w w' : World) : Prop := heap w ⊆ heap w'.

(** The list objects are as they were. *)
Definition heap_same (w w' : World) : Prop := heap w' = heap w.


(** The files are as they were: [sessions/] and the other directories. *)
Definition files_same (w w' : World) : Prop :=
  sessions_dir w' = sessions_dir w /\ fs w' = fs w.

Definition sessions_same (w w' : World) : Prop := sessions_dir w' = sessions_dir w.

(** The directories a computation found are still there, with the files
    they held. *)
Definition dirs_kept (w w' : World) : Prop :=
  forall d l, fs w !! d = Some l -> fs w' !! d = Some l.

End Sessions.

Arguments mkData {C MW}.
Arguments d_session_id {C MW}.
Arguments d_conversation_id {C MW}.
Arguments d_name {C MW}.
Arguments d_document_summary {C MW}.
Arguments d_message_window {C MW}.
Arguments d_created_at {C MW}.
Arguments d_last_accessed {C MW}.
Arguments d_window_size {C MW}.
Arguments d_branch_info {C MW}.
Arguments d_last_prompt_id {C MW}.
Arguments d_total_input_tokens {C MW}.
Arguments d_total_output_tokens {C MW}.
Arguments d_total_cost {C MW}.

(** ** The retry decorator of document_processor.py *)

Section Retry.
Context {S A : Type}.
Variable uniform : S -> Q * S.         (* [random.uniform(0, 0.1)] *)
Variable func : M S A.                 (* the wrapped call *)

(** What the wrapper does that the world can see: calls of [func], with
    their outcome, and sleeps, with the delay they are computed from. *)
Inductive event : Type :=
  | Attempt (outcome : exn + A)
  | Sleep (delay : Z) (sleep_time : Q).

(** The [for retry in range(max_retries)] loop, [remaining] iterations
    before its end.  [None] is the [return None] after the loop. *)
Fixpoint retry_loop (max_retries max_delay : Z) (remaining : nat) (retry delay : Z) (s : S)
  : (exn + option A) * S * list event :=
  match remaining with
  | O => (inr None, s, [])
  | Datatypes.S remaining' =>
      match func s with
      | (inr v, s1) => (inr (Some v), s1, [Attempt (inr v)])
      | (inl e, s1) =>
          if negb (retryable e) then (inl e, s1, [Attempt (inl e)])
          else if retry =? max_retries - 1 then (inl e, s1, [Attempt (inl e)])
          else
            let '(u, s2) := uniform s1 in
            let jitter := (u * inject_Z delay)%Q in
            let sleep_time := (inject_Z delay + jitter)%Q in
            let '(r, s3, tr) :=
              retry_loop max_retries max_delay remaining' (retry + 1)
                (Z.min (delay * 2) max_delay) s2 in
            (r, s3, Attempt (inl e) :: Sleep delay sleep_time :: tr)
      end
  end.

Definition retry_with_exponential_backoff (max_retries initial_delay max_delay : Z) (s : S)
  : (exn + option A) * S * list event :=
  retry_loop max_retries max_delay (Z.to_nat max_retries) 0 initial_delay s.

(** The decorator as the program applies it: [@retry_with_exponential_backoff()]. *)
Definition with_retries : S -> (exn + option A) * S * list event :=
  retry_with_exponential_backoff 5 1 32.

Definition attempts (tr : list event) : list (exn + A) :=
  omap (fun ev => match ev with Attempt o => Some o | Sleep _ _ => None end) tr.

Definition sleeps (tr : list event) : list (Z * Q) :=
  omap (fun ev => match ev with Sleep d t => Some (d, t) | Attempt _ => None end) tr.

(** An attempt that failed with a rate-limit or overload error. *)
Definition transient_failure (o : exn + A) : Prop :=
  exists e, o = inl e /\ retryable e = true.

(** What the wrapper hands to its caller when an attempt is its last. *)
Definition outcome_of (o : exn + A) : exn + option A :=
  match o with
  | inr v => inr (Some v)
  | inl e => inl e
  end.

End Retry.

(** The delay before sleep number [k] (from 0) of a loop that starts at [d]. *)
Definition nth_delay (max_delay d : Z) (k : nat) : Z :=
  Nat.iter k (fun x => Z.min (x * 2) max_delay) d.
Arguments Attempt {A}.
Arguments Sleep {A}.


(** ** DocumentProcessor *)

Section Processor.
Context {C : Collaborators}.

Record Processor : Type := mkProcessor {
  current_session : option Session;
  max_tokens : Z;
  current_system_prompt : string;
  world : World
}.

Definition set_current_session (v : option Session) (p : Processor) : Processor :=
  mkProcessor v (max_tokens p) (current_system_prompt p) (world p).

Definition set_world (v : World) (p : Processor) : Processor :=
  mkProcessor (current_session p) (max_tokens p) (current_system_prompt p) v.

(** A computation on the world, run inside the processor. *)
Definition in_world {A} (c : M World A) : M Processor A :=
  fun p => let '(r, w) := c (world p) in (r, set_world w p).

(** [self.current_session.<attribute>]: AttributeError on [None]. *)
Definition the_session : M Processor Session :=
  fun p =>
    match current_session p with
    | Some s => (inr s, p)
    | None => (inl AttributeError, p)
    end.

(** [self.session_manager.save_session(self.current_session)]: the object
    keeps its new [last_accessed] whatever the outcome. *)
Definition save_current_session : M Processor unit :=
  fun p =>
    match current_session p with
    | None => (inl AttributeError, p)
    | Some s =>
        let '(r, s', w) := save_session s (world p) in
        (r, mkProcessor (Some s') (max_tokens p) (current_system_prompt p) w)
    end.

(** A method of the session object, called on [self.current_session]: the
    object is changed in place, and the method may return a value. *)
Definition on_session {A} (method : Session -> Session * A) : M Processor A :=
  fun p =>
    match current_session p with
    | Some s => let '(s', a) := method s in (inr a, set_current_session (Some s') p)
    | None => (inl AttributeError, p)
    end.

(** An assignment to attributes of [self.current_session]. *)
Definition update_session (f : Session -> Session) : M Processor unit :=
  on_session (fun s => (f s, tt)).

Definition int_to_float (n : Z) : M Processor float :=
  match float_of_int n with
  | Some f => ret f
  | None => raise OverflowError
  end.

(** The cost of one call, as [_track_usage] computes it. *)
Definition call_cost (fin fout : float) : float :=
  PrimFloat.add (PrimFloat.mul (PrimFloat.div fin thousand) price_input)
                (PrimFloat.mul (PrimFloat.div fout thousand) price_output).

Definition _track_usage (response : Response) : M Processor unit :=
  exec update_session (fun s =>
    set_total_input_tokens (total_input_tokens s + input_tokens response) s);
  exec update_session (fun s =>
    set_total_output_tokens (total_output_tokens s + output_tokens response) s);
  do fin <- int_to_float (input_tokens response);
  do fout <- int_to_float (output_tokens response);
  exec update_session (fun s =>
    set_total_cost (PrimFloat.add (total_cost s) (call_cost fin fout)) s);
  save_current_session.

(** The cost [_track_usage] adds for one response. *)
Definition incremental_cost (r : Response) : float :=
  call_cost (nearest_float (input_tokens r)) (nearest_float (output_tokens r)).

(** Successive calls of [_track_usage], one per response. *)
Fixpoint track_usages (responses : list Response) : M Processor unit :=
  match responses with
  | [] => ret tt
  | r :: rest => exec _track_usage r; track_usages rest
  end.

(** The context [ask_question] builds: the messages of the window, each
    through the [Message] model, then the question. *)
Fixpoint window_messages (l : list Message) : exn + list (string * string) :=
  match l with
  | [] => inr []
  | msg :: rest =>
      match role msg, content msg with
      | Some r, Some c =>
          match window_messages rest with
          | inr ms => inr ((r, c) :: ms)
          | inl e => inl e
          end
      | _, _ => inl KeyError
      end
  end.

Definition build_messages (history : list Message) (window : Z) (question : string)
  : exn + list (string * string) :=
  match window_messages (Py.last_k window history) with
  | inr ms => inr (ms ++ [("user", question)])
  | inl e => inl e
  end.

(** The two listings [ask_question] prints before the call: they read
    [m["role"]] of every message and [msg["prompt_id"]] of every user
    message. *)
Fixpoint user_prompts (l : list Message) : exn + list string :=
  match l with
  | [] => inr []
  | msg :: rest =>
      match role msg with
      | None => inl KeyError
      | Some r =>
          if String.eqb r "user" then
            match prompt_id msg with
            | None => inl KeyError
            | Some p =>
                match user_prompts rest with
                | inr ps => inr (p :: ps)
                | inl e => inl e
                end
            end
          else user_prompts rest
      end
  end.

Definition append_text (dir filename text : string) : M World unit :=
  modify (fun w =>
    let listing := default [] (fs w !! dir) in
    let old := default EmptyString (read_entry filename listing) in
    set_fs (<[dir := write_entry filename (old +:+ text) listing]> (fs w)) w).

Definition file_exists (dir filename : string) (w : World) : bool :=
  match fs w !! dir with
  | Some listing => match read_entry filename listing with Some _ => true | None => false end
  | None => false
  end.

Definition newline : string := String "010" EmptyString.

Definition _save_conversation_output (question answer pid : string) : M Processor unit :=
  fun p =>
    match current_session p with
    | None => (inr tt, p)
    | Some s =>
        (exec in_world (makedirs (path_join "output-docs" (name s)));
         let dir := path_join "output-docs" (name s) in
         let branch :=
           match branch_info s with
           | Some b => ":" +:+ branch_name b
           | None => EmptyString
           end in
         let header :=
           "# Conversation: [" +:+ name s +:+ branch +:+ "] [" +:+ current_system_prompt p
           +:+ "] [" +:+ py_str (max_tokens p) +:+ "] [Conversation ID: "
           +:+ conversation_id s +:+ "]" in
         do present <- in_world (fun w => (inr (file_exists dir "conversation.md" w), w));
         exec (if present : bool then ret tt
               else in_world (append_text dir "conversation.md" (header +:+ newline +:+ newline)));
         do t <- in_world now;
         exec in_world (append_text dir "conversation.md"
           ("## ID: " +:+ pid +:+ "  " +:+ strftime_seconds t +:+ newline +:+ newline));
         exec in_world (append_text dir "conversation.md"
           ("**Q:** " +:+ question +:+ newline +:+ newline));
         in_world (append_text dir "conversation.md"
           ("**A:** " +:+ answer +:+ newline +:+ newline +:+ "---" +:+ newline +:+ newline))) p
    end.

Definition call_endpoint (req : Request) : M Processor Response :=
  in_world (fun w =>
    (messages_create (api_calls w) req,
     mkWorld (heap w) (sessions_dir w) (fs w) (clock w) (uuids w) (rng w) (Datatypes.S (api_calls w)))).

(** The body of [ask_question], under the decorator. *)
Definition ask_question_body (question : string) : M Processor (string * string) :=
  do p0 <- get;
  match current_session p0 with
  | None => raise ValueError
  | Some s0 =>
      do understanding <-
        match understanding_of_json (document_summary s0) with
        | Some u => ret u
        | None => raise ValidationError
        end;
      do prompt <- subscript (system_prompts (current_system_prompt p0));
      let system :=
        [prompt;
         "<conversation id='" +:+ conversation_id s0 +:+ "'>" +:+ newline +:+ understanding
         +:+ newline +:+ "</conversation>"] in
      do history <- in_world (deref (message_window s0));
      do messages <- lift_result (build_messages history (window_size s0) question);
      do shown <- lift_result (user_prompts history);
      do response <- call_endpoint (mkRequest (max_tokens p0) system messages);
      exec _track_usage response;
      let answer := resp_text response in
      do pid <- on_session get_next_prompt_id;
      do s1 <- the_session;
      exec in_world (append (message_window s1) (message_dump "user" question pid));
      do s2 <- the_session;
      exec in_world (append (message_window s2) (message_dump "assistant" answer pid));
      exec save_current_session;
      exec _save_conversation_output question answer pid;
      ret (answer, pid)
  end.

Definition uniform_draw (p : Processor) : Q * Processor :=
  (uniform_at (rng (world p)),
   set_world (mkWorld (heap (world p)) (sessions_dir (world p)) (fs (world p)) (clock (world p))
                (uuids (world p)) (Datatypes.S (rng (world p))) (api_calls (world p))) p).

Definition ask_question (question : string) (p : Processor)
  : (exn + option (string * string)) * Processor * list (event (A := string * string)) :=
  with_retries uniform_draw (ask_question_body question) p.

(** [DocumentProcessor.create_branch]. *)
Definition processor_create_branch (branch : string) (include_history : bool)
  : M Processor unit :=
  do p <- get;
  match current_session p with
  | None => raise ValueError
  | Some s =>
      do new_session <- in_world (create_branch s branch include_history);
      do saved <- (fun p =>
        let '(r, s', w) := save_session new_session (world p) in
        (match r with inr _ => inr s' | inl e => inl e end, set_world w p));
      modify (set_current_session (Some saved))
  end.

Definition has_document_extension (filename : string) : bool :=
  Py.endswith filename ".txt" || Py.endswith filename ".md" || Py.endswith filename ".doc"
  || Py.endswith filename ".docx" || Py.endswith filename ".pdf".

Definition load_documents_from_directory (input_dir : string)
  : M Processor (list (string * string)) :=
  in_world (fun w =>
    match fs w !! input_dir with
    | None => (inl ValueError, w)
    | Some listing =>
        (inr ((fun f => (fst f, Py.universal_newlines (snd f)))
                <$> filter (fun f => has_document_extension (fst f)) listing), w)
    end).

Definition write_text (dir filename text : string) : M World unit :=
  modify (fun w =>
    set_fs (<[dir := write_entry filename text (default [] (fs w !! dir))]> (fs w)) w).

Definition fence : string := "```" +:+ newline.

Definition analysis_request : string :=
  "Create a comprehensive analysis and understanding of these documents that can serve as a foundation for future interactions.".

(** The end of both paths of [process_documents]: the session of that name
    becomes the current one and is saved. *)
Definition adopt_session (nm : string) (docs : list (string * string)) (summary : string)
  : M Processor unit :=
  do s <- in_world (create_new nm (understanding_dump docs summary) 0);
  exec modify (set_current_session (Some s));
  save_current_session.

(** The body of [process_documents], under the decorator
    ([LOAD_PROCESSED_DOCS] is [True]). *)
Definition process_documents_body (docs : list (string * string)) (nm : string)
  : M Processor string :=
  let processed_dir := path_join "processed-docs" nm in
  do cached <- in_world (fun w =>
    (inr (match fs w !! processed_dir with
          | Some listing => read_entry "understanding.md" listing
          | None => None
          end), w));
  match cached with
  | Some bytes =>
      let text := Py.universal_newlines bytes in
      let summary_start :=
        py_find (newline +:+ newline) text (py_find (fence +:+ newline) text 0) + 2 in
      let summary := str_from summary_start text in
      exec adopt_session nm docs summary;
      ret summary
  | None =>
      do prompt <- subscript (system_prompts "analysis");
      let system :=
        [prompt;
         "<conversation id='" +:+ nm +:+ "'>" +:+ newline +:+ documents_dump docs
         +:+ newline +:+ "</conversation>"] in
      do response <- call_endpoint (mkRequest 4096 system [("user", analysis_request)]);
      exec _track_usage response;
      let summary := resp_text response in
      exec in_world (makedirs processed_dir);
      exec in_world (write_text processed_dir "understanding.md"
        ("# Document Understanding" +:+ newline +:+ newline
         +:+ "Generated using system prompt:" +:+ newline +:+ fence +:+ prompt +:+ newline
         +:+ fence +:+ newline +:+ summary));
      exec adopt_session nm docs summary;
      ret summary
  end.

Definition process_documents (docs : list (string * string)) (nm : string) (p : Processor)
  : (exn + option string) * Processor * list (event (A := string)) :=
  with_retries uniform_draw (process_documents_body docs nm) p.

(** [context_window or DEFAULT_CONTEXT_WINDOW]. *)
Definition reload_window (context_window : option Z) : Z :=
  match context_window with
  | Some k => if k =? 0 then DEFAULT_CONTEXT_WINDOW else k
  | None => DEFAULT_CONTEXT_WINDOW
  end.

(** [reload_documents(context_window)].  The decorator's [return None] is
    not reached with five retries; the summary is then left as it is. *)
Definition reload_documents (context_window : option Z) : M Processor unit :=
  do p <- get;
  match current_session p with
  | None => raise ValueError
  | Some s =>
      let window := reload_window context_window in
      do docs <- load_documents_from_directory (path_join "input-docs" (name s));
      do summary <- (fun p =>
        let '(r, p', _) := process_documents docs (name s) p in (r, p'));
      exec match summary with
           | Some text => update_session (set_document_summary text)
           | None => ret tt
           end;
      do current <- the_session;
      do history <- in_world (deref (message_window current));
      do sliced <- in_world (alloc (Py.last_k window history));
      exec update_session (set_message_window sliced);
      save_current_session
  end.


(** *** Relations between processor states *)

(** The history and the current session's reference to it and counter are
    as they were. *)
Definition same_object (o o' : option Session) : Prop :=
  match o, o' with
  | Some s, Some s' =>
      message_window s' = message_window s /\ last_prompt_id s' = last_prompt_id s
  | None, None => True
  | _, _ => False
  end.

Definition untouched (p p' : Processor) : Prop :=
  heap (world p') = heap (world p) /\
  same_object (current_session p) (current_session p').

(** The current session still refers to the same list object, and what the
    object held is still there, in order, possibly followed by more. *)
Definition history_kept (p p' : Processor) : Prop :=
  forall s, current_session p = Some s ->
    exists s' suffix,
      current_session p' = Some s' /\
      message_window s' = message_window s /\
      contents (world p') (message_window s) = contents (world p) (message_window s) ++ suffix.

(** A message that has the keys the context reads, and what the context
    takes of it. *)
Definition has_role_and_content (m : Message) : Prop :=
  is_Some (role m) /\ is_Some (content m).

Definition role_and_content (m : Message) : string * string :=
  (default EmptyString (role m), default EmptyString (content m)).


(** *** Texts the processor writes *)

(** What the three [f.write] calls of [_save_conversation_output] add to the
    file for one exchange. *)
Definition conversation_entry (pid timestamp question answer : string) : string :=
  ("## ID: " +:+ pid +:+ "  " +:+ timestamp +:+ newline +:+ newline)
  +:+ ("**Q:** " +:+ question +:+ newline +:+ newline)
  +:+ ("**A:** " +:+ answer +:+ newline +:+ newline +:+ "---" +:+ newline +:+ newline).

(** What [process_documents] writes to [understanding.md]. *)
Definition understanding_file (prompt summary : string) : string :=
  "# Document Understanding" +:+ newline +:+ newline
  +:+ "Generated using system prompt:" +:+ newline +:+ fence +:+ prompt +:+ newline
  +:+ fence +:+ newline +:+ summary.

(** The request [process_documents] sends for the documents [docs] of the
    conversation [nm]. *)
Definition analysis_call (prompt : string) (docs : list (string * string)) (nm : string)
  : Request :=
  mkRequest 4096
    [prompt;
     "<conversation id='" +:+ nm +:+ "'>" +:+ newline +:+ documents_dump docs
     +:+ newline +:+ "</conversation>"]
    [("user", analysis_request)].

(** No cached understanding for the conversation [nm]. *)
Definition no_cached_understanding (nm : string) (w : World) : Prop :=
  match fs w !! path_join "processed-docs" nm with
  | Some listing => read_entry "understanding.md" listing
  | None => None
  end = None.

(** Texts on which the embedding of [str] is exact: ASCII characters, the
    ones whose white space [strip] and whose digits [int] know, and no
    carriage return, which [open(path, 'r')] would translate. *)
Definition ascii_text (s : string) : bool :=
  Py.str_all (fun c => (nat_of_ascii c <? 128)%nat) s.

Definition no_carriage_return (s : string) : bool :=
  Py.str_all (fun c => negb (Ascii.eqb c "013")) s.

Definition plain_text (s : string) : bool := ascii_text s && no_carriage_return s.

(** A text without a line end. *)
Definition single_line (s : string) : bool :=
  Py.str_all (fun c => negb (Ascii.eqb c "010") && negb (Ascii.eqb c "013")) s.

(** The text of a file of a directory, empty when there is none. *)
Definition file_text (dir filename : string) (w : World) : string :=
  default EmptyString (read_entry filename (default [] (fs w !! dir))).

(** What the markdown recovery of [create_new] gathers from a directory. *)
Definition recovered (dir : string) (w : World) (acc : Z * list Message) : Z * list Message :=
  fold_left scan_conversation_file (default [] (fs w !! dir)) acc.

(** The processor is as it was, but for the clock, the random source and the
    count of endpoint calls. *)
Definition undisturbed (p p' : Processor) : Prop :=
  current_session p' = current_session p /\
  max_tokens p' = max_tokens p /\
  current_system_prompt p' = current_system_prompt p /\
  heap (world p') = heap (world p) /\
  sessions_dir (world p') = sessions_dir (world p) /\
  fs (world p') = fs (world p).

(** The markdown recovery would gather the same from every directory. *)
Definition recovery_same (p p' : Processor) : Prop :=
  forall dir acc, recovered dir (world p') acc = recovered dir (world p) acc.

End Processor.

(** ** A scenario to run the model on *)

Module Scenario.

(** Collaborators that can be computed with: time stamps are their own ISO
    text, the endpoint always answers, and every jitter draw is 0.05. *)
Definition collaborators : Collaborators := {|
  datetime := string;
  isoformat := fun d => d;
  fromisoformat := fun s => Some s;
  strftime_seconds := fun d => d;
  now_at := fun n => "T" +:+ Py.decimal (Z.of_nat n);
  uuid4_at := fun n => "uuid-" +:+ Py.decimal (Z.of_nat n);
  choices_at := fun n => "CONV0" +:+ Py.decimal (Z.of_nat n);
  uniform_at := fun n => (1 # 20)%Q;
  messages_create := fun n req => inr (mkResponse "answer" 100 50);
  understanding_of_json := fun s => Some s;
  understanding_dump := fun docs s => s;
  documents_dump := fun docs => "[]";
  system_prompts := fun k => if String.eqb k "analysis" then Some "ANALYSIS" else None
|}.

#[local] Existing Instance collaborators.

Definition empty_world : World := mkWorld ∅ [] ∅ 0 0 0 0.

(** A processor whose current session is a new session named "main". *)
Definition started : Processor :=
  Eval vm_compute in
  snd (adopt_session "main" [] "{}" (mkProcessor None 1024 "analysis" empty_world)).

Fixpoint ask_times (n : nat) (p : Processor) : Processor :=
  match n with
  | O => p
  | S n' =>
      match ask_question "question" p with
      | (_, p', _) => ask_times n' p'
      end
  end.

Definition after_six : Processor := Eval vm_compute in ask_times 6 started.
Definition after_ten : Processor := Eval vm_compute in ask_times 10 started.

(** The processor after [reload_documents()] on [after_six]. *)
Definition after_reload : Processor :=
  Eval vm_compute in snd (reload_documents None after_six).

Definition session_of (p : Processor) : Session :=
  match current_session p with
  | Some s => s
  | None => mkSession "" "" "" "" 0%nat "" "" 0 None 0 0 0 0%float
  end.

Definition history_of (p : Processor) : list Message :=
  contents (world p) (message_window (session_of p)).

(** What [Session.create_branch] returns on [after_six] for the name "alt",
    and the world it leaves. *)
Definition branch_child : Session :=
  Eval vm_compute in
  match fst (create_branch (session_of after_six) "alt" true (world after_six)) with
  | inr child => child
  | inl _ => session_of after_six
  end.

Definition branch_world : World :=
  Eval vm_compute in
  snd (create_branch (session_of after_six) "alt" true (world after_six)).

(** The same world, with a stale counter in the stored snapshot. *)
Definition stale_snapshot : Data (list Message) :=
  with_message_window (Some (history_of after_six))
    (to_dict (set_last_prompt_id 2 (session_of after_six))).

Definition stale_world : World :=
  set_sessions_dir [("uuid-0.json", Json stale_snapshot)] (world after_six).

(** A wrapped call that fails three times with a rate-limit error, then
    succeeds; its state counts the calls. *)
Definition flaky : M nat string :=
  fun n => if (n <? 3)%nat then (inl RateLimitError, S n) else (inr "done", S n).

Definition steady_jitter : nat -> Q * nat := fun n => ((1 # 20)%Q, n).

(** A wrapped call that always fails with an overload error. *)
Definition overloaded : M nat string := fun n => (inl InternalServerError, S n).

Definition usages : list Response := [mkResponse "a" 100 50; mkResponse "b" 200 100].


(** A processor that has no session yet. *)
Definition fresh_processor : Processor := mkProcessor None 1024 "analysis" empty_world.

Definition after_one : Processor := Eval vm_compute in ask_times 1 started.

(** [after_six] after [reload_documents(1)]: the stored history is the last
    answer alone. *)
Definition trimmed : Processor :=
  Eval vm_compute in snd (reload_documents (Some 1) after_six).


(** A stored session that carries the name of a branch of "main". *)
Definition alt_session : Session :=
  mkSession "uuid-9" "CONV09" "main/alt" "{}" 0%nat "T0" "T0" 10 None 3 0 0 0%float.

Definition alt_history : list Message :=
  [message_dump "user" "earlier" "00003"; message_dump "assistant" "reply" "00003"].

Definition alt_world : World :=
  set_sessions_dir
    [("uuid-0.json", Json stale_snapshot);
     ("uuid-9.json", Json (with_message_window (Some alt_history) (to_dict alt_session)))]
    (world after_six).

(** The world after a search for a name that is not stored. *)
Definition not_found_world : World :=
  Eval vm_compute in snd (get_session_by_name "other" (world after_six)).

(** A directory of six files for [list_sessions]. *)
Definition stored (nm : string) (msgs : list Message) : Data (list Message) :=
  with_message_window (Some msgs)
    (to_dict (mkSession "id" "CONV00" nm "{}" 0%nat "T0" "T0" 10 None 0 0 0 0%float)).

Definition pair_of (pid : string) : list Message :=
  [message_dump "user" "q" pid; message_dump "assistant" "a" pid].

Definition listing_world : World :=
  set_sessions_dir
    [("2.json", Json (stored "beta" (pair_of "00001" ++ pair_of "00002")));
     ("1.json", Json (stored "alpha" (pair_of "00001")));
     ("3.json", Garbage);
     ("4.json", Json (stored "beta" []));
     ("notes.txt", Json (stored "gamma" []));
     ("5.json", Json (stored "delta" [mkMessage None (Some "x") None]))]
    empty_world.

(** A processor that finds a cached understanding for "main". *)
Definition cached_processor : Processor :=
  mkProcessor None 1024 "analysis"
    (set_fs (<["processed-docs/main" :=
                 [("understanding.md", understanding_file "ANALYSIS" "answer")]]> ∅)
            empty_world).

(** [started] after the documents of a conversation "notes" were processed. *)
Definition analysed : Processor :=
  Eval vm_compute in snd (process_documents_body [] "notes" started).

End Scenario.


(** ** The same scenario with an endpoint that is always overloaded *)

Module Outage.

Definition busy : Collaborators := {|
  datetime := string;
  isoformat := fun d => d;
  fromisoformat := fun s => Some s;
  strftime_seconds := fun d => d;
  now_at := fun n => "T" +:+ Py.decimal (Z.of_nat n);
  uuid4_at := fun n => "uuid-" +:+ Py.decimal (Z.of_nat n);
  choices_at := fun n => "CONV0" +:+ Py.decimal (Z.of_nat n);
  uniform_at := fun n => (1 # 20)%Q;
  messages_create := fun n req => inl InternalServerError;
  understanding_of_json := fun s => Some s;
  understanding_dump := fun docs s => s;
  documents_dump := fun docs => "[]";
  system_prompts := fun k => if String.eqb k "analysis" then Some "ANALYSIS" else None
|}.

#[local] Existing Instance busy.

Definition waiting : Processor :=
  Eval vm_compute in
  snd (adopt_session "main" [] "{}" (mkProcessor None 1024 "analysis" (mkWorld ∅ [] ∅ 0 0 0 0))).

Definition gave_up : Processor :=
  Eval vm_compute in snd (fst (ask_question "question" waiting)).

Definition gave_up_trace : list (event (A := string * string)) :=
  Eval vm_compute in snd (ask_question "question" waiting).

End Outage.

(** * Properties *)

(** ** Slices, decimal rendering and [int] *)

Lemma last_k_pos {A} (k : Z) (l : list A) :
  0 < k -> Py.last_k k l = skipn (length l - Z.to_nat k) l.
Proof.
  intros Hk. unfold Py.last_k, Py.slice_from.
  destruct (Z.ltb_spec (- k) 0) as [_|H]; [|lia].
  f_equal; lia.
Qed.

Lemma last_k_zero {A} (l : list A) : Py.last_k 0 l = l.
Proof.
  unfold Py.last_k, Py.slice_from. simpl.
  rewrite Z.min_l by lia. reflexivity.
Qed.

Lemma last_k_length {A} (k : Z) (l : list A) :
  0 < k -> length (Py.last_k k l) = Nat.min (length l) (Z.to_nat k).
Proof. intros Hk. rewrite last_k_pos by done. rewrite length_skipn. lia. Qed.

Lemma last_k_is_suffix {A} (k : Z) (l : list A) : exists pre, l = pre ++ Py.last_k k l.
Proof.
  unfold Py.last_k, Py.slice_from.
  eexists. symmetry. apply firstn_skipn.
Qed.

Lemma digit_of_char (d : Z) : 0 <= d < 10 -> Py.digit_of (Py.digit_char d) = Some d.
Proof.
  intros H.
  assert (Hd : d = 0 \/ d = 1 \/ d = 2 \/ d = 3 \/ d = 4 \/ d = 5 \/ d = 6 \/ d = 7 \/ d = 8 \/ d = 9) by lia.
  destruct Hd as [-> | [-> | [-> | [-> | [-> | [-> | [-> | [-> | [-> | ->]]]]]]]]]; reflexivity.
Qed.

Lemma decimal_aux_spec (f : nat) : forall n acc,
  0 <= n < 2 ^ Z.of_nat (S f) ->
  exists k : nat,
    (0 < k)%nat /\ n < 10 ^ Z.of_nat k /\ (n = 0 \/ 10 ^ (Z.of_nat k - 1) <= n) /\
    String.length (Py.decimal_aux (S f) n acc) = (k + String.length acc)%nat /\
    (Py.str_all Py.is_digit acc = true -> Py.str_all Py.is_digit (Py.decimal_aux (S f) n acc) = true) /\
    forall a p, Py.int_digits (Py.decimal_aux (S f) n acc) a p
                = Py.int_digits acc (a * 10 ^ Z.of_nat k + n) true.
Proof.
  induction f as [|f IH]; intros n acc Hn.
  - (* fuel 1: n < 2 *)
    exists 1%nat. cbn [Py.decimal_aux].
    assert (Hz : n / 10 = 0) by (apply Z.div_small; simpl in Hn; lia).
    rewrite Hz. simpl Z.eqb. cbv iota.
    assert (Hm : n mod 10 = n) by (apply Z.mod_small; simpl in Hn; lia).
    rewrite Hm.
    assert (Hd : Py.digit_of (Py.digit_char n) = Some n) by (apply digit_of_char; simpl in Hn; lia).
    repeat split.
    + lia.
    + simpl in Hn. simpl. lia.
    + simpl in Hn. simpl. lia.
    + intros Hacc. cbn [Py.str_all]. unfold Py.is_digit at 1. rewrite Hd. exact Hacc.
    + intros a p. cbn [Py.int_digits]. rewrite Hd. f_equal; lia.
  - remember (S f) as f1.
    cbn [Py.decimal_aux].
    assert (Hmod : 0 <= n mod 10 < 10) by (apply Z.mod_pos_bound; lia).
    assert (Hd : Py.digit_of (Py.digit_char (n mod 10)) = Some (n mod 10)) by (apply digit_of_char; lia).
    destruct (Z.eqb_spec (n / 10) 0) as [Hz|Hnz].
    + exists 1%nat.
      assert (Hsmall : n < 10).
      { destruct (Z.lt_ge_cases n 10); [done|].
        assert (1 <= n / 10) by (apply Z.div_le_lower_bound; lia). lia. }
      assert (Hm : n mod 10 = n) by (apply Z.mod_small; lia).
      rewrite Hm in *.
      repeat split.
      * lia.
      * simpl. lia.
      * simpl. lia.
      * intros Hacc. cbn [Py.str_all]. unfold Py.is_digit at 1. rewrite Hd. exact Hacc.
      * intros a p. cbn [Py.int_digits]. rewrite Hd. f_equal; lia.
    + assert (Hq : 0 <= n / 10 < 2 ^ Z.of_nat f1).
      { split; [apply Z.div_pos; lia|].
        apply Z.div_lt_upper_bound; [lia|].
        replace (Z.of_nat (S f1)) with (Z.of_nat f1 + 1) in Hn by lia.
        rewrite Z.pow_add_r in Hn by lia. lia. }
      destruct (IH (n / 10) (String (Py.digit_char (n mod 10)) acc) Hq)
        as (k & Hk & Hlt & Hge & Hlen & Hall & Hint).
      exists (S k).
      assert (Hn10 : n = 10 * (n / 10) + n mod 10) by (apply Z.div_mod; lia).
      replace (Z.of_nat (S k)) with (Z.of_nat k + 1) by lia.
      rewrite Z.pow_add_r by lia.
      replace (Z.of_nat k + 1 - 1) with (Z.of_nat k - 1 + 1) by lia.
      rewrite Z.pow_add_r by lia.
      assert (Hpos : 0 <= n / 10) by lia.
      destruct Hge as [Hge|Hge]; [lia|].
      repeat split.
      * lia.
      * lia.
      * right. lia.
      * rewrite Hlen. cbn [String.length]. lia.
      * intros Hacc. apply Hall. cbn [Py.str_all]. unfold Py.is_digit at 1. rewrite Hd. exact Hacc.
      * intros a p. rewrite Hint. cbn [Py.int_digits]. rewrite Hd. f_equal; lia.
Qed.

Lemma decimal_spec (n : Z) :
  0 <= n ->
  exists k : nat,
    (0 < k)%nat /\ n < 10 ^ Z.of_nat k /\ (n = 0 \/ 10 ^ (Z.of_nat k - 1) <= n) /\
    String.length (Py.decimal n) = k /\
    Py.str_all Py.is_digit (Py.decimal n) = true /\
    forall a p, Py.int_digits (Py.decimal n) a p = Some (a * 10 ^ Z.of_nat k + n).
Proof.
  intros Hn. unfold Py.decimal.
  assert (Hf : 0 <= n < 2 ^ Z.of_nat (S (Z.to_nat (Z.log2 n)))).
  { split; [done|].
    destruct (Z.eq_dec n 0) as [->|Hne]; [simpl; lia|].
    rewrite Nat2Z.inj_succ, Z2Nat.id by apply Z.log2_nonneg.
    apply Z.log2_spec. lia. }
  destruct (decimal_aux_spec _ n EmptyString Hf) as (k & Hk & Hlt & Hge & Hlen & Hall & Hint).
  exists k. repeat split; try done.
  - rewrite Hlen. simpl. lia.
  - apply Hall. reflexivity.
Qed.

Lemma length_app_str (s t : string) :
  String.length (s +:+ t) = (String.length s + String.length t)%nat.
Proof. induction s as [|c s IH]; simpl; [done|]. by rewrite IH. Qed.

Lemma zeros_length (k : nat) : String.length (Py.zeros k) = k.
Proof. induction k as [|k IH]; simpl; [done|]. by rewrite IH. Qed.

Lemma zfill_length (w : nat) (s : string) :
  String.length (Py.zfill w s) = Nat.max w (String.length s).
Proof. unfold Py.zfill. rewrite length_app_str, zeros_length. lia. Qed.

Lemma str_all_app (P : ascii -> bool) (s t : string) :
  Py.str_all P (s +:+ t) = Py.str_all P s && Py.str_all P t.
Proof. induction s as [|c s IH]; simpl; [done|]. rewrite IH. by rewrite andb_assoc. Qed.

Lemma zeros_digits (k : nat) : Py.str_all Py.is_digit (Py.zeros k) = true.
Proof. induction k as [|k IH]; simpl; [done|]. exact IH. Qed.

Lemma int_digits_zeros (k : nat) (s : string) (p : bool) :
  Py.int_digits (Py.zeros k +:+ s) 0 p
  = Py.int_digits s 0 (match k with O => p | _ => true end).
Proof.
  revert p. induction k as [|k IH]; intros p; simpl; [done|].
  rewrite IH. by destruct k.
Qed.

Lemma digit_not_space (c : ascii) : Py.is_digit c = true -> Py.c_isspace c = false.
Proof. destruct c as [[] [] [] [] [] [] [] []]; vm_compute; congruence. Qed.

Lemma lstrip_id (sp : ascii -> bool) (s : string) :
  Py.str_all (fun c => negb (sp c)) s = true -> Py.lstrip_by sp s = s.
Proof.
  destruct s as [|c r]; simpl; [done|].
  intros H. apply andb_prop in H as [H _]. apply negb_true_iff in H. by rewrite H.
Qed.

Lemma rstrip_id (sp : ascii -> bool) (s : string) :
  Py.str_all (fun c => negb (sp c)) s = true -> Py.rstrip_by sp s = s.
Proof.
  induction s as [|c r IH]; simpl; [done|].
  intros H. apply andb_prop in H as [Hc Hr]. apply negb_true_iff in Hc.
  rewrite (IH Hr). destruct r; [by rewrite Hc|done].
Qed.

Lemma strip_id (sp : ascii -> bool) (s : string) :
  Py.str_all (fun c => negb (sp c)) s = true -> Py.strip_by sp s = s.
Proof. intros H. unfold Py.strip_by. rewrite lstrip_id by done. by apply rstrip_id. Qed.

Lemma str_all_impl (P Q : ascii -> bool) (s : string) :
  (forall c, P c = true -> Q c = true) -> Py.str_all P s = true -> Py.str_all Q s = true.
Proof.
  intros HPQ. induction s as [|c r IH]; simpl; [done|].
  intros H. apply andb_prop in H as [Hc Hr]. rewrite (HPQ _ Hc), (IH Hr). done.
Qed.

Lemma digits_no_space (s : string) :
  Py.str_all Py.is_digit s = true -> Py.str_all (fun c => negb (Py.c_isspace c)) s = true.
Proof.
  apply str_all_impl. intros c Hc. by rewrite (digit_not_space c Hc).
Qed.

Lemma int_of_digit_string (c : ascii) (r : string) :
  Py.is_digit c = true -> Py.str_all Py.is_digit r = true ->
  Py.int (String c r) = Py.int_digits (String c r) 0 false.
Proof.
  intros Hc Hr. unfold Py.int.
  rewrite strip_id.
  2:{ apply digits_no_space. simpl. by rewrite Hc, Hr. }
  destruct c as [[] [] [] [] [] [] [] []]; try (vm_compute in Hc; discriminate Hc); reflexivity.
Qed.

Lemma int_of_negative (s : string) :
  Py.str_all Py.is_digit s = true ->
  Py.int (String "-" s) = Z.opp <$> Py.int_digits s 0 false.
Proof.
  intros Hs. unfold Py.int.
  rewrite strip_id; [reflexivity|].
  simpl. apply digits_no_space in Hs. rewrite Hs. reflexivity.
Qed.

Lemma zfill_digits (w : nat) (s : string) :
  Py.str_all Py.is_digit s = true -> Py.str_all Py.is_digit (Py.zfill w s) = true.
Proof. intros H. unfold Py.zfill. by rewrite str_all_app, zeros_digits, H. Qed.

Lemma zfill_decimal_nonempty (w : nat) (n : Z) :
  0 <= n -> exists c r, Py.zfill w (Py.decimal n) = String c r.
Proof.
  intros Hn. destruct (decimal_spec n Hn) as (k & Hk & _ & _ & Hlen & _).
  destruct (Py.zfill w (Py.decimal n)) as [|c r] eqn:E; [|eauto].
  apply (f_equal String.length) in E. rewrite zfill_length, Hlen in E. simpl in E. lia.
Qed.

Lemma int_digits_zfill (w : nat) (n : Z) :
  0 <= n -> Py.int_digits (Py.zfill w (Py.decimal n)) 0 false = Some n.
Proof.
  intros Hn. unfold Py.zfill. rewrite int_digits_zeros.
  destruct (decimal_spec n Hn) as (k & _ & _ & _ & _ & _ & Hint).
  rewrite Hint. f_equal; lia.
Qed.

(** [int] reads back what the format wrote. *)
Lemma int_format_05d (n : Z) : Py.int (Py.format_05d n) = Some n.
Proof.
  unfold Py.format_05d. destruct (Z.ltb_spec n 0) as [Hneg|Hpos].
  - assert (Hn : 0 <= - n) by lia.
    destruct (decimal_spec _ Hn) as (k & _ & _ & _ & _ & Hall & _).
    rewrite int_of_negative by (by apply zfill_digits).
    rewrite int_digits_zfill by done. simpl. f_equal; lia.
  - destruct (decimal_spec _ Hpos) as (k & _ & _ & _ & _ & Hall & _).
    destruct (zfill_decimal_nonempty 5 n Hpos) as (c & r & E).
    pose proof (zfill_digits 5 _ Hall) as Hd. rewrite E in Hd. simpl in Hd.
    apply andb_prop in Hd as [Hc Hr].
    rewrite E, int_of_digit_string by done. rewrite <- E.
    by apply int_digits_zfill.
Qed.

Lemma format_05d_length_small (n : Z) :
  0 <= n <= 99999 -> String.length (Py.format_05d n) = 5%nat.
Proof.
  intros Hn. unfold Py.format_05d.
  destruct (Z.ltb_spec n 0) as [Hneg|Hpos]; [lia|].
  destruct (decimal_spec _ Hpos) as (k & Hk & Hlt & Hge & Hlen & _).
  rewrite zfill_length, Hlen.
  assert (k <= 5)%nat; [|lia].
  destruct Hge as [->|Hge].
  - assert (k = 1%nat) by (rewrite <- Hlen; reflexivity). lia.
  - destruct (le_gt_dec k 5); [done|].
    exfalso. assert (10 ^ 5 <= 10 ^ (Z.of_nat k - 1)) by (apply Z.pow_le_mono_r; lia).
    lia.
Qed.

Lemma format_05d_length_large (n : Z) :
  100000 <= n -> (6 <= String.length (Py.format_05d n))%nat.
Proof.
  intros Hn. unfold Py.format_05d.
  destruct (Z.ltb_spec n 0) as [Hneg|Hpos]; [lia|].
  destruct (decimal_spec _ Hpos) as (k & Hk & Hlt & Hge & Hlen & _).
  rewrite zfill_length, Hlen.
  assert (6 <= k)%nat; [|lia].
  destruct (le_gt_dec 6 k); [done|].
  exfalso. assert (10 ^ Z.of_nat k <= 10 ^ 5) by (apply Z.pow_le_mono_r; lia).
  lia.
Qed.

(** ** The retry decorator *)

Section RetryFacts.
Context {S A : Type}.
Variable uniform : S -> Q * S.
Variable func : M S A.

Lemma nth_delay_S (md d : Z) (k : nat) :
  nth_delay md (Z.min (d * 2) md) k = nth_delay md d (Datatypes.S k).
Proof.
  unfold nth_delay. induction k as [|k IH]; [done|].
  simpl in *. by rewrite IH.
Qed.

Lemma retry_loop_facts (m md : Z) (n : nat) : forall (i d : Z) (s : S),
  i + Z.of_nat n = m ->
  (0 < n)%nat ->
  let '(r, s', tr) := retry_loop uniform func m md n i d s in
  (length (attempts tr) <= n)%nat /\
  length (attempts tr) = Datatypes.S (length (sleeps tr)) /\
  (exists o, last (attempts tr) = Some o /\ r = outcome_of o) /\
  (Forall transient_failure (attempts tr) -> length (attempts tr) = n) /\
  (forall k e, (Datatypes.S k < length (attempts tr))%nat ->
     attempts tr !! k = Some e -> transient_failure e) /\
  (forall k dk t, sleeps tr !! k = Some (dk, t) ->
     dk = nth_delay md d k /\
     exists s0, t = (inject_Z dk + fst (uniform s0) * inject_Z dk)%Q).
Proof.
  induction n as [|n IH]; intros i d s Hi Hn; [lia|].
  cbn [retry_loop].
  destruct (func s) as [[e|v] s1] eqn:Ef.
  2:{ cbn. split_and!; try lia.
      - exists (inr v). done.
      - intros H. apply Forall_cons in H as [[e [He _]] _]. discriminate.
      - intros k dk t H. destruct k; discriminate. }
  destruct (retryable e) eqn:Er; cbn [negb].
  2:{ cbn. split_and!; try lia.
      - exists (inl e). done.
      - intros H. apply Forall_cons in H as [[e' [He' Hr']] _]. congruence.
      - intros k dk t H. destruct k; discriminate. }
  destruct (Z.eqb_spec i (m - 1)) as [Hlast|Hmore].
  { assert (n = 0%nat) by lia. subst n.
    cbn. split_and!; try lia.
    - exists (inl e). done.
    - intros k dk t H. destruct k; discriminate. }
  destruct (uniform s1) as [u s2] eqn:Eu.
  assert (Hn' : (0 < n)%nat) by lia.
  specialize (IH (i + 1) (Z.min (d * 2) md) s2 ltac:(lia) Hn').
  destruct (retry_loop uniform func m md n (i + 1) (Z.min (d * 2) md) s2) as [[r s3] tr].
  destruct IH as (Hlen & Hsl & (o & Hlast & Hr) & Hall & Hearly & Hdelay).
  cbn [attempts sleeps omap list_omap] in *.
  fold (attempts (A:=A) tr) in *. fold (sleeps (A:=A) tr) in *.
  split_and!.
  - simpl. lia.
  - simpl. lia.
  - exists o. split; [|done].
    destruct (attempts tr) as [|a l] eqn:Ea; [simpl in Hsl; lia|].
    rewrite last_cons. by rewrite Hlast.
  - intros H. apply Forall_cons in H as [_ H]. simpl. f_equal. by apply Hall.
  - intros k e' Hk Hk'. destruct k as [|k].
    + simpl in Hk'. injection Hk' as <-. exists e. done.
    + simpl in Hk'. apply (Hearly k e'); [simpl in Hk; lia|done].
  - intros k dk t H. destruct k as [|k].
    + simpl in H. injection H as <- <-. split; [reflexivity|].
      exists s1. by rewrite Eu.
    + simpl in H. apply Hdelay in H as [H1 H2]. split; [|exact H2].
      rewrite H1. apply nth_delay_S.
Qed.

End RetryFacts.

Lemma nth_delay_pow2 (k : nat) : nth_delay 32 1 k = Z.min (2 ^ Z.of_nat k) 32.
Proof.
  induction k as [|k IH]; [reflexivity|].
  change (nth_delay 32 1 (Datatypes.S k)) with (Z.min (nth_delay 32 1 k * 2) 32).
  rewrite IH.
  rewrite Nat2Z.inj_succ, Z.pow_succ_r by lia.
  assert (0 < 2 ^ Z.of_nat k) by (apply Z.pow_pos_nonneg; lia).
  lia.
Qed.

(** C2.  Whatever the wrapped call does and whatever the jitter, the
    decorated call makes between one and five attempts, and hands its caller
    the outcome of the last one.  When every attempt of a run failed with a
    rate-limit or overload error, there were five of them, and the error of
    the fifth is the one raised. *)
Theorem retry_at_most_five_attempts {S A : Type} (uniform : S -> Q * S) (func : M S A) (s : S) :
  let '(r, s', tr) := with_retries uniform func s in
  (1 <= length (attempts tr) <= 5)%nat /\
  (exists o, last (attempts tr) = Some o /\ r = outcome_of o) /\
  (Forall transient_failure (attempts tr) ->
     length (attempts tr) = 5%nat /\
     exists e, last (attempts tr) = Some (inl e) /\ r = inl e).
Proof.
  unfold with_retries, retry_with_exponential_backoff.
  pose proof (retry_loop_facts uniform func 5 32 (Z.to_nat 5) 0 1 s eq_refl ltac:(simpl; lia)) as H.
  destruct (retry_loop uniform func 5 32 (Z.to_nat 5) 0 1 s) as [[r s'] tr].
  destruct H as (Hlen & Hsl & (o & Hlast & Hr) & Hall & _ & _).
  split_and!.
  - lia.
  - simpl in Hlen. lia.
  - by exists o.
  - intros Hf. split; [by apply Hall|].
    assert (Ho : transient_failure o).
    { eapply Forall_forall; [exact Hf|]. by apply last_Some_elem_of. }
    destruct Ho as (e & -> & _). exists e. done.
Qed.

(** C6.  With initial delay 1 and cap 32, and jitter factors that
    [random.uniform(0, 0.1)] keeps between 0 and 1/10: the k-th sleep of the
    wrapper is computed from the delay min(2^(k-1), 32), and lasts that delay
    plus the factor times the delay, so between the delay and the delay and a
    tenth.  Three rate-limit or overload errors followed by a result: the
    decorated call returns the result after four calls and three sleeps,
    computed from the delays 1, 2 and 4. *)
Theorem retry_backoff_delays {S A : Type} (uniform : S -> Q * S) (func : M S A) (s : S)
    (max_retries : Z)
    (Hrange : forall s0, (0 <= fst (uniform s0))%Q /\ (fst (uniform s0) <= 1 # 10)%Q) :
  (0 < max_retries ->
   let '(_, _, tr) := retry_with_exponential_backoff uniform func max_retries 1 32 s in
   forall (k : nat) (dk : Z) (t : Q),
     (1 <= k)%nat -> sleeps tr !! (k - 1)%nat = Some (dk, t) ->
     dk = Z.min (2 ^ (Z.of_nat k - 1)) 32 /\
     exists u, (0 <= u)%Q /\ (u <= 1 # 10)%Q /\
               t = (inject_Z dk + u * inject_Z dk)%Q /\
               (inject_Z dk <= t)%Q /\ (t <= inject_Z dk + (1 # 10) * inject_Z dk)%Q) /\
  (forall e1 e2 e3 v s1 s2 s3 s4 u1 u2 u3 s1' s2' s3',
     func s = (inl e1, s1) -> retryable e1 = true -> uniform s1 = (u1, s1') ->
     func s1' = (inl e2, s2) -> retryable e2 = true -> uniform s2 = (u2, s2') ->
     func s2' = (inl e3, s3) -> retryable e3 = true -> uniform s3 = (u3, s3') ->
     func s3' = (inr v, s4) ->
     with_retries uniform func s =
       (inr (Some v), s4,
        [Attempt (inl e1); Sleep 1 (inject_Z 1 + u1 * inject_Z 1);
         Attempt (inl e2); Sleep 2 (inject_Z 2 + u2 * inject_Z 2);
         Attempt (inl e3); Sleep 4 (inject_Z 4 + u3 * inject_Z 4);
         Attempt (inr v)])).
Proof.
  split.
  - intros Hm. unfold retry_with_exponential_backoff.
    pose proof (retry_loop_facts uniform func max_retries 32 (Z.to_nat max_retries) 0 1 s
                  ltac:(lia) ltac:(lia)) as H.
    destruct (retry_loop uniform func max_retries 32 (Z.to_nat max_retries) 0 1 s) as [[r s'] tr].
    destruct H as (_ & _ & _ & _ & _ & Hdelay).
    intros k dk t Hk Hs.
    apply Hdelay in Hs as [Hd (s0 & Ht)].
    rewrite nth_delay_pow2 in Hd.
    replace (Z.of_nat (k - 1)) with (Z.of_nat k - 1) in Hd by lia.
    split; [exact Hd|].
    exists (fst (uniform s0)). destruct (Hrange s0) as [H0 H1].
    assert (Hpos : (0 <= inject_Z dk)%Q).
    { assert (0 < 2 ^ (Z.of_nat k - 1)) by (apply Z.pow_pos_nonneg; lia).
      change 0%Q with (inject_Z 0). rewrite <- Zle_Qle. lia. }
    split_and!; try done.
    + rewrite Ht. pose proof (Qmult_le_0_compat _ _ H0 Hpos). lra.
    + rewrite Ht. pose proof (Qmult_le_compat_r _ _ _ H1 Hpos). lra.
  - intros e1 e2 e3 v s1 s2 s3 s4 u1 u2 u3 s1' s2' s3' F1 R1 U1 F2 R2 U2 F3 R3 U3 F4.
    unfold with_retries, retry_with_exponential_backoff.
    change (Z.to_nat 5) with 5%nat.
    cbn [retry_loop]. rewrite F1, R1. cbn [negb Z.eqb Z.sub Z.add Z.opp Z.pos_sub Pos.pred_double]. 
    simpl Z.eqb. cbv iota. rewrite U1.
    cbn [retry_loop]. rewrite F2, R2. simpl Z.eqb. cbv iota. cbn [negb]. rewrite U2.
    cbn [retry_loop]. rewrite F3, R3. simpl Z.eqb. cbv iota. cbn [negb]. rewrite U3.
    cbn [retry_loop]. rewrite F4. reflexivity.
Qed.

(** ** The monad *)

Lemma bind_inr {S A B} (c : M S A) (k : A -> M S B) s b s' :
  bind c k s = (inr b, s') -> exists a s1, c s = (inr a, s1) /\ k a s1 = (inr b, s').
Proof.
  unfold bind. destruct (c s) as [[e|a] s1]; [discriminate|]. eauto.
Qed.

Lemma bind_ok {S A B} (c : M S A) (k : A -> M S B) s a s1 :
  c s = (inr a, s1) -> bind c k s = k a s1.
Proof. unfold bind. by intros ->. Qed.

Lemma bind_raise {S A B} (c : M S A) (k : A -> M S B) s e s1 :
  c s = (inl e, s1) -> bind c k s = (inl e, s1).
Proof. unfold bind. by intros ->. Qed.

Section Preserves.
Context {S : Type} (R : S -> S -> Prop) `{!PreOrder R}.

Lemma preserves_ret {A} (a : A) : preserves R (ret a).
Proof. intros s r s' [= _ <-]. reflexivity. Qed.

Lemma preserves_raise {A} (e : exn) : preserves R (raise (A := A) e).
Proof. intros s r s' [= _ <-]. reflexivity. Qed.

Lemma preserves_lift_result {A} (x : exn + A) : preserves R (lift_result x).
Proof. intros s r s' [= _ <-]. reflexivity. Qed.

Lemma preserves_subscript {A} (o : option A) : preserves R (subscript o).
Proof. destruct o; [apply preserves_ret|apply preserves_raise]. Qed.

Lemma preserves_get : preserves R get.
Proof. intros s r s' [= _ <-]. reflexivity. Qed.

Lemma preserves_modify (f : S -> S) : (forall s, R s (f s)) -> preserves R (modify f).
Proof. intros Hf s r s' [= _ <-]. apply Hf. Qed.

Lemma preserves_bind {A B} (c : M S A) (k : A -> M S B) :
  preserves R c -> (forall a, preserves R (k a)) -> preserves R (bind c k).
Proof.
  intros Hc Hk s r s'. unfold bind.
  destruct (c s) as [[e|a] s1] eqn:E.
  - intros [= _ <-]. eapply Hc, E.
  - intros H. etransitivity; [eapply Hc, E|eapply Hk, H].
Qed.

Lemma preserves_try_except {A} (c : M S A) handles (h : M S A) :
  preserves R c -> preserves R h -> preserves R (try_except c handles h).
Proof.
  intros Hc Hh s r s'. unfold try_except.
  destruct (c s) as [[e|a] s1] eqn:E.
  - destruct (handles e).
    + intros H. etransitivity; [eapply Hc, E|eapply Hh, H].
    + intros [= _ <-]. eapply Hc, E.
  - intros [= _ <-]. eapply Hc, E.
Qed.

Lemma preserves_if {A} (b : bool) (c1 c2 : M S A) :
  preserves R c1 -> preserves R c2 -> preserves R (if b then c1 else c2).
Proof. by destruct b. Qed.

End Preserves.

(** Goals [preserves R c] by the shape of [c]. *)
Ltac grows :=
  repeat first
    [ lazymatch goal with
      | |- preserves ?R (bind _ _) => apply (preserves_bind R); [|intros ?]
      | |- preserves ?R (try_except _ _ _) => apply (preserves_try_except R)
      | |- preserves ?R (if _ then _ else _) => apply (preserves_if R)
      end
    | progress eauto with grows typeclass_instances
    | case_match ].

(** ** Sessions *)

Section SessionFacts.
Context {C : Collaborators}.

#[local] Instance heap_grows_preorder : PreOrder heap_grows.
Proof.
  split.
  - intros w. unfold heap_grows. reflexivity.
  - intros w1 w2 w3 H1 H2. unfold heap_grows in *. by etransitivity.
Qed.

Lemma heap_grows_now : preserves heap_grows now.
Proof. intros w r w' [= _ <-]. unfold heap_grows. reflexivity. Qed.

Lemma heap_grows_uuid4 : preserves heap_grows uuid4.
Proof. intros w r w' [= _ <-]. unfold heap_grows. reflexivity. Qed.

Lemma heap_grows_draw {A} (f : nat -> A) : preserves heap_grows (draw f).
Proof. intros w r w' [= _ <-]. unfold heap_grows. reflexivity. Qed.

Lemma heap_grows_deref (r : loc) : preserves heap_grows (deref r).
Proof. intros w x w' [= _ <-]. unfold heap_grows. reflexivity. Qed.

Lemma heap_grows_makedirs (p : string) : preserves heap_grows (makedirs p).
Proof. intros w x w' [= _ <-]. unfold heap_grows. reflexivity. Qed.

Lemma heap_grows_read {A} (f : World -> A) : preserves heap_grows (fun w => (inr (f w), w)).
Proof. intros w x w' [= _ <-]. unfold heap_grows. reflexivity. Qed.

Lemma alloc_fresh (l : list Message) (w : World) :
  exists r, alloc l w = (inr r, set_heap (<[r := l]> (heap w)) w) /\ heap w !! r = None.
Proof.
  unfold alloc. eexists. split; [reflexivity|].
  apply not_elem_of_dom. apply is_fresh.
Qed.

Lemma heap_grows_alloc (l : list Message) : preserves heap_grows (alloc l).
Proof.
  intros w x w' H. destruct (alloc_fresh l w) as (r & E & Hr).
  rewrite E in H. injection H as _ <-.
  unfold heap_grows. simpl. by apply insert_subseteq.
Qed.

Lemma heap_grows_contents (w w' : World) (r : loc) :
  heap_grows w w' -> is_Some (heap w !! r) -> contents w' r = contents w r.
Proof.
  intros H [l Hl]. unfold contents. rewrite Hl.
  by rewrite (lookup_weaken _ _ _ _ Hl H).
Qed.

Create HintDb grows.
Hint Resolve preserves_ret preserves_raise preserves_lift_result preserves_subscript
  preserves_get heap_grows_now heap_grows_uuid4 heap_grows_draw heap_grows_deref
  heap_grows_makedirs heap_grows_alloc heap_grows_read : grows.

Lemma heap_grows_parse_iso (s : string) : preserves heap_grows (parse_iso s).
Proof. unfold parse_iso. grows. Qed.

Lemma heap_grows_json_load (f : file) : preserves heap_grows (json_load f).
Proof. unfold json_load. grows. Qed.

Lemma heap_grows_from_dict (d : Data loc) : preserves heap_grows (from_dict d).
Proof.
  unfold from_dict, generate_conversation_id. pose proof heap_grows_parse_iso. grows.
Qed.

Lemma heap_grows_recover (nm : string) (f : file) : preserves heap_grows (recover nm f).
Proof.
  unfold recover. pose proof heap_grows_json_load. pose proof heap_grows_from_dict. grows.
Qed.

Lemma heap_grows_find_existing (nm : string) (files : list (string * file)) :
  preserves heap_grows (find_existing nm files).
Proof.
  induction files as [|[filename f] rest IH]; cbn [find_existing].
  - grows.
  - pose proof heap_grows_recover. grows.
Qed.

Lemma heap_grows_create_new (nm summary : string) (lp : Z) :
  preserves heap_grows (create_new nm summary lp).
Proof.
  unfold create_new, generate_conversation_id.
  pose proof heap_grows_find_existing. grows.
Qed.

Lemma user_prompt_ints_error (l : list Message) (e : exn) :
  user_prompt_ints l = inl e -> e = ValueError \/ e = KeyError.
Proof.
  induction l as [|msg rest IH]; cbn [user_prompt_ints]; [discriminate|].
  destruct (role msg) as [r|]; [|intros [= <-]; by right].
  destruct (String.eqb r "user"); [|exact IH].
  destruct (prompt_id msg) as [p|]; [|intros [= <-]; by right].
  destruct (Py.int p); [|intros [= <-]; by left].
  destruct (user_prompt_ints rest); [|discriminate].
  intros [= <-]. by apply IH.
Qed.

Lemma max_user_prompt_id_error (l : list Message) (e : exn) :
  max_user_prompt_id l = inl e -> e = ValueError \/ e = KeyError.
Proof.
  unfold max_user_prompt_id.
  destruct (user_prompt_ints l) as [e'|ids] eqn:E.
  - intros [= <-]. by eapply user_prompt_ints_error.
  - destruct ids; simpl; [intros [= <-]; by left|discriminate].
Qed.

(** What [from_dict] makes of the dict [to_dict] built. *)
Lemma from_dict_to_dict_run (s : Session) (w : World) :
  (forall d, fromisoformat (isoformat d) = Some d) ->
  from_dict (to_dict s) w =
    (inr (if (last_prompt_id s =? 0) && negb (is_nil (contents w (message_window s)))
          then set_last_prompt_id
                 (match max_user_prompt_id (contents w (message_window s)) with
                  | inr m => m
                  | inl _ => 0
                  end) s
          else s),
     snd (generate_conversation_id w)).
Proof.
  intros Hiso. destruct s as [sid cid nm summ mw cr acc ws bi lp tin tout cost].
  unfold from_dict, to_dict, bind, subscript, ret, parse_iso, try_except, lift_result.
  cbn -[max_user_prompt_id Z.eqb].
  rewrite !Hiso. cbn -[max_user_prompt_id Z.eqb].
  assert (Hs : match bi with
               | Some b => set_branch_info (Some b)
                             (mkSession sid cid nm summ mw cr acc ws None lp tin tout cost)
               | None => mkSession sid cid nm summ mw cr acc ws None lp tin tout cost
               end = mkSession sid cid nm summ mw cr acc ws bi lp tin tout cost)
    by (by destruct bi).
  rewrite Hs. cbn -[max_user_prompt_id Z.eqb].
  change (contents _ mw) with (contents w mw).
  destruct ((lp =? 0) && negb (is_nil (contents w mw))); [|reflexivity].
  destruct (max_user_prompt_id (contents w mw)) as [e|m] eqn:E; [|reflexivity].
  destruct (max_user_prompt_id_error _ _ E) as [-> | ->]; reflexivity.
Qed.

Lemma py_max_spec (i : Z) (ids : list Z) :
  exists m, py_max (i :: ids) = inr m /\ m ∈ i :: ids /\ Forall (fun x => x <= m) (i :: ids).
Proof.
  unfold py_max. eexists. split; [reflexivity|].
  revert i. induction ids as [|j ids IH]; intros i; cbn [fold_left].
  - split; [apply list_elem_of_here|]. repeat constructor. lia.
  - destruct (IH (Z.max i j)) as [Hin Hall].
    apply Forall_cons in Hall as [H1 H2].
    split.
    + apply elem_of_cons in Hin as [Hin|Hin].
      * rewrite Hin. destruct (Z.max_spec i j) as [[_ ->]|[_ ->]].
        -- apply list_elem_of_further, list_elem_of_here.
        -- apply list_elem_of_here.
      * by do 2 apply list_elem_of_further.
    + repeat apply Forall_cons_2; try done; lia.
Qed.

Lemma user_prompt_ints_nil_inv (l : list Message) (i : Z) (ids : list Z) :
  user_prompt_ints l = inr (i :: ids) -> l <> [].
Proof. by destruct l. Qed.

Lemma recover_skip_garbage (nm : string) (w : World) :
  recover nm Garbage w = (inr None, w).
Proof. reflexivity. Qed.

Lemma recover_skip_other (nm : string) (d : Data (list Message)) (w : World) :
  d_name d <> Some nm -> exists w1, recover nm (Json d) w = (inr None, w1).
Proof.
  intros Hne. unfold recover, try_except, json_load, bind.
  destruct (d_message_window d) as [l|].
  - destruct (alloc_fresh l w) as (r & -> & _). cbn.
    rewrite bool_decide_eq_false_2 by done. eauto.
  - cbn. rewrite bool_decide_eq_false_2 by done. eauto.
Qed.

(** The loop runs the body on the document [first_named] points at, in a
    world that differs from the first by the lists read on the way. *)
Lemma find_existing_found (nm : string) (d : Data (list Message)) (files : list (string * file)) :
  first_named nm files = Some d ->
  forall w, exists w1,
    heap_grows w w1 /\
    forall s' w2, recover nm (Json d) w1 = (inr (Some s'), w2) ->
                  find_existing nm files w = (inr (Some s'), w2).
Proof.
  induction files as [|[filename f] rest IH]; cbn [first_named find_existing]; [discriminate|].
  intros Hd w.
  destruct (Py.endswith filename ".json"); [|by apply IH].
  destruct f as [|d'].
  - destruct (IH Hd w) as (w1 & Hg & H). exists w1. split; [done|].
    intros s' w2 Hr. rewrite (bind_ok _ _ _ _ _ (recover_skip_garbage nm w)). by apply H.
  - destruct (bool_decide (d_name d' = Some nm)) eqn:Eb.
    + injection Hd as ->. exists w. split; [reflexivity|].
      intros s' w2 Hr. by rewrite (bind_ok _ _ _ _ _ Hr).
    + apply bool_decide_eq_false in Eb.
      destruct (recover_skip_other nm d' w Eb) as (w0 & Hw0).
      destruct (IH Hd w0) as (w1 & Hg & H). exists w1. split.
      * etransitivity; [|exact Hg]. eapply heap_grows_recover, Hw0.
      * intros s' w2 Hr. rewrite (bind_ok _ _ _ _ _ Hw0). by apply H.
Qed.

Lemma find_existing_none (nm : string) (files : list (string * file)) :
  first_named nm files = None ->
  forall w, exists w1, find_existing nm files w = (inr None, w1).
Proof.
  induction files as [|[filename f] rest IH]; cbn [first_named find_existing]; [by eauto|].
  intros Hd w.
  destruct (Py.endswith filename ".json"); [|by apply IH].
  destruct f as [|d'].
  - rewrite (bind_ok _ _ _ _ _ (recover_skip_garbage nm w)). by apply IH.
  - destruct (bool_decide (d_name d' = Some nm)) eqn:Eb; [discriminate|].
    apply bool_decide_eq_false in Eb.
    destruct (recover_skip_other nm d' w Eb) as (w0 & Hw0).
    rewrite (bind_ok _ _ _ _ _ Hw0). by apply IH.
Qed.

Lemma contents_alloc (l : list Message) (w : World) :
  exists r, alloc l w = (inr r, set_heap (<[r := l]> (heap w)) w) /\
            heap w !! r = None /\
            contents (set_heap (<[r := l]> (heap w)) w) r = l.
Proof.
  destruct (alloc_fresh l w) as (r & E & Hr). exists r. split_and!; try done.
  unfold contents. simpl. by rewrite lookup_insert_eq.
Qed.

(** The body of the loop on a snapshot that [save_session] wrote. *)
Lemma recover_snapshot (s0 : Session) (msgs : list Message) (i : Z) (ids : list Z) (m : Z)
    (w : World) :
  (forall d, fromisoformat (isoformat d) = Some d) ->
  user_prompt_ints msgs = inr (i :: ids) ->
  py_max (i :: ids) = inr m ->
  exists r w',
    recover (name s0) (Json (with_message_window (Some msgs) (to_dict s0))) w
      = (inr (Some (set_last_prompt_id m (set_message_window r s0))), w') /\
    heap w !! r = None /\
    contents w' r = msgs /\
    sessions_dir w' = sessions_dir w /\ fs w' = fs w.
Proof.
  intros Hiso Hids Hmax.
  destruct (contents_alloc msgs w) as (r & Ealloc & Hfresh & Hcont).
  set (w1 := set_heap (<[r := msgs]> (heap w)) w) in *.
  exists r, (snd (generate_conversation_id w1)).
  assert (Hne : msgs <> []) by (by eapply user_prompt_ints_nil_inv).
  assert (Hmx : max_user_prompt_id msgs = inr m) by (unfold max_user_prompt_id; by rewrite Hids).
  split_and!; try done.
  unfold recover, try_except, json_load. cbn [d_message_window with_message_window to_dict].
  rewrite (bind_ok _ _ _ _ _ (bind_ok _ _ _ _ _ Ealloc)).
  cbn [ret d_name with_message_window to_dict].
  rewrite bool_decide_eq_true_2 by (by destruct s0).
  assert (Hd : with_message_window (Some r) (with_message_window (Some msgs) (to_dict s0))
               = to_dict (set_message_window r s0)) by (by destruct s0).
  rewrite Hd.
  rewrite (bind_ok _ _ _ _ _ (from_dict_to_dict_run _ _ Hiso)).
  assert (Hmw : forall s, message_window (set_message_window r s) = r) by (by intros []).
  assert (Hmw2 : forall x s, message_window (set_last_prompt_id x s) = message_window s)
    by (by intros ? []).
  rewrite Hmw, Hcont, Hmx.
  assert (Hnil : is_nil msgs = false) by (by destruct msgs).
  rewrite Hnil. cbn [negb].
  unfold bind, deref.
  assert (Hc2 : forall s, contents (generate_conversation_id w1).2 (message_window s) =
                          contents w1 (message_window s)) by reflexivity.
  destruct (last_prompt_id (set_message_window r s0) =? 0); cbn [andb];
    rewrite Hc2, ?Hmw2, Hmw, Hcont, Hnil; cbn [negb lift_result]; rewrite Hmx;
    cbn [ret]; repeat f_equal; by destruct s0.
Qed.

(** [create_new] on a name that has a snapshot in [sessions/]. *)
Lemma create_new_existing (nm summary : string) (lp : Z) (w : World)
    (s0 : Session) (msgs : list Message) (i : Z) (ids : list Z) (m : Z) :
  (forall d, fromisoformat (isoformat d) = Some d) ->
  first_named nm (sessions_dir w) = Some (with_message_window (Some msgs) (to_dict s0)) ->
  user_prompt_ints msgs = inr (i :: ids) ->
  py_max (i :: ids) = inr m ->
  exists r w',
    create_new nm summary lp w
      = (inr (set_last_prompt_id m (set_message_window r s0)), w') /\
    contents w' r = msgs /\ name s0 = nm.
Proof.
  intros Hiso Hfirst Hids Hmax.
  assert (Hname : name s0 = nm).
  { clear -Hfirst. induction (sessions_dir w) as [|[fn f] rest IH]; [discriminate|].
    cbn [first_named] in Hfirst.
    destruct (Py.endswith fn ".json"); [|by apply IH].
    destruct f as [|d]; [by apply IH|].
    destruct (bool_decide (d_name d = Some nm)) eqn:Eb; [|by apply IH].
    apply bool_decide_eq_true in Eb. injection Hfirst as ->.
    destruct s0. simpl in *. congruence. }
  destruct (find_existing_found nm _ _ Hfirst w) as (w1 & _ & Hfound).
  destruct (recover_snapshot s0 msgs i ids m w1 Hiso Hids Hmax) as (r & w' & Hrec & _ & Hc & _).
  rewrite Hname in Hrec.
  exists r, w'. split_and!; try done.
  unfold create_new. unfold bind at 1. cbn [fst snd].
  by rewrite (bind_ok _ _ _ _ _ (Hfound _ _ Hrec)).
Qed.

Lemma subscript_inr {S A} (o : option A) (s s' : S) (a : A) :
  subscript o s = (inr a, s') -> o = Some a /\ s' = s.
Proof. destruct o; cbn; [intros [= -> ->]; done|discriminate]. Qed.

Lemma try_except_inr {S A} (c : M S A) handles (h : M S A) s a s' :
  try_except c handles h s = (inr a, s') ->
  c s = (inr a, s') \/ exists e s1, c s = (inl e, s1) /\ h s1 = (inr a, s').
Proof.
  unfold try_except. destruct (c s) as [[e|x] s1]; [|by left].
  destruct (handles e); [|discriminate]. right. eauto.
Qed.

Lemma from_dict_name (data : Data loc) (w w' : World) (s : Session) :
  from_dict data w = (inr s, w') -> d_name data = Some (name s).
Proof.
  unfold from_dict. intros H.
  apply bind_inr in H as (sid & w1 & _ & H).
  apply bind_inr in H as (gen & w2 & _ & H).
  apply bind_inr in H as (nm & w3 & Hnm & H).
  apply subscript_inr in Hnm as [-> _].
  apply bind_inr in H as (summary & w4 & _ & H).
  apply bind_inr in H as (mw & w5 & _ & H).
  apply bind_inr in H as (ct & w6 & _ & H).
  apply bind_inr in H as (cr & w7 & _ & H).
  apply bind_inr in H as (at_ & w8 & _ & H).
  apply bind_inr in H as (acc & w9 & _ & H).
  apply bind_inr in H as (msgs & w10 & _ & H).
  match type of H with (if ?b then _ else _) _ = _ => destruct b end.
  - apply try_except_inr in H as [H|(e & s1 & _ & H)].
    + apply bind_inr in H as (m & w11 & _ & H). injection H as <- _.
      by destruct (d_branch_info data).
    + injection H as <- _. by destruct (d_branch_info data).
  - injection H as <- _. by destruct (d_branch_info data).
Qed.

Lemma json_load_name (d : Data (list Message)) (w w' : World) (data : Data loc) :
  json_load (Json d) w = (inr data, w') -> d_name data = d_name d.
Proof.
  unfold json_load. destruct (d_message_window d).
  - intros H. apply bind_inr in H as (r & w1 & _ & H). by injection H as <- _.
  - by intros [= <- _].
Qed.

Lemma recover_name (nm : string) (f : file) (w w' : World) (s : Session) :
  recover nm f w = (inr (Some s), w') -> name s = nm.
Proof.
  unfold recover. intros H.
  apply try_except_inr in H as [H|(e & s1 & _ & H)]; [|discriminate].
  apply bind_inr in H as (data & w1 & _ & H).
  destruct (bool_decide (d_name data = Some nm)) eqn:Eb; [|discriminate].
  apply bool_decide_eq_true in Eb.
  apply bind_inr in H as (session & w2 & Hfd & H).
  apply from_dict_name in Hfd. rewrite Eb in Hfd. injection Hfd as ->.
  apply bind_inr in H as (msgs & w3 & _ & H).
  destruct (negb (is_nil msgs)).
  - apply bind_inr in H as (m & w4 & _ & H). injection H as <- _. by destruct session.
  - by injection H as <- _.
Qed.

Lemma find_existing_name (nm : string) (files : list (string * file)) (w w' : World)
    (s : Session) :
  find_existing nm files w = (inr (Some s), w') -> name s = nm.
Proof.
  revert w. induction files as [|[filename f] rest IH]; intros w; cbn [find_existing].
  - discriminate.
  - destruct (Py.endswith filename ".json"); [|apply IH].
    intros H. apply bind_inr in H as ([session|] & w1 & Hrec & H).
    + injection H as <- _. by eapply recover_name.
    + by eapply IH.
Qed.

Lemma create_new_name (nm summary : string) (lp : Z) (w w' : World) (s : Session) :
  create_new nm summary lp w = (inr s, w') -> name s = nm.
Proof.
  unfold create_new. intros H.
  apply bind_inr in H as (files & w1 & _ & H).
  apply bind_inr in H as ([session|] & w2 & Hfind & H).
  - injection H as <- _. by eapply find_existing_name.
  - apply bind_inr in H as (sid & w3 & _ & H).
    apply bind_inr in H as (cid & w4 & _ & H).
    apply bind_inr in H as (listing & w5 & _ & H).
    destruct (match listing with Some _ => _ | None => _ end) as [last window].
    apply bind_inr in H as (? & w6 & _ & H).
    apply bind_inr in H as (? & w7 & _ & H).
    apply bind_inr in H as (? & w8 & _ & H).
    apply bind_inr in H as (mw & w9 & _ & H).
    apply bind_inr in H as (cr & w10 & _ & H).
    apply bind_inr in H as (acc & w11 & _ & H).
    by injection H as <- _.
Qed.

(** With no snapshot of that name in [sessions/], [create_new] makes a new
    session and cannot fail. *)
Lemma create_new_fresh (nm summary : string) (lp : Z) (w : World) :
  first_named nm (sessions_dir w) = None ->
  exists s w', create_new nm summary lp w = (inr s, w').
Proof.
  intros Hnone. unfold create_new. unfold bind at 1. cbn [fst snd].
  destruct (find_existing_none nm _ Hnone w) as (w1 & Hw1).
  rewrite (bind_ok _ _ _ _ _ Hw1).
  unfold bind, uuid4, generate_conversation_id, draw, makedirs, modify, alloc, now, ret.
  cbn. destruct (match fs w1 !! path_join "output-docs" nm with Some _ => _ | None => _ end).
  eauto.
Qed.

(** [create_branch] refuses a name that holds the separator before it does
    anything. *)
Lemma create_branch_invalid (parent : Session) (branch : string) (h : bool) (w : World) :
  Py.contains "/" branch = true -> create_branch parent branch h w = (inl ValueError, w).
Proof. intros H. unfold create_branch. by rewrite H. Qed.

Lemma create_branch_with_history (parent : Session) (branch : string) (w w' : World)
    (child : Session) :
  Py.contains "/" branch = false ->
  is_Some (heap w !! message_window parent) ->
  create_branch parent branch true w = (inr child, w') ->
  name child = name parent +:+ "/" +:+ branch /\
  (exists b, branch_info child = Some b /\ parent_id b = session_id parent /\
             branch_name b = branch) /\
  message_window child <> message_window parent /\
  contents w' (message_window child) = contents w (message_window parent) /\
  contents w' (message_window parent) = contents w (message_window parent).
Proof.
  intros Hvalid Hlive H. unfold create_branch in H. rewrite Hvalid in H.
  apply bind_inr in H as (s1 & w1 & Hnew & H).
  apply bind_inr in H as (t & w2 & Hnow & H).
  apply bind_inr in H as (copy & w3 & Hcopy & H).
  injection H as <- <-.
  pose proof (create_new_name _ _ _ _ _ _ Hnew) as Hname.
  pose proof (heap_grows_create_new _ _ _ _ _ _ Hnew) as Hg1.
  injection Hnow as <- <-.
  unfold list_copy in Hcopy.
  apply bind_inr in Hcopy as (l & w2' & Hl & Hcopy). injection Hl as <- <-.
  match type of Hcopy with alloc _ ?w0 = _ => set (wn := w0) in * end.
  destruct (contents_alloc (contents wn (message_window parent)) wn) as (r & E & Hfresh & Hc).
  rewrite E in Hcopy. injection Hcopy as <- <-.
  assert (Hwn : contents wn (message_window parent) = contents w (message_window parent))
    by (by apply (heap_grows_contents w w1)).
  assert (Hp1 : is_Some (heap wn !! message_window parent)).
  { destruct Hlive as [l Hl]. exists l. by apply (lookup_weaken _ _ _ _ Hl Hg1). }
  assert (Hne : r <> message_window parent).
  { intros ->. rewrite Hfresh in Hp1. by destruct Hp1. }
  split_and!.
  - by destruct s1.
  - eexists. split; [by destruct s1|]. done.
  - by destruct s1.
  - rewrite <- Hwn. unfold contents at 1. cbn. by rewrite lookup_insert_eq.
  - rewrite <- Hwn. unfold contents. cbn. by rewrite lookup_insert_ne.
Qed.

(** An append to one list object leaves every other one as it was. *)
Lemma append_other (r r' : loc) (m : Message) (w : World) :
  r <> r' -> contents (snd (append r m w)) r' = contents w r'.
Proof. intros Hne. unfold contents, append, modify. cbn. by rewrite lookup_insert_ne. Qed.

Lemma append_self (r : loc) (m : Message) (w : World) :
  contents (snd (append r m w)) r = contents w r ++ [m].
Proof. unfold contents at 1, append, modify. cbn. by rewrite lookup_insert_eq. Qed.

End SessionFacts.

(** ** The processor *)

Lemma preserves_weaken {S A} (R R' : S -> S -> Prop) (c : M S A) :
  (forall s s', R s s' -> R' s s') -> preserves R c -> preserves R' c.
Proof. intros HR Hc s r s' H. eapply HR, Hc, H. Qed.

Lemma never_retryable_ret {S A} (a : A) : never_retryable (ret (S := S) a).
Proof. intros s e s'. discriminate. Qed.

Lemma never_retryable_raise {S A} (e : exn) :
  retryable e = false -> never_retryable (raise (S := S) (A := A) e).
Proof. intros He s e' s' [= <- _]. exact He. Qed.

Lemma never_retryable_modify {S} (f : S -> S) : never_retryable (modify f).
Proof. intros s e s'. discriminate. Qed.

Lemma never_retryable_bind {S A B} (c : M S A) (k : A -> M S B) :
  never_retryable c -> (forall a, never_retryable (k a)) -> never_retryable (bind c k).
Proof.
  intros Hc Hk s e s'. unfold bind. destruct (c s) as [[e0|a] s1] eqn:E.
  - intros [= <- _]. eapply Hc, E.
  - apply Hk.
Qed.

Lemma retryable_keeps_never {S A} (R : S -> S -> Prop) (c : M S A) :
  never_retryable c -> retryable_keeps R c.
Proof. intros Hc s e s' H He. rewrite (Hc _ _ _ H) in He. discriminate. Qed.

Lemma retryable_keeps_preserves {S A} (R : S -> S -> Prop) (c : M S A) :
  preserves R c -> retryable_keeps R c.
Proof. intros Hc s e s' H _. eapply Hc, H. Qed.

Lemma retryable_keeps_bind {S A B} (R : S -> S -> Prop) `{!PreOrder R}
    (c : M S A) (k : A -> M S B) :
  preserves R c -> (forall a, retryable_keeps R (k a)) -> retryable_keeps R (bind c k).
Proof.
  intros Hc Hk s e s'. unfold bind. destruct (c s) as [[e0|a] s1] eqn:E.
  - intros [= <- <-] _. eapply Hc, E.
  - intros H He. etransitivity; [eapply Hc, E|eapply Hk; eauto].
Qed.

Section RetryFrames.
Context {S A : Type} (R : S -> S -> Prop) `{!PreOrder R}.
Variable uniform : S -> Q * S.
Variable func : M S A.

Lemma retry_loop_preserves (m md : Z) (n : nat) (i d : Z) (s : S) r s' tr :
  preserves R func -> (forall s0, R s0 (snd (uniform s0))) ->
  retry_loop uniform func m md n i d s = (r, s', tr) -> R s s'.
Proof.
  intros Hf Hu. revert i d s r s' tr.
  induction n as [|n IH]; intros i d s r s' tr; cbn [retry_loop].
  - intros [= _ <- _]. reflexivity.
  - destruct (func s) as [[e|v] s1] eqn:Ef.
    2:{ intros [= _ <- _]. eapply Hf, Ef. }
    destruct (negb (retryable e)); [intros [= _ <- _]; eapply Hf, Ef|].
    destruct (i =? m - 1); [intros [= _ <- _]; eapply Hf, Ef|].
    destruct (uniform s1) as [u s2] eqn:Eu.
    destruct (retry_loop uniform func m md n (i + 1) (Z.min (d * 2) md) s2)
      as [[r0 s3] tr0] eqn:El.
    intros [= _ <- _].
    etransitivity; [eapply Hf, Ef|]. etransitivity; [|eapply IH, El].
    specialize (Hu s1). by rewrite Eu in Hu.
Qed.

(** A result comes from the last attempt; the attempts before it raised
    retryable errors. *)
Lemma retry_loop_success (m md : Z) (n : nat) (i d : Z) (s : S) v s' tr :
  retryable_keeps R func -> (forall s0, R s0 (snd (uniform s0))) ->
  retry_loop uniform func m md n i d s = (inr (Some v), s', tr) ->
  exists s0, R s s0 /\ func s0 = (inr v, s').
Proof.
  intros Hf Hu. revert i d s tr.
  induction n as [|n IH]; intros i d s tr; cbn [retry_loop]; [discriminate|].
  destruct (func s) as [[e|v0] s1] eqn:Ef.
  2:{ intros [= <- <- _]. exists s. split; [reflexivity|done]. }
  destruct (retryable e) eqn:Er; cbn [negb]; [|discriminate].
  destruct (i =? m - 1); [discriminate|].
  destruct (uniform s1) as [u s2] eqn:Eu.
  destruct (retry_loop uniform func m md n (i + 1) (Z.min (d * 2) md) s2)
    as [[r0 s3] tr0] eqn:El.
  intros [= -> -> _].
  destruct (IH _ _ _ _ El) as (s0 & HR & Hs0). exists s0. split; [|done].
  etransitivity; [eapply Hf; eauto|]. etransitivity; [|exact HR].
  specialize (Hu s1). by rewrite Eu in Hu.
Qed.

End RetryFrames.

Section ProcessorFacts.
Context {C : Collaborators}.

#[local] Instance heap_same_preorder : PreOrder heap_same.
Proof.
  split; [by intros w|]. intros w1 w2 w3 H1 H2. unfold heap_same in *. congruence.
Qed.

Lemma same_object_refl (o : option Session) : same_object o o.
Proof. by destruct o. Qed.

Lemma same_object_trans (o1 o2 o3 : option Session) :
  same_object o1 o2 -> same_object o2 o3 -> same_object o1 o3.
Proof.
  destruct o1, o2, o3; cbn; try done. intros [? ?] [? ?]. split; congruence.
Qed.

#[local] Instance untouched_preorder : PreOrder untouched.
Proof.
  split.
  - intros p. split; [done|apply same_object_refl].
  - intros p1 p2 p3 [Hh1 Hs1] [Hh2 Hs2]. split; [congruence|].
    by eapply same_object_trans.
Qed.

#[local] Instance history_kept_preorder : PreOrder history_kept.
Proof.
  split.
  - intros p s Hs. exists s, []. by rewrite app_nil_r.
  - intros p1 p2 p3 H1 H2 s Hs.
    destruct (H1 s Hs) as (s' & l1 & Hs' & Hm & Hc).
    destruct (H2 s' Hs') as (s'' & l2 & Hs'' & Hm' & Hc').
    exists s'', (l1 ++ l2). split_and!; [done|congruence|].
    rewrite Hm in Hc'. rewrite Hc', Hc. by rewrite app_assoc.
Qed.

Lemma untouched_history_kept (p p' : Processor) : untouched p p' -> history_kept p p'.
Proof.
  intros [Hh Hs] s Hcur. rewrite Hcur in Hs.
  destruct (current_session p') as [s'|] eqn:Hs'; [|done]. destruct Hs as [Hm _].
  exists s', []. split_and!; try done. unfold contents. rewrite Hh. by rewrite app_nil_r.
Qed.

Lemma in_world_untouched {A} (c : M World A) :
  preserves heap_same c -> preserves untouched (in_world c).
Proof.
  intros Hc p r p'. unfold in_world.
  destruct (c (world p)) as [x w] eqn:E. intros [= _ <-].
  split; [exact (Hc _ _ _ E)|]. apply same_object_refl.
Qed.

Lemma heap_same_now : preserves heap_same now.
Proof. by intros w r w' [= _ <-]. Qed.

Lemma heap_same_deref (r : loc) : preserves heap_same (deref r).
Proof. by intros w x w' [= _ <-]. Qed.

Lemma heap_same_makedirs (d : string) : preserves heap_same (makedirs d).
Proof. by intros w x w' [= _ <-]. Qed.

Lemma heap_same_append_text (d f t : string) : preserves heap_same (append_text d f t).
Proof. by intros w x w' [= _ <-]. Qed.

Lemma heap_same_write_text (d f t : string) : preserves heap_same (write_text d f t).
Proof. by intros w x w' [= _ <-]. Qed.

Lemma heap_same_read {A} (f : World -> A) : preserves heap_same (fun w => (inr (f w), w)).
Proof. by intros w x w' [= _ <-]. Qed.

Lemma untouched_the_session : preserves untouched the_session.
Proof.
  intros p r p'. unfold the_session. destruct (current_session p); intros [= _ <-]; reflexivity.
Qed.

Lemma untouched_call_endpoint (req : Request) : preserves untouched (call_endpoint req).
Proof. apply in_world_untouched. by intros w r w' [= _ <-]. Qed.

Lemma untouched_on_session {A} (method : Session -> Session * A) :
  (forall s, message_window (fst (method s)) = message_window s /\
             last_prompt_id (fst (method s)) = last_prompt_id s) ->
  preserves untouched (on_session method).
Proof.
  intros Hm p r p'. unfold on_session.
  destruct (current_session p) as [s|] eqn:E.
  - destruct (method s) as [s' a] eqn:Em. intros [= _ <-].
    split; [done|]. rewrite E. cbn.
    specialize (Hm s). by rewrite Em in Hm.
  - intros [= _ <-]. reflexivity.
Qed.

Lemma save_session_effect (s : Session) (w : World) r s' w' :
  save_session s w = (r, s', w') ->
  heap w' = heap w /\ s' = set_last_accessed (now_at (clock w)) s /\
  fs w' = fs w.
Proof.
  unfold save_session. cbn [now].
  unfold json_dump_to.
  destruct (serialisable _).
  - cbn [to_dict d_message_window]. unfold bind, deref, write_session_file, modify. cbn.
    intros [= _ <- <-]. done.
  - unfold bind, write_session_file, modify, raise. cbn. intros [= _ <- <-]. done.
Qed.

Lemma untouched_save_current_session : preserves untouched save_current_session.
Proof.
  intros p r p'. unfold save_current_session.
  destruct (current_session p) as [s|] eqn:E.
  - destruct (save_session s (world p)) as [[x s'] w'] eqn:Es. intros [= _ <-].
    apply save_session_effect in Es as (Hh & -> & _).
    split; [done|]. rewrite E. by cbn.
  - intros [= _ <-]. reflexivity.
Qed.

Create HintDb proc.
Hint Resolve preserves_ret preserves_raise preserves_lift_result preserves_subscript
  preserves_get untouched_the_session untouched_call_endpoint untouched_save_current_session
  heap_same_now heap_same_deref heap_same_makedirs heap_same_append_text heap_same_write_text
  heap_same_read in_world_untouched : proc.

Ltac proc :=
  repeat first
    [ lazymatch goal with
      | |- preserves ?R (bind _ _) => apply (preserves_bind R); [|intros ?]
      | |- preserves ?R (try_except _ _ _) => apply (preserves_try_except R)
      | |- preserves ?R (if _ then _ else _) => apply (preserves_if R)
      end
    | progress eauto with proc typeclass_instances
    | case_match ].

Lemma untouched_int_to_float (n : Z) : preserves untouched (int_to_float n).
Proof. unfold int_to_float. proc. Qed.

Lemma untouched_update_session (f : Session -> Session) :
  (forall s, message_window (f s) = message_window s /\
             last_prompt_id (f s) = last_prompt_id s) ->
  preserves untouched (update_session f).
Proof. intros Hf. apply untouched_on_session. exact Hf. Qed.

Lemma untouched_track_usage (r : Response) : preserves untouched (_track_usage r).
Proof.
  unfold _track_usage. pose proof untouched_int_to_float.
  repeat (apply (preserves_bind untouched); [|intros ?]); eauto with proc;
    apply untouched_update_session; intros s; done.
Qed.

Lemma untouched_save_conversation_output (q a pid : string) :
  preserves untouched (_save_conversation_output q a pid).
Proof.
  intros p r p'. unfold _save_conversation_output.
  destruct (current_session p) as [s|]; [|intros [= _ <-]; reflexivity].
  match goal with
  | |- ?c p = _ -> _ => assert (Hc : preserves untouched c) by proc; apply Hc
  end.
Qed.

Lemma kept_of_untouched {A} (c : M Processor A) :
  preserves untouched c -> preserves history_kept c.
Proof. apply preserves_weaken. exact untouched_history_kept. Qed.

Lemma history_kept_next_prompt_id : preserves history_kept (on_session get_next_prompt_id).
Proof.
  intros p r p'. unfold on_session.
  destruct (current_session p) as [s|] eqn:E; [|intros [= _ <-]; reflexivity].
  cbn. intros [= _ <-]. intros s0 Hs0. rewrite E in Hs0. injection Hs0 as <-.
  eexists _, []. split_and!; [done|done|]. by rewrite app_nil_r.
Qed.

Lemma history_kept_append (r : loc) (m : Message) :
  preserves history_kept (in_world (append r m)).
Proof.
  intros p x p' [= _ <-]. intros s Hs. exists s.
  destruct (decide (r = message_window s)) as [->|Hne].
  - exists [m]. split_and!; try done. apply append_self.
  - exists []. split_and!; try done. rewrite app_nil_r. by apply append_other.
Qed.

Hint Resolve history_kept_next_prompt_id history_kept_append untouched_track_usage
  untouched_save_conversation_output : proc.
Hint Resolve kept_of_untouched | 10 : proc.

(** One attempt of [ask_question], whatever its outcome, keeps the stored
    history. *)
Lemma history_kept_ask_question_body (question : string) :
  preserves history_kept (ask_question_body question).
Proof. unfold ask_question_body. proc. Qed.

Lemma untouched_uniform_draw (p : Processor) : untouched p (snd (uniform_draw p)).
Proof. split; [done|]. apply same_object_refl. Qed.

Lemma history_kept_ask_question (question : string) (p : Processor) r p' tr :
  ask_question question p = (r, p', tr) -> history_kept p p'.
Proof.
  unfold ask_question, with_retries, retry_with_exponential_backoff.
  apply (retry_loop_preserves history_kept).
  - apply history_kept_ask_question_body.
  - intros p0. apply untouched_history_kept, untouched_uniform_draw.
Qed.

Lemma in_world_deref_inr (r : loc) (p p' : Processor) (l : list Message) :
  in_world (deref r) p = (inr l, p') -> p' = p /\ l = contents (world p) r.
Proof. unfold in_world, deref. cbn. intros [= <- <-]. by destruct p. Qed.

Lemma lift_result_inr {S A} (x : exn + A) (s s' : S) (a : A) :
  lift_result x s = (inr a, s') -> x = inr a /\ s' = s.
Proof. unfold lift_result. by intros [= -> ->]. Qed.

Lemma the_session_inr (p p' : Processor) (s : Session) :
  the_session p = (inr s, p') -> current_session p = Some s /\ p' = p.
Proof. unfold the_session. destruct (current_session p); [|discriminate]. by intros [= -> ->]. Qed.

(** A completed attempt of [ask_question]: the counter moves by one, and the
    question and the answer are appended with the id the call returns. *)
Lemma ask_question_body_success (question answer pid : string) (p p' : Processor) :
  ask_question_body question p = (inr (answer, pid), p') ->
  exists s s',
    current_session p = Some s /\ current_session p' = Some s' /\
    message_window s' = message_window s /\
    last_prompt_id s' = last_prompt_id s + 1 /\
    pid = Py.format_05d (last_prompt_id s + 1) /\
    contents (world p') (message_window s)
      = contents (world p) (message_window s)
        ++ [message_dump "user" question pid; message_dump "assistant" answer pid].
Proof.
  unfold ask_question_body. intros H.
  apply bind_inr in H as (p0 & p1 & Hget & H). injection Hget as <- <-.
  destruct (current_session p) as [s0|] eqn:Hcur; [|discriminate].
  exists s0.
  apply bind_inr in H as (u & p1 & Hu & H).
  assert (p1 = p) as -> by (destruct (understanding_of_json _); [by injection Hu|discriminate]).
  clear Hu.
  apply bind_inr in H as (prompt & p1 & Hp & H).
  apply subscript_inr in Hp as [_ ->].
  apply bind_inr in H as (history & p1 & Hh & H).
  apply in_world_deref_inr in Hh as [-> ->].
  apply bind_inr in H as (messages & p1 & Hm & H).
  apply lift_result_inr in Hm as [_ ->].
  apply bind_inr in H as (shown & p1 & Hs & H).
  apply lift_result_inr in Hs as [_ ->].
  apply bind_inr in H as (response & p1 & Hcall & H).
  apply untouched_call_endpoint in Hcall.
  apply bind_inr in H as ([] & p2 & Htrack & H).
  apply untouched_track_usage in Htrack.
  assert (Hu : untouched p p2) by (by etransitivity).
  destruct Hu as [Hheap Hsess]. rewrite Hcur in Hsess.
  destruct (current_session p2) as [s2|] eqn:Hcur2; [|done]. destruct Hsess as [Hmw2 Hlp2].
  clear Hcall Htrack.
  apply bind_inr in H as (pid' & p3 & Hnext & H).
  unfold on_session in Hnext. rewrite Hcur2 in Hnext. cbn in Hnext.
  injection Hnext as <- <-.
  apply bind_inr in H as (s3 & p4 & Hs3 & H).
  apply the_session_inr in Hs3 as [Hs3 ->]. cbn in Hs3. injection Hs3 as <-.
  apply bind_inr in H as ([] & p5 & Ha1 & H).
  injection Ha1 as <-.
  apply bind_inr in H as (s4 & p6 & Hs4 & H).
  apply the_session_inr in Hs4 as [Hs4 ->]. cbn in Hs4. injection Hs4 as <-.
  apply bind_inr in H as ([] & p7 & Ha2 & H).
  injection Ha2 as <-.
  apply bind_inr in H as ([] & p8 & Hsave & H).
  apply untouched_save_current_session in Hsave.
  apply bind_inr in H as ([] & p9 & Hout & H).
  apply untouched_save_conversation_output in Hout.
  injection H as <- <- <-.
  assert (Hu : untouched
    (set_world (append (message_window s2) (message_dump "assistant" (resp_text response)
                  (Py.format_05d (last_prompt_id s2 + 1)))
        (world (set_world (append (message_window s2) (message_dump "user" question
                  (Py.format_05d (last_prompt_id s2 + 1)))
           (world (set_current_session (Some (set_last_prompt_id (last_prompt_id s2 + 1) s2)) p2))).2
           (set_current_session (Some (set_last_prompt_id (last_prompt_id s2 + 1) s2)) p2)))).2
       (set_world (append (message_window s2) (message_dump "user" question
                  (Py.format_05d (last_prompt_id s2 + 1)))
           (world (set_current_session (Some (set_last_prompt_id (last_prompt_id s2 + 1) s2)) p2))).2
           (set_current_session (Some (set_last_prompt_id (last_prompt_id s2 + 1) s2)) p2))) p9)
    by (by etransitivity).
  destruct Hu as [Hheap' Hsess']. cbn in Hsess'.
  destruct (current_session p9) as [s'|] eqn:Hcur'; [|done]. destruct Hsess' as [Hmw' Hlp'].
  exists s'. cbn in Hmw', Hlp'.
  split_and!; try done; try congruence.
  rewrite <- Hmw2.
    unfold contents at 1. rewrite Hheap'. cbn -[Py.format_05d].
    rewrite lookup_insert_eq. cbn -[Py.format_05d].
    unfold contents at 1. cbn -[Py.format_05d]. rewrite lookup_insert_eq. cbn -[Py.format_05d].
    unfold contents. rewrite Hheap. by rewrite <- app_assoc.
Qed.

Lemma never_retryable_in_world {A} (c : M World A) :
  never_retryable c -> never_retryable (in_world c).
Proof.
  intros Hc p e p'. unfold in_world. destruct (c (world p)) as [[e0|a] w] eqn:E; [|discriminate].
  intros [= <- _]. eapply Hc, E.
Qed.

Lemma never_retryable_total {S A} (f : S -> A * S) :
  never_retryable (fun s => (inr (fst (f s)), snd (f s))).
Proof. intros s e s'. discriminate. Qed.

Lemma never_retryable_append (r : loc) (m : Message) : never_retryable (append r m).
Proof. intros s e s'. discriminate. Qed.

Lemma never_retryable_now : never_retryable now.
Proof. intros s e s'. discriminate. Qed.

Lemma never_retryable_makedirs (d : string) : never_retryable (makedirs d).
Proof. intros s e s'. discriminate. Qed.

Lemma never_retryable_append_text (d f t : string) : never_retryable (append_text d f t).
Proof. intros s e s'. discriminate. Qed.

Lemma never_retryable_read {A} (f : World -> A) : never_retryable (fun w => (inr (f w), w)).
Proof. intros s e s'. discriminate. Qed.

Lemma never_retryable_the_session : never_retryable the_session.
Proof.
  intros p e p'. unfold the_session. destruct (current_session p); [discriminate|].
  by intros [= <- _].
Qed.

Lemma never_retryable_on_session {A} (method : Session -> Session * A) :
  never_retryable (on_session method).
Proof.
  intros p e p'. unfold on_session. destruct (current_session p) as [s|].
  - destruct (method s). discriminate.
  - by intros [= <- _].
Qed.

Lemma never_retryable_int_to_float (n : Z) : never_retryable (int_to_float n).
Proof.
  intros p e p'. unfold int_to_float. destruct (float_of_int n); [discriminate|].
  by intros [= <- _].
Qed.

Lemma save_session_error (s : Session) (w : World) e s' w' :
  save_session s w = (inl e, s', w') -> e = TypeError.
Proof.
  unfold save_session. cbn [now]. unfold json_dump_to.
  destruct (serialisable _).
  - cbn [to_dict d_message_window]. unfold bind, deref, write_session_file, modify. cbn.
    discriminate.
  - unfold bind, write_session_file, modify, raise. cbn. by intros [= <- _ _].
Qed.

Lemma never_retryable_save_current_session : never_retryable save_current_session.
Proof.
  intros p e p'. unfold save_current_session. destruct (current_session p) as [s|].
  - destruct (save_session s (world p)) as [[[e0|x] s'] w'] eqn:E; [|discriminate].
    intros [= <- _]. by rewrite (save_session_error _ _ _ _ _ E).
  - by intros [= <- _].
Qed.

Create HintDb noretry.
Hint Resolve never_retryable_ret never_retryable_modify never_retryable_in_world
  never_retryable_append never_retryable_now never_retryable_makedirs
  never_retryable_append_text never_retryable_read never_retryable_the_session
  never_retryable_on_session never_retryable_int_to_float
  never_retryable_save_current_session : noretry.

Ltac noretry :=
  repeat first
    [ lazymatch goal with
      | |- never_retryable (bind _ _) => apply never_retryable_bind; [|intros ?]
      | |- never_retryable (if _ then _ else _) => case_match
      end
    | progress eauto with noretry ].

Lemma never_retryable_track_usage (r : Response) : never_retryable (_track_usage r).
Proof. unfold _track_usage, update_session. noretry. Qed.

Lemma never_retryable_save_conversation_output (q a pid : string) :
  never_retryable (_save_conversation_output q a pid).
Proof.
  intros p e p'. unfold _save_conversation_output.
  destruct (current_session p) as [s|]; [|discriminate].
  match goal with
  | |- ?c p = _ -> _ => assert (Hc : never_retryable c) by noretry; apply Hc
  end.
Qed.

(** An attempt of [ask_question] that raises a rate-limit or overload error
    has changed neither the history nor the session's counter: such errors
    come from the endpoint, before anything is recorded. *)
Lemma retryable_keeps_ask_question_body (question : string) :
  retryable_keeps untouched (ask_question_body question).
Proof.
  unfold ask_question_body.
  apply (retryable_keeps_bind untouched); [proc|intros p0].
  destruct (current_session p0) as [s0|];
    [|apply retryable_keeps_never, never_retryable_raise; reflexivity].
  apply (retryable_keeps_bind untouched); [proc|intros u].
  apply (retryable_keeps_bind untouched); [proc|intros prompt].
  apply (retryable_keeps_bind untouched); [proc|intros history].
  apply (retryable_keeps_bind untouched); [proc|intros messages].
  apply (retryable_keeps_bind untouched); [proc|intros shown].
  apply (retryable_keeps_bind untouched); [proc|intros response].
  apply retryable_keeps_never.
  pose proof never_retryable_track_usage. pose proof never_retryable_save_conversation_output.
  noretry.
Qed.

(** [ask_question] under its decorator, when it returns. *)
Lemma ask_question_success (question answer pid : string) (p p' : Processor) tr :
  ask_question question p = (inr (Some (answer, pid)), p', tr) ->
  exists s s',
    current_session p = Some s /\ current_session p' = Some s' /\
    message_window s' = message_window s /\
    last_prompt_id s' = last_prompt_id s + 1 /\
    pid = Py.format_05d (last_prompt_id s + 1) /\
    contents (world p') (message_window s)
      = contents (world p) (message_window s)
        ++ [message_dump "user" question pid; message_dump "assistant" answer pid].
Proof.
  unfold ask_question, with_retries, retry_with_exponential_backoff. intros H.
  destruct (retry_loop_success untouched uniform_draw _ _ _ _ _ _ _ _ _ _
              (retryable_keeps_ask_question_body question) untouched_uniform_draw H)
    as (p0 & [Hheap Hsess] & Hbody).
  apply ask_question_body_success in Hbody as (s0 & s' & Hcur0 & Hcur' & Hmw & Hlp & Hpid & Hc).
  rewrite Hcur0 in Hsess.
  destruct (current_session p) as [s|] eqn:Hcur; [|done]. destruct Hsess as [Hmw0 Hlp0].
  exists s, s'. split_and!; try done; try congruence.
  rewrite <- Hmw0, Hc. unfold contents. by rewrite Hheap.
Qed.

Lemma read_entry_write_entry {A} (k : string) (v : A) (l : list (string * A)) :
  read_entry k (write_entry k v l) = Some v.
Proof.
  induction l as [|[k' v'] l IH]; cbn.
  - by rewrite String.eqb_refl.
  - destruct (String.eqb k' k) eqn:E; cbn.
    + by rewrite String.eqb_refl.
    + by rewrite E.
Qed.

Lemma float_of_int_some (n : Z) :
  float_of_int n <> None -> float_of_int n = Some (nearest_float n).
Proof. unfold float_of_int. by destruct (PrimFloat.is_infinity _). Qed.

Lemma set_world_same (p : Processor) : set_world (world p) p = p.
Proof. by destruct p. Qed.

(** [save_session] on a session that [json.dump] can write. *)
Lemma save_session_run (s : Session) (w : World) :
  serialisable (to_dict s) = true ->
  exists w',
    save_session s w = (inr tt, set_last_accessed (now_at (clock w)) s, w') /\
    heap w' = heap w /\
    read_entry (session_id s +:+ ".json") (sessions_dir w')
      = Some (Json (with_message_window (Some (contents w (message_window s)))
                      (to_dict (set_last_accessed (now_at (clock w)) s)))).
Proof.
  intros Hser. unfold save_session. cbn [now]. unfold json_dump_to.
  assert (Hser' : serialisable (to_dict (set_last_accessed (now_at (clock w)) s)) = true)
    by exact Hser.
  rewrite Hser'. cbn [to_dict d_message_window].
  unfold bind, deref, write_session_file, modify. cbn.
  eexists. split_and!; [reflexivity|reflexivity|].
  cbn. apply read_entry_write_entry.
Qed.

(** One call of [_track_usage]. *)
Lemma track_usage_run (p : Processor) (s : Session) (r : Response) :
  current_session p = Some s ->
  serialisable (to_dict s) = true ->
  float_of_int (input_tokens r) <> None ->
  float_of_int (output_tokens r) <> None ->
  exists p' s',
    _track_usage r p = (inr tt, p') /\
    current_session p' = Some s' /\
    session_id s' = session_id s /\
    branch_info s' = branch_info s /\
    message_window s' = message_window s /\
    total_input_tokens s' = total_input_tokens s + input_tokens r /\
    total_output_tokens s' = total_output_tokens s + output_tokens r /\
    total_cost s' = PrimFloat.add (total_cost s) (incremental_cost r) /\
    heap (world p') = heap (world p) /\
    read_entry (session_id s +:+ ".json") (sessions_dir (world p'))
      = Some (Json (with_message_window (Some (contents (world p') (message_window s')))
                      (to_dict s'))).
Proof.
  intros Hcur Hser Hin Hout.
  apply float_of_int_some in Hin. apply float_of_int_some in Hout.
  unfold _track_usage, update_session, on_session, int_to_float, bind.
  rewrite Hcur. cbn [current_session set_current_session fst snd].
  rewrite Hin, Hout. cbn [ret current_session set_current_session].
  unfold save_current_session. cbn [current_session set_current_session world max_tokens
    current_system_prompt].
  match goal with
  | |- context [save_session ?s0 (world p)] =>
      destruct (save_session_run s0 (world p) Hser) as (w' & Hsave & Hheap & Hfile);
      rewrite Hsave
  end.
  eexists _, _. split_and!; try reflexivity.
  - exact Hheap.
  - cbn [world current_session]. refine (eq_trans Hfile _).
    unfold contents. rewrite Hheap. reflexivity.
Qed.

(** Successive calls: the totals are running sums, and the file of the
    session holds the session as the last call left it. *)
Lemma track_usages_run (responses : list Response) : forall (p : Processor) (s : Session),
  current_session p = Some s ->
  serialisable (to_dict s) = true ->
  Forall (fun r => float_of_int (input_tokens r) <> None /\
                   float_of_int (output_tokens r) <> None) responses ->
  exists p' s',
    track_usages responses p = (inr tt, p') /\
    current_session p' = Some s' /\
    session_id s' = session_id s /\
    branch_info s' = branch_info s /\
    message_window s' = message_window s /\
    total_input_tokens s'
      = fold_left (fun acc r => acc + input_tokens r) responses (total_input_tokens s) /\
    total_output_tokens s'
      = fold_left (fun acc r => acc + output_tokens r) responses (total_output_tokens s) /\
    total_cost s'
      = fold_left (fun acc r => PrimFloat.add acc (incremental_cost r)) responses (total_cost s) /\
    heap (world p') = heap (world p) /\
    (responses <> [] ->
     read_entry (session_id s +:+ ".json") (sessions_dir (world p'))
       = Some (Json (with_message_window (Some (contents (world p') (message_window s')))
                       (to_dict s')))).
Proof.
  induction responses as [|r rest IH]; intros p s Hcur Hser Hall.
  - exists p, s. cbn. split_and!; done.
  - apply Forall_cons in Hall as [[Hin Hout] Hall].
    destruct (track_usage_run p s r Hcur Hser Hin Hout)
      as (p1 & s1 & Hrun & Hcur1 & Hid1 & Hbi1 & Hmw1 & Hti1 & Hto1 & Hc1 & Hh1 & Hf1).
    assert (Hser1 : serialisable (to_dict s1) = true).
    { unfold serialisable in *. cbn [to_dict d_branch_info] in *. by rewrite Hbi1. }
    destruct (IH p1 s1 Hcur1 Hser1 Hall)
      as (p' & s' & Hrun' & Hcur' & Hid' & Hbi' & Hmw' & Hti' & Hto' & Hc' & Hh' & Hf').
    exists p', s'. cbn [track_usages fold_left].
    rewrite (bind_ok _ _ _ _ _ Hrun).
    split_and!; try congruence.
    intros _. destruct rest as [|r' rest'].
    + cbn in Hrun'. injection Hrun' as <-. rewrite Hcur1 in Hcur'. injection Hcur' as <-.
      exact Hf1.
    + rewrite <- Hid1. by apply Hf'.
Qed.

(** [DocumentProcessor.create_branch] with a name that holds the separator. *)
Lemma processor_create_branch_invalid (branch : string) (h : bool) (p : Processor) :
  Py.contains "/" branch = true ->
  processor_create_branch branch h p = (inl ValueError, p).
Proof.
  intros Hb. unfold processor_create_branch, bind, get.
  destruct (current_session p) as [s|]; [|reflexivity].
  unfold in_world. rewrite (create_branch_invalid _ _ _ _ Hb). by rewrite set_world_same.
Qed.

Lemma save_current_session_inr (p p' : Processor) :
  save_current_session p = (inr tt, p') ->
  exists s,
    current_session p = Some s /\
    current_session p' = Some (set_last_accessed (now_at (clock (world p))) s) /\
    heap (world p') = heap (world p) /\
    read_entry (session_id s +:+ ".json") (sessions_dir (world p'))
      = Some (Json (with_message_window (Some (contents (world p) (message_window s)))
                      (to_dict (set_last_accessed (now_at (clock (world p))) s)))).
Proof.
  unfold save_current_session. destruct (current_session p) as [s|]; [|discriminate].
  destruct (serialisable (to_dict s)) eqn:Hser.
  - destruct (save_session_run s (world p) Hser) as (w' & -> & Hh & Hf).
    intros [= <-]. exists s. done.
  - unfold save_session. cbn [now]. unfold json_dump_to.
    assert (Hser' : serialisable (to_dict (set_last_accessed (now_at (clock (world p))) s))
                    = false) by exact Hser.
    rewrite Hser'. unfold bind, write_session_file, modify, raise. cbn. discriminate.
Qed.

Lemma last_k_at_most {A} (k : Z) (l : list A) :
  0 < k -> (length (Py.last_k k l) <= Z.to_nat k)%nat.
Proof. intros Hk. rewrite last_k_length by done. lia. Qed.

End ProcessorFacts.

(** ** The claims *)

Section Claims.
Context {C : Collaborators}.

Lemma successive_ids_lookup (n : nat) : forall (s : Session) (k : nat),
  (k < n)%nat ->
  successive_ids n s !! k = Some (Py.format_05d (last_prompt_id s + Z.of_nat k + 1)).
Proof.
  induction n as [|n IH]; intros s k Hk; [lia|].
  cbn [successive_ids get_next_prompt_id].
  destruct k as [|k].
  - cbn. do 2 f_equal. lia.
  - cbn [lookup list_lookup]. rewrite IH by lia. cbn. do 2 f_equal. lia.
Qed.

Lemma format_05d_digits (n : Z) : 0 <= n -> Py.str_all Py.is_digit (Py.format_05d n) = true.
Proof.
  intros Hn. unfold Py.format_05d. destruct (Z.ltb_spec n 0); [lia|].
  destruct (decimal_spec n Hn) as (k & _ & _ & _ & _ & Hall & _).
  by apply zfill_digits.
Qed.

(** C3 (as amended).  Each call of [get_next_prompt_id] adds one to the
    session's counter and returns the new value in the format 05d: zero
    padded to a width of at least five, which [int] reads back as the value.
    The rendering has exactly five digits while the value is between 1 and
    99999, and more beyond.  The k-th of successive calls returns the counter
    plus k.  A call of [ask_question] that returns has appended the question
    and the answer to the history, both tagged with the id it returns, which
    is the one [get_next_prompt_id] gave. *)
Theorem prompt_ids_sequential :
  (forall s : Session,
     last_prompt_id (fst (get_next_prompt_id s)) = last_prompt_id s + 1 /\
     snd (get_next_prompt_id s) = Py.format_05d (last_prompt_id s + 1) /\
     Py.int (snd (get_next_prompt_id s)) = Some (last_prompt_id s + 1) /\
     (0 <= last_prompt_id s < 99999 ->
        String.length (snd (get_next_prompt_id s)) = 5%nat /\
        Py.str_all Py.is_digit (snd (get_next_prompt_id s)) = true) /\
     (99999 <= last_prompt_id s -> (6 <= String.length (snd (get_next_prompt_id s)))%nat)) /\
  (forall (s : Session) (n k : nat),
     (k < n)%nat ->
     exists pid, successive_ids n s !! k = Some pid /\
                 Py.int pid = Some (last_prompt_id s + Z.of_nat k + 1)) /\
  (forall (question answer pid : string) (p p' : Processor) tr,
     ask_question question p = (inr (Some (answer, pid)), p', tr) ->
     exists s s',
       current_session p = Some s /\ current_session p' = Some s' /\
       message_window s' = message_window s /\
       last_prompt_id s' = last_prompt_id s + 1 /\
       pid = snd (get_next_prompt_id s) /\
       contents (world p') (message_window s)
         = contents (world p) (message_window s)
           ++ [message_dump "user" question pid; message_dump "assistant" answer pid]).
Proof.
  split_and!.
  - intros s. cbn [get_next_prompt_id fst snd last_prompt_id set_last_prompt_id].
    split_and!; try reflexivity.
    + apply int_format_05d.
    + intros H. split; [apply format_05d_length_small; lia|apply format_05d_digits; lia].
    + intros H. apply format_05d_length_large. lia.
  - intros s n k Hk. eexists. split; [by apply successive_ids_lookup|].
    apply int_format_05d.
  - intros question answer pid p p' tr H.
    destruct (ask_question_success _ _ _ _ _ _ H) as (s & s' & H1 & H2 & H3 & H4 & H5 & H6).
    exists s, s'. split_and!; done.
Qed.

(** C4.  [create_branch] with a name free of the separator and
    [include_history] set, called on a parent whose history list exists:
    whenever it returns, the session it returns is named
    [parent name/branch name], its branch_info carries the parent's
    session_id, and its message_window is a list object of its own holding
    what the parent's holds at that moment; an append to either list then
    leaves the other as it was.  It does return when [sessions/] holds no
    readable snapshot of the composite name. *)
Theorem create_branch_forks (parent : Session) (branch : string) (w : World) :
  Py.contains "/" branch = false ->
  is_Some (heap w !! message_window parent) ->
  (forall (child : Session) (w' : World),
     create_branch parent branch true w = (inr child, w') ->
     name child = name parent +:+ "/" +:+ branch /\
     (exists b, branch_info child = Some b /\ parent_id b = session_id parent /\
                branch_name b = branch) /\
     contents w' (message_window child) = contents w (message_window parent) /\
     contents w' (message_window parent) = contents w (message_window parent) /\
     message_window child <> message_window parent /\
     (forall m,
        contents (snd (append (message_window child) m w')) (message_window child)
          = contents w' (message_window child) ++ [m] /\
        contents (snd (append (message_window child) m w')) (message_window parent)
          = contents w' (message_window parent)) /\
     (forall m,
        contents (snd (append (message_window parent) m w')) (message_window parent)
          = contents w' (message_window parent) ++ [m] /\
        contents (snd (append (message_window parent) m w')) (message_window child)
          = contents w' (message_window child))) /\
  (first_named (name parent +:+ "/" +:+ branch) (sessions_dir w) = None ->
   exists child w', create_branch parent branch true w = (inr child, w')).
Proof.
  intros Hvalid Hlive. split.
  - intros child w' H.
    destruct (create_branch_with_history _ _ _ _ _ Hvalid Hlive H)
      as (Hname & Hinfo & Hne & Hchild & Hparent).
    split_and!; try done.
    + intros m. split; [apply append_self|by apply append_other].
    + intros m. split; [apply append_self|]. apply append_other. congruence.
  - intros Hnone. unfold create_branch. rewrite Hvalid.
    destruct (create_new_fresh _ (document_summary parent) 0 w Hnone) as (s1 & w1 & Hnew).
    rewrite (bind_ok _ _ _ _ _ Hnew).
    unfold bind, now, list_copy, bind, deref, alloc, ret. cbn. eauto.
Qed.

(** C5.  [create_branch] with a name that holds the separator raises
    ValueError and leaves the world as it was: no list object, no file of
    [sessions/], no directory, no reading of the clock or of the random
    source.  The same holds of [DocumentProcessor.create_branch], which
    leaves the processor, its current session included, as it was. *)
Theorem create_branch_rejects_separator (parent : Session) (branch : string)
    (include_history : bool) (w : World) (p : Processor) :
  Py.contains "/" branch = true ->
  create_branch parent branch include_history w = (inl ValueError, w) /\
  processor_create_branch branch include_history p = (inl ValueError, p).
Proof.
  intros H. split.
  - by apply create_branch_invalid.
  - by apply processor_create_branch_invalid.
Qed.

(** C7.  When the first readable file of [sessions/] that carries the name
    is a snapshot of a session, as [save_session] writes it, whose messages
    all have a role and whose user messages, of which there is one at least,
    all have a prompt_id that [int] reads: [create_new] returns that session,
    with a list object of its own holding the stored messages and with
    last_prompt_id the greatest of the user messages' ids, whatever counter
    and whatever summary the call or the snapshot carried. *)
Theorem create_new_recovers_counter (nm summary : string) (lp : Z) (w : World)
    (s0 : Session) (msgs : list Message) (i : Z) (ids : list Z) :
  (forall d, fromisoformat (isoformat d) = Some d) ->
  first_named nm (sessions_dir w) = Some (with_message_window (Some msgs) (to_dict s0)) ->
  user_prompt_ints msgs = inr (i :: ids) ->
  exists (m : Z) (r : loc) (w' : World),
    create_new nm summary lp w
      = (inr (set_last_prompt_id m (set_message_window r s0)), w') /\
    contents w' r = msgs /\
    m ∈ i :: ids /\ Forall (fun x => x <= m) (i :: ids).
Proof.
  intros Hiso Hfirst Hids.
  destruct (py_max_spec i ids) as (m & Hmax & Hin & Hall).
  destruct (create_new_existing nm summary lp w s0 msgs i ids m Hiso Hfirst Hids Hmax)
    as (r & w' & Hrun & Hc & _).
  exists m, r, w'. done.
Qed.

(** C8.  Tracked usages on a current session that [json.dump] can write,
    with token counts that have a float: every call succeeds; the token
    totals grow by the counts of each response, total_cost is the left to
    right binary64 sum of the costs
    [input/1000.0*0.003 + output/1000.0*0.015] of the responses, each
    computed in binary64 from the nearest floats of the two counts, and
    after the last call the file of the session holds the session as it then
    is. *)
#[warnings="-inexact-float"] Theorem usage_totals_accumulate (responses : list Response) (p : Processor) (s : Session) :
  current_session p = Some s ->
  serialisable (to_dict s) = true ->
  Forall (fun r => float_of_int (input_tokens r) <> None /\
                   float_of_int (output_tokens r) <> None) responses ->
  exists p' s',
    track_usages responses p = (inr tt, p') /\
    current_session p' = Some s' /\
    total_input_tokens s'
      = fold_left (fun acc r => acc + input_tokens r) responses (total_input_tokens s) /\
    total_output_tokens s'
      = fold_left (fun acc r => acc + output_tokens r) responses (total_output_tokens s) /\
    total_cost s'
      = fold_left
          (fun acc r =>
             (acc + (nearest_float (input_tokens r) / 1000 * 0.003
                     + nearest_float (output_tokens r) / 1000 * 0.015))%float)
          responses (total_cost s) /\
    (responses <> [] ->
     read_entry (session_id s +:+ ".json") (sessions_dir (world p'))
       = Some (Json (with_message_window (Some (contents (world p') (message_window s')))
                       (to_dict s')))).
Proof.
  intros Hcur Hser Hall.
  destruct (track_usages_run responses p s Hcur Hser Hall)
    as (p' & s' & H1 & H2 & _ & _ & _ & H3 & H4 & H5 & _ & H6).
  exists p', s'. split_and!; [exact H1|exact H2|exact H3|exact H4|exact H5|exact H6].
Qed.


End Claims.

Section Windows.
Context {C : Collaborators}.

Lemma window_messages_map (l : list Message) :
  Forall has_role_and_content l -> window_messages l = inr (map role_and_content l).
Proof.
  induction 1 as [|m l [[r Hr] [c Hc]] _ IH]; [done|].
  cbn [window_messages map]. rewrite Hr, Hc, IH. unfold role_and_content.
  by rewrite Hr, Hc.
Qed.

Lemma Forall_last_k {A} (P : A -> Prop) (k : Z) (l : list A) :
  Forall P l -> Forall P (Py.last_k k l).
Proof. unfold Py.last_k, Py.slice_from. apply Forall_drop. Qed.

(** The context holds the last [window_size] messages, not pairs: for a
    positive window, min(number of stored messages, window_size) of them, in
    the order of the history and with their roles, then the question. *)
Theorem context_is_last_messages (history : list Message) (window : Z) (question : string) :
  Forall has_role_and_content history ->
  0 < window ->
  exists ms,
    build_messages history window question = inr (ms ++ [("user", question)]) /\
    ms = map role_and_content (skipn (length history - Z.to_nat window) history) /\
    length ms = Nat.min (length history) (Z.to_nat window).
Proof.
  intros Hall Hw. unfold build_messages.
  rewrite (window_messages_map _ (Forall_last_k _ window _ Hall)).
  eexists. split; [reflexivity|]. rewrite last_k_pos by done.
  split; [reflexivity|]. rewrite length_map, length_skipn. lia.
Qed.


Lemma create_branch_stamp (parent : Session) (branch : string) (h : bool) (w w' : World)
    (child : Session) :
  create_branch parent branch h w = (inr child, w') ->
  serialisable (to_dict child) = false.
Proof.
  unfold create_branch. destruct (Py.contains "/" branch); [discriminate|].
  intros H.
  apply bind_inr in H as (s1 & w1 & _ & H).
  apply bind_inr in H as (t & w2 & _ & H).
  destruct h.
  - apply bind_inr in H as (copy & w3 & _ & H). by injection H as <- _.
  - by injection H as <- _.
Qed.

(** [DocumentProcessor.create_branch] does not get to adopt the branch it
    made: [save_session] raises TypeError on it, because [to_dict] hands
    [json.dump] the [datetime] of [BranchInfo.created_at]; the current
    session stays, and the file opened for the branch is left unreadable. *)
Theorem processor_create_branch_cannot_save (branch : string) (h : bool) (p : Processor)
    (s child : Session) (w' : World) :
  current_session p = Some s ->
  create_branch s branch h (world p) = (inr child, w') ->
  exists p',
    processor_create_branch branch h p = (inl TypeError, p') /\
    current_session p' = Some s /\
    read_entry (session_id child +:+ ".json") (sessions_dir (world p')) = Some Garbage.
Proof.
  intros Hcur Hbranch.
  pose proof (create_branch_stamp _ _ _ _ _ _ Hbranch) as Hser.
  unfold processor_create_branch, bind, get. rewrite Hcur.
  unfold in_world. rewrite Hbranch.
  unfold save_session. cbn [now world set_world]. unfold json_dump_to.
  assert (Hser' : forall t, serialisable (to_dict (set_last_accessed t child)) = false)
    by (intros t; exact Hser).
  rewrite Hser'. unfold bind, write_session_file, modify, raise. cbn.
  eexists. split_and!; [reflexivity|exact Hcur|].
  cbn. apply read_entry_write_entry.
Qed.

End Windows.

(** ** More on the retry decorator *)

Section RetryMore.
Context {S A : Type}.
Variable uniform : S -> Q * S.
Variable func : M S A.

(** A loop that stops before its last iteration stopped on a result or on an
    error that is not retried. *)
Lemma retry_loop_stops (m md : Z) (n : nat) : forall (i d : Z) (s : S),
  i + Z.of_nat n = m ->
  (0 < n)%nat ->
  let '(r, s', tr) := retry_loop uniform func m md n i d s in
  (length (attempts tr) < n)%nat ->
  exists o, last (attempts tr) = Some o /\ ~ transient_failure o.
Proof.
  induction n as [|n IH]; intros i d s Hi Hn; [lia|].
  cbn [retry_loop].
  destruct (func s) as [[e|v] s1] eqn:Ef.
  2:{ cbn. intros _. exists (inr v). split; [done|]. intros (e & He & _). discriminate. }
  destruct (retryable e) eqn:Er; cbn [negb].
  2:{ cbn. intros _. exists (inl e). split; [done|]. intros (e' & He & Hr). congruence. }
  destruct (Z.eqb_spec i (m - 1)) as [Hlast|Hmore].
  { assert (n = 0%nat) by lia. subst n. cbn. lia. }
  destruct (uniform s1) as [u s2] eqn:Eu.
  assert (Hn' : (0 < n)%nat) by lia.
  specialize (IH (i + 1) (Z.min (d * 2) md) s2 ltac:(lia) Hn').
  pose proof (retry_loop_facts uniform func m md n (i + 1) (Z.min (d * 2) md) s2 ltac:(lia) Hn') as F.
  destruct (retry_loop uniform func m md n (i + 1) (Z.min (d * 2) md) s2) as [[r s3] tr].
  destruct F as (_ & Hsl & _).
  cbn [attempts sleeps omap list_omap] in *.
  fold (attempts (A:=A) tr) in *. fold (sleeps (A:=A) tr) in *.
  intros Hlen. simpl in Hlen.
  destruct IH as (o & Ho & Hnt); [lia|].
  exists o. split; [|done].
  destruct (attempts tr) as [|a l] eqn:Ea; [simpl in Hsl; lia|].
  rewrite last_cons. by rewrite Ho.
Qed.


(** A loop all of whose attempts fail ends with an error. *)
Lemma retry_loop_always_raises (I : S -> Prop) (m md : Z) (n : nat) :
  (forall s0, I s0 -> exists e s1, func s0 = (inl e, s1) /\ I s1) ->
  (forall s0, I s0 -> I (snd (uniform s0))) ->
  forall (i d : Z) (s : S), I s -> i + Z.of_nat n = m -> (0 < n)%nat ->
    exists e s' tr, retry_loop uniform func m md n i d s = (inl e, s', tr) /\ I s'.
Proof.
  intros Hf Hu. induction n as [|n IH]; intros i d s Hs Hi Hn; [lia|].
  cbn [retry_loop].
  destruct (Hf s Hs) as (e & s1 & Ef & Hs1). rewrite Ef.
  destruct (negb (retryable e)); [by eauto|].
  destruct (Z.eqb_spec i (m - 1)) as [Hlast|Hmore]; [by eauto|].
  destruct (uniform s1) as [u s2] eqn:Eu.
  assert (Hs2 : I s2) by (specialize (Hu s1 Hs1); by rewrite Eu in Hu).
  destruct (IH (i + 1) (Z.min (d * 2) md) s2 Hs2 ltac:(lia) ltac:(lia)) as (e' & s' & tr & -> & Hs').
  eauto.
Qed.

(** A loop that ends with a retryable error: every attempt raised one. *)
Lemma retry_loop_failure (R : S -> S -> Prop) `{!PreOrder R} (m md : Z) (n : nat) :
  retryable_keeps R func -> (forall s0, R s0 (snd (uniform s0))) ->
  forall (i d : Z) (s : S) e s' tr,
    retry_loop uniform func m md n i d s = (inl e, s', tr) ->
    retryable e = true -> R s s'.
Proof.
  intros Hf Hu. induction n as [|n IH]; intros i d s e s' tr; cbn [retry_loop]; [discriminate|].
  destruct (func s) as [[e0|v0] s1] eqn:Ef; [|discriminate].
  destruct (retryable e0) eqn:Er; cbn [negb].
  2:{ intros [= <- <- _] He. congruence. }
  destruct (i =? m - 1).
  { intros [= <- <- _] _. eapply Hf; eauto. }
  destruct (uniform s1) as [u s2] eqn:Eu.
  destruct (retry_loop uniform func m md n (i + 1) (Z.min (d * 2) md) s2)
    as [[r0 s3] tr0] eqn:El.
  intros [= -> -> _] He.
  etransitivity; [eapply Hf; eauto|]. etransitivity; [|eapply IH; eauto].
  specialize (Hu s1). by rewrite Eu in Hu.
Qed.

Lemma retry_loop_failure_attempts (m md : Z) (n : nat) (i d : Z) (s : S) e s' tr :
  i + Z.of_nat n = m -> (0 < n)%nat ->
  retry_loop uniform func m md n i d s = (inl e, s', tr) ->
  retryable e = true ->
  length (attempts tr) = n /\ length (sleeps tr) = (n - 1)%nat.
Proof.
  intros Hi Hn Hrun He.
  pose proof (retry_loop_facts uniform func m md n i d s Hi Hn) as F.
  rewrite Hrun in F. destruct F as (_ & Hsl & (o & Hlast & Hr) & Hall & Hearly & _).
  assert (Ho : o = inl e) by (destruct o; cbn in Hr; congruence).
  assert (Hlen : length (attempts tr) = n).
  { apply Hall. apply Forall_lookup. intros k x Hk.
    destruct (decide (Datatypes.S k < length (attempts tr))%nat) as [Hlt|Hge].
    - by eapply Hearly.
    - rewrite last_lookup in Hlast.
      assert (k = pred (length (attempts tr))).
      { apply lookup_lt_Some in Hk. lia. }
      subst k. rewrite Hlast in Hk. injection Hk as <-. exists e. done. }
  split; [done|lia].
Qed.

End RetryMore.

(** X4.  The wrapper calls again only after a rate-limit or overload error:
    in a run with at least one retry allowed, every attempt but the last
    failed with one, each of them was followed by one sleep, and a run that
    stopped before its last allowed attempt stopped on a result or on an
    error of another kind, which it hands over as it is. *)
Theorem retry_only_after_transient_failure {S A : Type} (uniform : S -> Q * S) (func : M S A)
    (s : S) (max_retries initial_delay max_delay : Z) :
  0 < max_retries ->
  let '(r, s', tr) :=
    retry_with_exponential_backoff uniform func max_retries initial_delay max_delay s in
  (1 <= length (attempts tr) <= Z.to_nat max_retries)%nat /\
  length (sleeps tr) = (length (attempts tr) - 1)%nat /\
  (forall k o, (Datatypes.S k < length (attempts tr))%nat ->
     attempts tr !! k = Some o -> transient_failure o) /\
  (exists o, last (attempts tr) = Some o /\ r = outcome_of o /\
     ((length (attempts tr) < Z.to_nat max_retries)%nat -> ~ transient_failure o)).
Proof.
  intros Hm. unfold retry_with_exponential_backoff.
  pose proof (retry_loop_facts uniform func max_retries max_delay (Z.to_nat max_retries) 0
                initial_delay s ltac:(lia) ltac:(lia)) as F.
  pose proof (retry_loop_stops uniform func max_retries max_delay (Z.to_nat max_retries) 0
                initial_delay s ltac:(lia) ltac:(lia)) as G.
  destruct (retry_loop uniform func max_retries max_delay (Z.to_nat max_retries) 0
              initial_delay s) as [[r s'] tr].
  destruct F as (Hlen & Hsl & (o & Hlast & Hr) & _ & Hearly & _).
  split_and!; try lia.
  - exact Hearly.
  - exists o. split_and!; try done.
    intros Hlt. destruct (G Hlt) as (o' & Ho' & Hnt). congruence.
Qed.

(** X5.  The [return None] after the loop is reached only when no attempt
    is allowed: with [max_retries <= 0] the wrapper returns [None] without
    calling the function; with a positive [max_retries], as the program uses
    it, it never returns [None]. *)
Theorem retry_returns_none_only_without_retries {S A : Type} (uniform : S -> Q * S)
    (func : M S A) (s : S) (max_retries initial_delay max_delay : Z) :
  (max_retries <= 0 ->
   retry_with_exponential_backoff uniform func max_retries initial_delay max_delay s
     = (inr None, s, [])) /\
  (0 < max_retries ->
   fst (fst (retry_with_exponential_backoff uniform func max_retries initial_delay max_delay s))
     <> inr None).
Proof.
  split.
  - intros Hm. unfold retry_with_exponential_backoff.
    replace (Z.to_nat max_retries) with 0%nat by lia. reflexivity.
  - intros Hm. unfold retry_with_exponential_backoff.
    pose proof (retry_loop_facts uniform func max_retries max_delay (Z.to_nat max_retries) 0
                  initial_delay s ltac:(lia) ltac:(lia)) as F.
    destruct (retry_loop uniform func max_retries max_delay (Z.to_nat max_retries) 0
                initial_delay s) as [[r s'] tr].
    destruct F as (_ & _ & (o & _ & ->) & _). cbn. by destruct o.
Qed.


(** ** More on sessions *)

Section MoreSessionFacts.
Context {C : Collaborators}.

#[local] Existing Instance heap_grows_preorder.

Lemma from_dict_counter_total (session : Session) (w : World) :
  exists s,
    (do msgs <- deref (message_window session);
     if (last_prompt_id session =? 0) && negb (is_nil msgs) then
       try_except
         (do m <- lift_result (max_user_prompt_id msgs); ret (set_last_prompt_id m session))
         (fun e => bool_decide (e = ValueError) || bool_decide (e = KeyError))
         (ret (set_last_prompt_id 0 session))
     else ret session) w = (inr s, w).
Proof.
  unfold bind, deref. cbn.
  destruct ((last_prompt_id session =? 0) && negb (is_nil (contents w (message_window session)))).
  - unfold try_except, lift_result, bind, ret.
    destruct (max_user_prompt_id _) as [e|m] eqn:E; [|eauto].
    destruct (max_user_prompt_id_error _ _ E) as [-> | ->]; cbn; eauto.
  - unfold ret. eauto.
Qed.

Ltac fd_ok :=
  erewrite bind_ok by (first [reflexivity | unfold parse_iso; rewrite_fd; reflexivity]);
  cbv beta
with rewrite_fd :=
  match goal with
  | H : fromisoformat ?t = Some _ |- context [fromisoformat ?t] => rewrite H
  end.

Lemma from_dict_runs (data : Data loc) (w : World) :
  has_required_keys data -> exists s w', from_dict data w = (inr s, w').
Proof.
  intros ([sid Hsid] & [nm Hnm] & [summ Hsumm] & [mw Hmw] & (tc & Htc & [dc Hdc])
          & (ta & Hta & [da Hda])).
  unfold from_dict. rewrite Hsid, Hnm, Hsumm, Hmw, Htc, Hta.
  do 9 fd_ok.
  match goal with
  | |- exists s w', bind (deref (message_window ?sess)) _ ?w0 = _ =>
      destruct (from_dict_counter_total sess w0) as (s & Hs)
  end.
  eexists _, _. exact Hs.
Qed.

(** X7.  On a dict whose values have the types the program writes (a
    message field is a string when it is there, branch_info is null or a
    complete record, as [Data] has them), [from_dict] returns a session
    exactly when the dict has the keys session_id, name, document_summary,
    message_window, created_at and last_accessed and the two dates parse;
    otherwise it raises KeyError or ValueError and leaves the list objects
    and the files as they were.  A history with a message that lacks its
    role or its prompt_id, or has a prompt_id [int] rejects, never makes it
    fail. *)
Theorem from_dict_fails_only_on_required_keys (data : Data loc) (w : World) :
  (has_required_keys data -> exists s w', from_dict data w = (inr s, w')) /\
  (forall e w', from_dict data w = (inl e, w') ->
     ~ has_required_keys data /\ (e = KeyError \/ e = ValueError) /\
     heap w' = heap w /\ sessions_dir w' = sessions_dir w /\ fs w' = fs w).
Proof.
  split; [apply from_dict_runs|].
  intros e w' H.
  assert (Hnot : ~ has_required_keys data).
  { intros Hreq. destruct (from_dict_runs data w Hreq) as (s & w1 & Hs). congruence. }
  split; [exact Hnot|].
  unfold from_dict in H.
  destruct (d_session_id data) as [sid|] eqn:Hsid.
  2:{ cbn in H. injection H as <- <-. split_and!; try done. by left. }
  destruct (d_name data) as [nm|] eqn:Hnm.
  2:{ cbn in H. injection H as <- <-. split_and!; try done. by left. }
  destruct (d_document_summary data) as [summ|] eqn:Hsumm.
  2:{ cbn in H. injection H as <- <-. split_and!; try done. by left. }
  destruct (d_message_window data) as [mw|] eqn:Hmw.
  2:{ cbn in H. injection H as <- <-. split_and!; try done. by left. }
  destruct (d_created_at data) as [tc|] eqn:Htc.
  2:{ cbn in H. injection H as <- <-. split_and!; try done. by left. }
  destruct (fromisoformat tc) as [dc|] eqn:Hdc.
  2:{ do 6 (erewrite bind_ok in H by reflexivity; cbv beta in H).
      erewrite bind_raise in H by (unfold parse_iso; rewrite Hdc; reflexivity).
      injection H as <- <-. split_and!; try done. by right. }
  destruct (d_last_accessed data) as [ta|] eqn:Hta.
  2:{ do 6 (erewrite bind_ok in H by reflexivity; cbv beta in H).
      erewrite bind_ok in H by (unfold parse_iso; rewrite Hdc; reflexivity). cbv beta in H.
      erewrite bind_raise in H by reflexivity.
      injection H as <- <-. split_and!; try done. by left. }
  destruct (fromisoformat ta) as [da|] eqn:Hda.
  2:{ do 6 (erewrite bind_ok in H by reflexivity; cbv beta in H).
      erewrite bind_ok in H by (unfold parse_iso; rewrite Hdc; reflexivity). cbv beta in H.
      erewrite bind_ok in H by reflexivity. cbv beta in H.
      erewrite bind_raise in H by (unfold parse_iso; rewrite Hda; reflexivity).
      injection H as <- <-. split_and!; try done. by right. }
  exfalso. apply Hnot. unfold has_required_keys.
  rewrite Hsid, Hnm, Hsumm, Hmw, Htc, Hta. split_and!; eauto.
Qed.


(** save then load *)
(** X8.  [save_session] then [load_session] of the same id, for a session
    that [json.dump] can write and a clock library whose [fromisoformat]
    inverts [isoformat]: the session comes back with the [last_accessed] of
    the save and every other field as it was, its history in a list object of
    its own with the same messages; the list objects that existed are left as
    they were.  (With a counter of 0 and a history, the counter is computed
    again, as C10 says.) *)
Theorem load_session_reads_back_save (s : Session) (w : World) :
  (forall d, fromisoformat (isoformat d) = Some d) ->
  serialisable (to_dict s) = true ->
  last_prompt_id s <> 0 \/ contents w (message_window s) = [] ->
  exists w1 r w2,
    save_session s w = (inr tt, set_last_accessed (now_at (clock w)) s, w1) /\
    load_session (session_id s) w1
      = (inr (Some (set_message_window r (set_last_accessed (now_at (clock w)) s))), w2) /\
    heap w !! r = None /\
    contents w2 r = contents w (message_window s) /\
    (forall r0, is_Some (heap w !! r0) -> contents w2 r0 = contents w r0).
Proof.
  intros Hiso Hser Hcount.
  destruct (save_session_run s w Hser) as (w1 & Hsave & Hheap & Hfile).
  set (s1 := set_last_accessed (now_at (clock w)) s) in *.
  set (msgs := contents w (message_window s)) in *.
  destruct (contents_alloc msgs w1) as (r & Ealloc & Hfresh & Hcont).
  exists w1, r. eexists. split; [exact Hsave|].
  assert (Hid : session_id s1 = session_id s) by (by destruct s).
  unfold load_session. unfold bind at 1. cbn [fst snd].
  change (session_id s +:+ ".json") with (session_id s +:+ ".json") in Hfile.
  rewrite Hfile.
  unfold json_load. cbn [d_message_window with_message_window to_dict].
  rewrite (bind_ok _ _ _ _ _ (bind_ok _ _ _ _ _ Ealloc)). cbn [ret].
  assert (Hd : with_message_window (Some r) (with_message_window (Some msgs) (to_dict s1))
               = to_dict (set_message_window r s1)) by (by destruct s).
  rewrite Hd.
  rewrite (bind_ok _ _ _ _ _ (from_dict_to_dict_run _ _ Hiso)).
  assert (Hmw : message_window (set_message_window r s1) = r) by (by destruct s).
  assert (Hlp : last_prompt_id (set_message_window r s1) = last_prompt_id s) by (by destruct s).
  rewrite Hmw, Hlp, Hcont.
  assert (Hcond : (last_prompt_id s =? 0) && negb (is_nil msgs) = false).
  { destruct Hcount as [Hne|Hnil].
    - destruct (Z.eqb_spec (last_prompt_id s) 0); done.
    - rewrite Hnil. cbn. apply andb_false_r. }
  rewrite Hcond. cbn [ret].
  split; [reflexivity|].
  split; [by rewrite <- Hheap|].
  split.
  - exact Hcont.
  - intros r0 [l Hl]. unfold contents. cbn. rewrite Hheap.
    rewrite lookup_insert_ne; [done|]. intros ->. rewrite Hheap in Hfresh. congruence.
Qed.

(** create_new and the directory of sessions *)
#[local] Instance files_same_preorder : PreOrder files_same.
Proof.
  split; [by intros w|]. intros w1 w2 w3 [H1 H1'] [H2 H2']. split; congruence.
Qed.

#[local] Instance sessions_same_preorder : PreOrder sessions_same.
Proof.
  split; [by intros w|]. intros w1 w2 w3 H1 H2. unfold sessions_same in *. congruence.
Qed.

Lemma files_same_alloc (l : list Message) : preserves files_same (alloc l).
Proof. by intros w x w' [= _ <-]. Qed.
Lemma files_same_deref (r : loc) : preserves files_same (deref r).
Proof. by intros w x w' [= _ <-]. Qed.
Lemma files_same_draw {A} (f : nat -> A) : preserves files_same (draw f).
Proof. by intros w x w' [= _ <-]. Qed.
Lemma files_same_now : preserves files_same now.
Proof. by intros w x w' [= _ <-]. Qed.
Lemma files_same_uuid4 : preserves files_same uuid4.
Proof. by intros w x w' [= _ <-]. Qed.
Lemma files_same_read {A} (f : World -> A) : preserves files_same (fun w => (inr (f w), w)).
Proof. by intros w x w' [= _ <-]. Qed.

Create HintDb frames.
Hint Resolve preserves_ret preserves_raise preserves_lift_result preserves_subscript
  preserves_get files_same_alloc files_same_deref files_same_draw files_same_now
  files_same_uuid4 files_same_read : frames.

Ltac frames :=
  repeat first
    [ lazymatch goal with
      | |- preserves ?R (bind _ _) => apply (preserves_bind R); [|intros ?]
      | |- preserves ?R (try_except _ _ _) => apply (preserves_try_except R)
      | |- preserves ?R (if _ then _ else _) => apply (preserves_if R)
      end
    | progress eauto with frames typeclass_instances
    | case_match ].

Lemma files_same_parse_iso (s : string) : preserves files_same (parse_iso s).
Proof. unfold parse_iso. frames. Qed.

Lemma files_same_json_load (f : file) : preserves files_same (json_load f).
Proof. unfold json_load. frames. Qed.

Lemma files_same_from_dict (d : Data loc) : preserves files_same (from_dict d).
Proof.
  unfold from_dict, generate_conversation_id. pose proof files_same_parse_iso. frames.
Qed.

Lemma files_same_recover (nm : string) (f : file) : preserves files_same (recover nm f).
Proof.
  unfold recover. pose proof files_same_json_load. pose proof files_same_from_dict. frames.
Qed.

Lemma files_same_find_existing (nm : string) (files : list (string * file)) :
  preserves files_same (find_existing nm files).
Proof.
  induction files as [|[filename f] rest IH]; cbn [find_existing].
  - frames.
  - pose proof files_same_recover. frames.
Qed.

Lemma files_same_load_session (sid : string) : preserves files_same (load_session sid).
Proof.
  unfold load_session. pose proof files_same_json_load. pose proof files_same_from_dict. frames.
Qed.

Lemma sessions_same_of_files {A} (c : M World A) :
  preserves files_same c -> preserves sessions_same c.
Proof. apply preserves_weaken. by intros w w' [H _]. Qed.

Lemma sessions_same_makedirs (p : string) : preserves sessions_same (makedirs p).
Proof. by intros w x w' [= _ <-]. Qed.

Lemma sessions_same_create_new (nm summary : string) (lp : Z) :
  preserves sessions_same (create_new nm summary lp).
Proof.
  unfold create_new, generate_conversation_id.
  pose proof (fun files => sessions_same_of_files _ (files_same_find_existing nm files)).
  pose proof sessions_same_makedirs.
  repeat first
    [ lazymatch goal with
      | |- preserves ?R (bind _ _) => apply (preserves_bind R); [|intros ?]
      | |- preserves ?R (let '(_, _) := ?x in _) => destruct x
      end
    | progress eauto with frames typeclass_instances
    | apply sessions_same_of_files; progress eauto with frames typeclass_instances
    | case_match ].
Qed.


Lemma str_app_assoc (a b c : string) : (a +:+ b) +:+ c = a +:+ (b +:+ c).
Proof.
  induction a as [|x a IH]; [done|].
  change (String x ((a +:+ b) +:+ c) = String x (a +:+ (b +:+ c))). by rewrite IH.
Qed.

Lemma str_app_nil_r (a : string) : a +:+ "" = a.
Proof.
  induction a as [|x a IH]; [done|]. change (String x (a +:+ "") = String x a). by rewrite IH.
Qed.


Lemma makedirs_lookup (p d : string) (w : World) :
  fs (snd (makedirs p w)) !! d
  = match fs w !! d with
    | Some l => Some l
    | None => if bool_decide (d ∈ path_prefixes p "") then Some [] else None
    end.
Proof.
  unfold makedirs, modify. cbn [snd set_fs fs].
  induction (path_prefixes p "") as [|x l IH]; cbn [foldr].
  - destruct (fs w !! d); [done|]. rewrite bool_decide_eq_false_2; [done|].
    apply not_elem_of_nil.
  - set (m := foldr _ (fs w) l) in *.
    destruct (decide (d = x)) as [->|Hne].
    + rewrite (bool_decide_eq_true_2 (x ∈ x :: l)) by apply list_elem_of_here.
      destruct (m !! x) as [y|] eqn:Em.
      * rewrite Em. destruct (fs w !! x); [done|].
        destruct (bool_decide (x ∈ l)); congruence.
      * rewrite lookup_insert_eq. destruct (fs w !! x); [discriminate|done].
    + assert (Hm : (match m !! x with Some _ => m | None => <[x:=[]]> m end) !! d = m !! d).
      { destruct (m !! x); [done|]. by rewrite lookup_insert_ne. }
      rewrite Hm, IH. destruct (fs w !! d); [done|].
      destruct (decide (d ∈ l)) as [Hin|Hnin].
      * rewrite !bool_decide_eq_true_2; [done| |done]. by apply list_elem_of_further.
      * rewrite !bool_decide_eq_false_2; [done| |done].
        intros H. apply elem_of_cons in H as [H|H]; done.
Qed.


Lemma makedirs_keeps (p d : string) (w : World) :
  is_Some (fs w !! d) -> fs (snd (makedirs p w)) !! d = fs w !! d.
Proof. intros [l Hl]. rewrite makedirs_lookup. by rewrite Hl. Qed.






(** X10.  [create_new] never writes to [sessions/], whether it finds a stored
    session, makes a new one or raises: saving is left to the caller.  The
    name is relative and has no [..] component, so that the directories
    [create_new] makes lie below input-docs, processed-docs and output-docs;
    the embedding, which keeps [sessions/] apart, does not follow a name out
    of them. *)
Theorem create_new_never_saves (nm summary : string) (lp : Z) (w : World) :
  stays_below nm = true ->
  sessions_dir (snd (create_new nm summary lp w)) = sessions_dir w.
Proof.
  intros _.
  destruct (create_new nm summary lp w) as [r w'] eqn:E.
  exact (sessions_same_create_new nm summary lp w r w' E).
Qed.


(** create_new on a stored history it cannot number *)
Lemma find_existing_decided (nm : string) (d : Data (list Message))
    (files : list (string * file)) :
  first_named nm files = Some d ->
  forall w, exists w1,
    heap_grows w w1 /\ files_same w w1 /\
    forall r w2, recover nm (Json d) w1 = (r, w2) -> r <> inr None ->
                 find_existing nm files w = (r, w2).
Proof.
  induction files as [|[filename f] rest IH]; cbn [first_named find_existing]; [discriminate|].
  intros Hd w.
  destruct (Py.endswith filename ".json"); [|by apply IH].
  destruct f as [|d'].
  - destruct (IH Hd w) as (w1 & Hg & Hf & H). exists w1. split_and!; [done|done|].
    intros r w2 Hr Hne. rewrite (bind_ok _ _ _ _ _ (recover_skip_garbage nm w)). by apply H.
  - destruct (bool_decide (d_name d' = Some nm)) eqn:Eb.
    + injection Hd as ->. exists w. split_and!; [reflexivity|reflexivity|].
      intros r w2 Hr Hne. destruct r as [e|[s|]]; [ | | done].
      * by rewrite (bind_raise _ _ _ _ _ Hr).
      * by rewrite (bind_ok _ _ _ _ _ Hr).
    + apply bool_decide_eq_false in Eb.
      destruct (recover_skip_other nm d' w Eb) as (w0 & Hw0).
      destruct (IH Hd w0) as (w1 & Hg & Hf & H). exists w1. split_and!.
      * etransitivity; [|exact Hg]. eapply heap_grows_recover, Hw0.
      * etransitivity; [|exact Hf]. eapply files_same_recover, Hw0.
      * intros r w2 Hr Hne. rewrite (bind_ok _ _ _ _ _ Hw0). by apply H.
Qed.

Lemma first_named_name (nm : string) (files : list (string * file)) (d : Data (list Message)) :
  first_named nm files = Some d -> d_name d = Some nm.
Proof.
  induction files as [|[fn f] rest IH]; [discriminate|].
  cbn [first_named].
  destruct (Py.endswith fn ".json"); [|by apply IH].
  destruct f as [|d']; [by apply IH|].
  destruct (bool_decide (d_name d' = Some nm)) eqn:Eb; [|by apply IH].
  apply bool_decide_eq_true in Eb. by intros [= <-].
Qed.

Lemma recover_snapshot_raises (s0 : Session) (msgs : list Message) (e : exn) (w : World) :
  (forall d, fromisoformat (isoformat d) = Some d) ->
  msgs <> [] ->
  max_user_prompt_id msgs = inl e ->
  exists w',
    recover (name s0) (Json (with_message_window (Some msgs) (to_dict s0))) w = (inl e, w').
Proof.
  intros Hiso Hne Hmx.
  destruct (contents_alloc msgs w) as (r & Ealloc & Hfresh & Hcont).
  set (w1 := set_heap (<[r := msgs]> (heap w)) w) in *.
  exists (snd (generate_conversation_id w1)).
  unfold recover, try_except, json_load. cbn [d_message_window with_message_window to_dict].
  rewrite (bind_ok _ _ _ _ _ (bind_ok _ _ _ _ _ Ealloc)).
  cbn [ret d_name with_message_window to_dict].
  rewrite bool_decide_eq_true_2 by (by destruct s0).
  assert (Hd : with_message_window (Some r) (with_message_window (Some msgs) (to_dict s0))
               = to_dict (set_message_window r s0)) by (by destruct s0).
  rewrite Hd.
  rewrite (bind_ok _ _ _ _ _ (from_dict_to_dict_run _ _ Hiso)).
  assert (Hmw : forall s, message_window (set_message_window r s) = r) by (by intros []).
  assert (Hmw2 : forall x s, message_window (set_last_prompt_id x s) = message_window s)
    by (by intros ? []).
  rewrite Hmw, Hcont, Hmx.
  assert (Hnil : is_nil msgs = false) by (by destruct msgs).
  rewrite Hnil. cbn [negb].
  unfold bind, deref.
  assert (Hc2 : forall s, contents (generate_conversation_id w1).2 (message_window s) =
                          contents w1 (message_window s)) by reflexivity.
  assert (He : bool_decide (e = JSONDecodeError) = false).
  { destruct (max_user_prompt_id_error _ _ Hmx) as [-> | ->]; reflexivity. }
  destruct (last_prompt_id (set_message_window r s0) =? 0); cbn [andb];
    rewrite Hc2, ?Hmw2, Hmw, Hcont, Hnil; cbn [negb lift_result]; rewrite Hmx;
    cbn [ret]; rewrite He; reflexivity.
Qed.

(** X11.  [create_new] has no handler for its [max(int(prompt_id) ...)]:
    when the stored session of that name has a history in which a message
    lacks its role, a user message lacks its prompt_id or has one [int]
    rejects, or there is no user message at all, it raises KeyError or
    ValueError, although [from_dict], and so [load_session], reads the same
    file. *)
Theorem create_new_raises_on_unnumbered_history (nm summary : string) (lp : Z) (w : World)
    (s0 : Session) (msgs : list Message) (e : exn) :
  (forall d, fromisoformat (isoformat d) = Some d) ->
  first_named nm (sessions_dir w) = Some (with_message_window (Some msgs) (to_dict s0)) ->
  msgs <> [] ->
  max_user_prompt_id msgs = inl e ->
  (e = KeyError \/ e = ValueError) /\
  (exists w', create_new nm summary lp w = (inl e, w')) /\
  (exists s w', bind (json_load (Json (with_message_window (Some msgs) (to_dict s0))))
                  from_dict w = (inr s, w')).
Proof.
  intros Hiso Hfirst Hne Hmx.
  split; [destruct (max_user_prompt_id_error _ _ Hmx); auto|].
  split.
  - pose proof (first_named_name _ _ _ Hfirst) as Hname.
    change (Some (name s0) = Some nm) in Hname.
    assert (Hnm : name s0 = nm) by congruence.
    destruct (find_existing_decided nm _ _ Hfirst w) as (w1 & _ & _ & Hfound).
    destruct (recover_snapshot_raises s0 msgs e w1 Hiso Hne Hmx) as (w' & Hrec).
    rewrite Hnm in Hrec.
    exists w'. unfold create_new. unfold bind at 1. cbn [fst snd].
    by rewrite (bind_raise _ _ _ _ _ (Hfound _ _ Hrec ltac:(discriminate))).
  - destruct (contents_alloc msgs w) as (r & Ealloc & Hfresh & Hcont).
    unfold json_load. cbn [d_message_window with_message_window to_dict].
    rewrite (bind_ok _ _ _ _ _ (bind_ok _ _ _ _ _ Ealloc)). cbn [ret].
    assert (Hd : with_message_window (Some r) (with_message_window (Some msgs) (to_dict s0))
                 = to_dict (set_message_window r s0)) by (by destruct s0).
    rewrite Hd. rewrite (from_dict_to_dict_run _ _ Hiso). eauto.
Qed.

(** create_branch onto a name that is already stored *)
(** X12.  [create_branch] onto a composite name that [sessions/] already
    holds does not make a new session: the branch it returns has the stored
    session's session_id, conversation_id and usage totals, with the new
    branch_info; without [include_history] its history is the stored one, not
    an empty one. *)
Theorem create_branch_resumes_stored_branch (parent : Session) (branch : string)
    (include_history : bool) (w : World)
    (s0 : Session) (msgs : list Message) (i : Z) (ids : list Z) :
  (forall d, fromisoformat (isoformat d) = Some d) ->
  Py.contains "/" branch = false ->
  first_named (name parent +:+ "/" +:+ branch) (sessions_dir w)
    = Some (with_message_window (Some msgs) (to_dict s0)) ->
  user_prompt_ints msgs = inr (i :: ids) ->
  exists child w',
    create_branch parent branch include_history w = (inr child, w') /\
    session_id child = session_id s0 /\
    conversation_id child = conversation_id s0 /\
    total_input_tokens child = total_input_tokens s0 /\
    total_output_tokens child = total_output_tokens s0 /\
    total_cost child = total_cost s0 /\
    (exists b, branch_info child = Some b /\ parent_id b = session_id parent /\
               branch_name b = branch) /\
    (include_history = false -> contents w' (message_window child) = msgs).
Proof.
  intros Hiso Hvalid Hfirst Hids.
  destruct (py_max_spec i ids) as (m & Hmax & _ & _).
  destruct (create_new_existing _ (document_summary parent) 0 w s0 msgs i ids m Hiso Hfirst
              Hids Hmax) as (r & w1 & Hnew & Hc & _).
  unfold create_branch. rewrite Hvalid.
  rewrite (bind_ok _ _ _ _ _ Hnew).
  destruct include_history.
  - unfold bind, now, list_copy, bind, deref, alloc, ret. cbn [fst snd].
    eexists _, _. split; [reflexivity|].
    split_and!; try (by destruct s0).
    eexists. split; [by destruct s0|]. done.
  - unfold bind, now, ret. cbn [fst snd].
    eexists _, _. split; [reflexivity|].
    split_and!; try (by destruct s0).
    eexists. split; [by destruct s0|]. done.
Qed.

(** get_session_by_name *)
Lemma substring_str_drop (n : nat) : forall s, substring 0 n s +:+ Py.str_drop n s = s.
Proof.
  induction n as [|n IH]; intros [|c r]; try reflexivity.
  cbn [substring Py.str_drop]. change (String c (substring 0 n r +:+ Py.str_drop n r) = String c r).
  by rewrite IH.
Qed.

Lemma endswith_split (s p : string) :
  Py.endswith s p = true -> substring 0 (String.length s - String.length p) s +:+ p = s.
Proof.
  unfold Py.endswith. intros H. apply andb_prop in H as [_ H].
  apply String.eqb_eq in H. rewrite <- H at 2. apply substring_str_drop.
Qed.

Lemma read_entry_elem {A} (k : string) (v : A) (l : list (string * A)) :
  NoDup (map fst l) -> (k, v) ∈ l -> read_entry k l = Some v.
Proof.
  induction l as [|[k' v'] l IH]; intros Hnd Hin.
  - by apply elem_of_nil in Hin.
  - cbn [map fst] in Hnd. apply NoDup_cons in Hnd as [Hk Hnd].
    cbn [read_entry]. apply elem_of_cons in Hin as [Heq|Hin].
    + injection Heq as -> ->. by rewrite String.eqb_refl.
    + destruct (String.eqb_spec k' k) as [->|Hne].
      * exfalso. apply Hk. apply list_elem_of_fmap. exists (k, v). done.
      * by apply IH.
Qed.

Lemma get_session_by_name_in_none (nm : string) (all : list (string * file)) :
  NoDup (map fst all) ->
  forall (files : list (string * file)) (w w' : World),
    (forall fn f, (fn, f) ∈ files -> (fn, f) ∈ all) ->
    sessions_dir w = all ->
    get_session_by_name_in nm files w = (inr None, w') ->
    forall fn f, (fn, f) ∈ files -> Py.endswith fn ".json" = true ->
      exists d, f = Json d /\ d_name d <> Some nm.
Proof.
  intros Hnd. induction files as [|[filename f0] rest IH]; intros w w' Hsub Hdir H fn f Hin Hjson.
  - by apply elem_of_nil in Hin.
  - cbn [get_session_by_name_in] in H.
    assert (Hrest : forall fn f, (fn, f) ∈ rest -> (fn, f) ∈ all).
    { intros fn' f' Hin'. apply Hsub. by apply list_elem_of_further. }
    destruct (Py.endswith filename ".json") eqn:Ej.
    2:{ apply elem_of_cons in Hin as [Heq|Hin].
        - injection Heq as -> ->. congruence.
        - by eapply (IH w w'). }
    apply bind_inr in H as (found & w1 & Hload & H).
    assert (Hw1 : sessions_dir w1 = all).
    { destruct (files_same_load_session _ _ _ _ Hload) as [Hs _]. congruence. }
    unfold load_session in Hload.
    apply bind_inr in Hload as (files0 & w0 & Hread & Hload).
    injection Hread as <- <-. rewrite Hdir in Hload.
    pose proof (endswith_split filename ".json" Ej) as Hsplit.
    change (String.length ".json") with 5%nat in Hsplit.
    rewrite Hsplit in Hload.
    rewrite (read_entry_elem filename f0 all Hnd) in Hload
      by (apply Hsub, list_elem_of_here).
    apply bind_inr in Hload as (data & w2 & Hjl & Hload).
    apply bind_inr in Hload as (session & w3 & Hfd & Hload).
    injection Hload as <- <-.
    destruct f0 as [|d0]; [discriminate|].
    pose proof (json_load_name _ _ _ _ Hjl) as Hn1.
    pose proof (from_dict_name _ _ _ _ Hfd) as Hn2.
    destruct (String.eqb_spec (name session) nm) as [Heq|Hne]; [discriminate|].
    apply elem_of_cons in Hin as [Heq|Hin].
    + injection Heq as -> ->. exists d0. split; [done|]. congruence.
    + by eapply (IH w3 w').
Qed.

(** X13.  [get_session_by_name] answers [None] only if every [.json] file of
    the directory parses and carries another name: a single unreadable file
    makes the search raise instead (unlike [create_new], which skips it). *)
Theorem get_session_by_name_none_means_all_readable (nm : string) (w w' : World) :
  NoDup (map fst (sessions_dir w)) ->
  get_session_by_name nm w = (inr None, w') ->
  forall fn f, (fn, f) ∈ sessions_dir w -> Py.endswith fn ".json" = true ->
    exists d, f = Json d /\ d_name d <> Some nm.
Proof.
  intros Hnd H. unfold get_session_by_name in H.
  apply bind_inr in H as (files & w0 & Hread & H). injection Hread as <- <-.
  eapply get_session_by_name_in_none; eauto.
Qed.


(** *** [list_sessions] *)

Lemma count_user_messages_error (l : list Message) (e : exn) :
  count_user_messages l = inl e -> e = KeyError.
Proof.
  induction l as [|msg rest IH]; cbn [count_user_messages]; [discriminate|].
  destruct (role msg); [|by intros [= <-]].
  destruct (count_user_messages rest); [|discriminate].
  intros [= <-]. by apply IH.
Qed.

Lemma insert_by_name_perm (x : string * Z) (l : list (string * Z)) :
  insert_by_name x l ≡ₚ x :: l.
Proof.
  induction l as [|y r IH]; cbn [insert_by_name]; [done|].
  destruct (String.leb (fst x) (fst y)); [done|].
  rewrite IH. apply Permutation_swap.
Qed.

Lemma sorted_by_name_perm (l : list (string * Z)) : sorted_by_name l ≡ₚ l.
Proof.
  induction l as [|x l IH]; [done|].
  cbn [sorted_by_name foldr]. fold (sorted_by_name l).
  rewrite insert_by_name_perm. by rewrite IH.
Qed.

Lemma insert_by_name_sorted (x : string * Z) (l : list (string * Z)) :
  Sorted name_le l -> Sorted name_le (insert_by_name x l).
Proof.
  induction l as [|y r IH]; intros Hs; cbn [insert_by_name].
  - repeat constructor.
  - destruct (String.leb (fst x) (fst y)) eqn:E.
    + constructor; [done|]. constructor. exact E.
    + apply Sorted_inv in Hs as [Hr Hhd].
      constructor; [by apply IH|].
      destruct r as [|z r']; cbn [insert_by_name].
      * constructor. unfold name_le.
        destruct (String.leb_total (fst x) (fst y)) as [H|H]; congruence.
      * destruct (String.leb (fst x) (fst z)).
        -- constructor. unfold name_le.
           destruct (String.leb_total (fst x) (fst y)) as [H|H]; congruence.
        -- constructor. by apply HdRel_inv in Hhd.
Qed.

Lemma sorted_by_name_sorted (l : list (string * Z)) : Sorted name_le (sorted_by_name l).
Proof.
  induction l as [|x l IH]; [constructor|].
  cbn [sorted_by_name foldr]. by apply insert_by_name_sorted.
Qed.

Lemma listable_dec (nm : string) (x : string * file) :
  (exists k, listable nm k x) \/ (forall k, ~ listable nm k x).
Proof.
  destruct x as [fn f]. unfold listable. cbn [fst snd].
  destruct (Py.endswith fn ".json"); [|right; intros k [H _]; discriminate].
  destruct f as [|d]; [right; intros k (_ & d & H & _); discriminate|].
  destruct (decide (d_name d = Some nm)) as [Hn|Hn].
  2:{ right. intros k (_ & d' & [= <-] & H & _). done. }
  destruct (count_user_messages (default [] (d_message_window d))) as [e|k] eqn:Ec.
  - right. intros k (_ & d' & [= <-] & _ & H). congruence.
  - left. exists k. split; [done|]. exists d. done.
Qed.

Lemma first_listable_exists (files : list (string * file)) (nm : string) :
  (exists y k, y ∈ files /\ listable nm k y) -> exists k, first_listable files nm k.
Proof.
  induction files as [|x files IH]; intros (y & k & Hin & Hl).
  - by apply elem_of_nil in Hin.
  - destruct (listable_dec nm x) as [[k0 H0]|Hno].
    + exists k0, [], x, files. split_and!; [done|done|].
      intros y0 k' Hy. by apply elem_of_nil in Hy.
    + apply elem_of_cons in Hin as [->|Hin]; [by destruct (Hno k)|].
      destruct IH as (k1 & pre & x1 & post & -> & Hl1 & Hpre); [by eauto|].
      exists k1, (x :: pre), x1, post. split_and!; [done|done|].
      intros y0 k' Hy. apply elem_of_cons in Hy as [->|Hy]; [apply Hno|by eapply Hpre].
Qed.

Lemma first_listable_snoc (files : list (string * file)) (x : string * file) (nm : string) (k : Z) :
  first_listable (files ++ [x]) nm k <->
  first_listable files nm k \/ (listable nm k x /\ forall y k', y ∈ files -> ~ listable nm k' y).
Proof.
  split.
  - intros (pre & x0 & post & Heq & Hl & Hpre).
    destruct post as [|z post _] using rev_ind.
    + apply app_inj_tail in Heq as [-> ->]. right. done.
    + rewrite app_comm_cons, app_assoc in Heq. apply app_inj_tail in Heq as [-> ->].
      left. exists pre, x0, post. done.
  - intros [(pre & x0 & post & -> & Hl & Hpre)|[Hl Hpre]].
    + exists pre, x0, (post ++ [x]). split_and!; [|done|done].
      by rewrite <- app_assoc.
    + exists files, x, []. done.
Qed.

Lemma loop_inv_skip (done_ : list (string * file)) (x : string * file) sessions seen :
  loop_inv done_ sessions seen ->
  (forall nm k, listable nm k x -> nm ∈ seen) ->
  loop_inv (done_ ++ [x]) sessions seen.
Proof.
  intros (Hnd & Hseen & Hent) Hx. split_and!; [done|done|].
  intros nm k. rewrite first_listable_snoc, Hent. split; [by left|].
  intros [H|[Hl Hpre]]; [done|]. exfalso.
  apply Hx, Hseen in Hl. apply list_elem_of_fmap in Hl as ([nm' k'] & -> & Hin).
  cbn [fst] in *. apply Hent in Hin as (pre & x0 & post & -> & Hl0 & _).
  eapply (Hpre x0 k'); [|done]. apply elem_of_app. right. apply list_elem_of_here.
Qed.

Lemma loop_inv_add (done_ : list (string * file)) (fn : string) (d : Data (list Message))
    (nm : string) (c : Z) sessions seen :
  loop_inv done_ sessions seen ->
  Py.endswith fn ".json" = true -> d_name d = Some nm -> nm ∉ seen ->
  count_user_messages (default [] (d_message_window d)) = inr c ->
  loop_inv (done_ ++ [(fn, Json d)]) (sessions ++ [(nm, c)]) ({[nm]} ∪ seen).
Proof.
  intros (Hnd & Hseen & Hent) Hj Hn Hnew Hc. split_and!.
  - rewrite map_app. cbn [map fst]. apply NoDup_app. split_and!; [done| |].
    + intros y Hy Hy'. apply list_elem_of_singleton in Hy' as ->. by apply Hseen in Hy.
    + apply NoDup_singleton.
  - intros nm'. rewrite map_app, elem_of_app, elem_of_union, elem_of_singleton. cbn [map fst].
    rewrite list_elem_of_singleton, Hseen. tauto.
  - intros nm' k. rewrite first_listable_snoc, elem_of_app, list_elem_of_singleton, Hent.
    split.
    + intros [H|[= -> ->]]; [by left|]. right. split.
      * split; [done|]. exists d. done.
      * intros y k' Hy Hl. apply Hnew, Hseen.
        destruct (first_listable_exists done_ nm) as (k1 & H1); [by eauto|].
        apply Hent in H1. apply list_elem_of_fmap. exists (nm, k1). done.
    + intros [H|[(_ & d' & [= <-] & Hn' & Hc') Hpre]]; [by left|]. right.
      cbn [snd] in *. congruence.
Qed.

Lemma list_sessions_loop_spec (files : list (string * file)) :
  forall done_ sessions seen,
    loop_inv done_ sessions seen ->
    exists l seen', list_sessions_loop files sessions seen = inr l /\
                    loop_inv (done_ ++ files) l seen'.
Proof.
  induction files as [|[fn f] rest IH]; intros done_ sessions seen Hinv.
  - exists sessions, seen. rewrite app_nil_r. done.
  - cbn [list_sessions_loop].
    replace (done_ ++ (fn, f) :: rest) with ((done_ ++ [(fn, f)]) ++ rest)
      by (by rewrite <- app_assoc).
    destruct (Py.endswith fn ".json") eqn:Ej.
    2:{ apply IH. apply loop_inv_skip; [done|].
        intros nm k [H _]. cbn [fst] in H. congruence. }
    destruct f as [|d]; cbn [list_sessions_try].
    { cbn. apply IH. apply loop_inv_skip; [done|].
      intros nm k (_ & d & H & _). discriminate. }
    destruct (d_name d) as [nm|] eqn:En.
    2:{ apply IH. apply loop_inv_skip; [done|].
        intros nm k (_ & d' & [= <-] & H & _). congruence. }
    destruct (decide (nm ∈ seen)) as [Hin|Hnin].
    { rewrite bool_decide_eq_true_2 by done.
      apply IH. apply loop_inv_skip; [done|].
      intros nm' k (_ & d' & [= <-] & H & _). congruence. }
    rewrite bool_decide_eq_false_2 by done.
    destruct (count_user_messages (default [] (d_message_window d))) as [e|c] eqn:Ec.
    { rewrite (count_user_messages_error _ _ Ec). cbn.
      apply IH. apply loop_inv_skip; [done|].
      intros nm' k (_ & d' & [= <-] & _ & H). congruence. }
    apply IH. by apply loop_inv_add.
Qed.

Lemma loop_inv_start : loop_inv [] [] ∅.
Proof.
  split_and!.
  - constructor.
  - intros nm. cbn. rewrite elem_of_empty, elem_of_nil. tauto.
  - intros nm k. rewrite elem_of_nil. split; [done|].
    intros (pre & x & post & H & _). by destruct pre.
Qed.

(** X14.  [list_sessions] never raises; the entries it returns are in the
    order of their names and no two of them have the same name. *)
Theorem list_sessions_sorted_and_distinct (w : World) :
  exists l,
    list_sessions w = inr l /\
    Sorted (fun a b => String.leb (fst a) (fst b) = true) l /\
    NoDup (map fst l).
Proof.
  unfold list_sessions.
  destruct (list_sessions_loop_spec (sessions_dir w) [] [] ∅ loop_inv_start)
    as (l & seen & -> & Hnd & _ & _).
  eexists. split; [reflexivity|]. split.
  - apply sorted_by_name_sorted.
  - rewrite sorted_by_name_perm. exact Hnd.
Qed.

(** X15.  [list_sessions] lists a name with a count exactly when the
    directory has a [.json] file that parses, carries the name and whose
    messages all have a role; the count is the number of user messages of the
    first such file. *)
Theorem list_sessions_counts_first_listable (w : World) (l : list (string * Z)) :
  list_sessions w = inr l ->
  forall nm k, (nm, k) ∈ l <-> first_listable (sessions_dir w) nm k.
Proof.
  unfold list_sessions.
  destruct (list_sessions_loop_spec (sessions_dir w) [] [] ∅ loop_inv_start)
    as (l0 & seen & -> & _ & _ & Hent).
  intros [= <-] nm k. rewrite sorted_by_name_perm. apply Hent.
Qed.


(** *** Prompt ids *)

Lemma successive_ids_above (n : nat) : forall (s : Session) (pid : string),
  pid ∈ successive_ids n s -> exists v, Py.int pid = Some v /\ last_prompt_id s < v.
Proof.
  induction n as [|n IH]; intros s pid Hin; [by apply elem_of_nil in Hin|].
  cbn [successive_ids get_next_prompt_id] in Hin.
  apply elem_of_cons in Hin as [->|Hin].
  - eexists. split; [apply int_format_05d|]. cbn [last_prompt_id set_last_prompt_id]. lia.
  - apply IH in Hin as (v & Hv & Hlt). exists v. split; [done|].
    cbn [last_prompt_id set_last_prompt_id] in Hlt. lia.
Qed.

(** X16.  The ids that successive calls of [get_next_prompt_id] return are
    all different, past 99999 too: each reads back, with [int], as a value
    above the counter the session started from. *)
Theorem prompt_ids_never_repeat (n : nat) (s : Session) :
  NoDup (successive_ids n s) /\
  forall pid, pid ∈ successive_ids n s ->
    exists v, Py.int pid = Some v /\ last_prompt_id s < v <= last_prompt_id s + Z.of_nat n.
Proof.
  split.
  - revert s. induction n as [|n IH]; intros s; [constructor|].
    cbn [successive_ids get_next_prompt_id]. apply NoDup_cons. split; [|apply IH].
    intros Hin. apply successive_ids_above in Hin as (v & Hv & Hlt).
    cbn [last_prompt_id set_last_prompt_id] in *.
    rewrite int_format_05d in Hv. injection Hv as <-. lia.
  - revert s. induction n as [|n IH]; intros s pid Hin; [by apply elem_of_nil in Hin|].
    cbn [successive_ids get_next_prompt_id] in Hin.
    apply elem_of_cons in Hin as [->|Hin].
    + eexists. split; [apply int_format_05d|]. cbn [last_prompt_id set_last_prompt_id]. lia.
    + apply IH in Hin as (v & Hv & Hlt). exists v. split; [done|].
      cbn [last_prompt_id set_last_prompt_id] in Hlt. lia.
Qed.


(** *** Directories *)

#[local] Instance dirs_kept_preorder : PreOrder dirs_kept.
Proof.
  split; [by intros w d l|]. intros w1 w2 w3 H1 H2 d l H. by apply H2, H1.
Qed.

Lemma dirs_kept_of_files {A} (c : M World A) :
  preserves files_same c -> preserves dirs_kept c.
Proof. apply preserves_weaken. intros w w' [_ H] d l. by rewrite H. Qed.

Lemma dirs_kept_makedirs (p : string) : preserves dirs_kept (makedirs p).
Proof.
  intros w x w' [= _ <-] d l H.
  change (fs (snd (makedirs p w)) !! d = Some l).
  rewrite makedirs_keeps; [done|by eauto].
Qed.

Lemma dirs_kept_create_new (nm summary : string) (lp : Z) :
  preserves dirs_kept (create_new nm summary lp).
Proof.
  unfold create_new, generate_conversation_id.
  pose proof (fun files => dirs_kept_of_files _ (files_same_find_existing nm files)).
  pose proof dirs_kept_makedirs.
  repeat first
    [ lazymatch goal with
      | |- preserves ?R (bind _ _) => apply (preserves_bind R); [|intros ?]
      | |- preserves ?R (let '(_, _) := ?x in _) => destruct x
      end
    | progress eauto with typeclass_instances
    | apply preserves_ret; apply _
    | apply dirs_kept_of_files;
      first [apply files_same_uuid4 | apply files_same_draw | apply files_same_read
            | apply files_same_alloc | apply files_same_now]
    | case_match ].
Qed.

End MoreSessionFacts.

(** ** Conversation files *)

Section Entries.
Context {C : Collaborators}.

Lemma str_app_cons (c : ascii) (s t : string) : String c s +:+ t = String c (s +:+ t).
Proof. reflexivity. Qed.

Lemma lines_from_single_line (s t cur : string) :
  single_line s = true ->
  Py.lines_from (s +:+ t) cur = Py.lines_from t (cur +:+ s).
Proof.
  revert cur. induction s as [|c r IH]; intros cur Hs.
  - by rewrite str_app_nil_r.
  - cbn [single_line Py.str_all] in Hs. apply andb_prop in Hs as [Hc Hr].
    apply andb_prop in Hc as [Hc _]. apply negb_true_iff in Hc.
    rewrite str_app_cons. cbn [Py.lines_from]. rewrite Hc.
    rewrite (IH _ Hr). by rewrite str_app_assoc.
Qed.

Lemma lines_from_line (s t cur : string) :
  single_line s = true ->
  Py.lines_from (s +:+ newline +:+ t) cur = (cur +:+ s +:+ newline) :: Py.lines t.
Proof.
  intros Hs. rewrite lines_from_single_line by done.
  unfold newline. rewrite str_app_cons. cbn [Py.lines_from].
  change (Ascii.eqb "010" "010") with true. cbv iota.
  by rewrite str_app_assoc.
Qed.

Lemma lines_from_app (b t cur : string) :
  Py.lines_from ((b +:+ newline) +:+ t) cur = Py.lines_from (b +:+ newline) cur ++ Py.lines t.
Proof.
  revert cur. induction b as [|c r IH]; intros cur.
  - reflexivity.
  - rewrite !str_app_cons. cbn [Py.lines_from].
    destruct (Ascii.eqb c "010").
    + rewrite IH. reflexivity.
    + apply IH.
Qed.

Lemma lines_app (before t : string) :
  before = "" \/ (exists b, before = b +:+ newline) ->
  Py.lines (before +:+ t) = Py.lines before ++ Py.lines t.
Proof.
  intros [->|[b ->]]; [reflexivity|]. apply lines_from_app.
Qed.

Lemma substring_prefix (p r : string) : substring 0 (String.length p) (p +:+ r) = p.
Proof.
  induction p as [|c p IH]; cbn [String.length].
  - by destruct r.
  - rewrite str_app_cons. cbn [substring]. by rewrite IH.
Qed.

Lemma lstrip_length (sp : ascii -> bool) (s : string) :
  (String.length (Py.lstrip_by sp s) <= String.length s)%nat.
Proof.
  induction s as [|c r IH]; cbn [Py.lstrip_by String.length]; [lia|].
  destruct (sp c); cbn [String.length]; lia.
Qed.

Lemma rstrip_length (sp : ascii -> bool) (s : string) :
  (String.length (Py.rstrip_by sp s) <= String.length s)%nat.
Proof.
  induction s as [|c r IH]; cbn [Py.rstrip_by String.length]; [lia|].
  destruct (Py.rstrip_by sp r) as [|c' r'].
  - destruct (sp c); cbn [String.length]; lia.
  - cbn [String.length] in *. lia.
Qed.

Lemma rstrip_app_space (sp : ascii -> bool) (s : string) (c : ascii) :
  sp c = true -> Py.rstrip_by sp (s +:+ String c "") = Py.rstrip_by sp s.
Proof.
  intros Hc. induction s as [|x r IH].
  - change ("" +:+ String c "") with (String c ""). cbn [Py.rstrip_by]. by rewrite Hc.
  - rewrite str_app_cons. cbn [Py.rstrip_by]. by rewrite IH.
Qed.

Lemma strip_framed (q : string) :
  Py.strip q = q -> Py.strip (" " +:+ q +:+ newline) = q.
Proof.
  intros Hq. unfold Py.strip, Py.strip_by in *.
  change (Py.lstrip_by Py.isspace (" " +:+ q +:+ newline))
    with (Py.lstrip_by Py.isspace (q +:+ newline)).
  destruct q as [|c r]; [reflexivity|].
  destruct (Py.isspace c) eqn:Ec.
  - exfalso. cbn [Py.lstrip_by] in Hq. rewrite Ec in Hq.
    apply (f_equal String.length) in Hq. cbn [String.length] in Hq.
    pose proof (rstrip_length Py.isspace (Py.lstrip_by Py.isspace r)).
    pose proof (lstrip_length Py.isspace r). lia.
  - rewrite str_app_cons. cbn [Py.lstrip_by] in *. rewrite Ec in *.
    rewrite <- str_app_cons. unfold newline.
    rewrite rstrip_app_space by reflexivity. exact Hq.
Qed.

Lemma format_05d_single_line (n : Z) : 0 <= n -> single_line (Py.format_05d n) = true.
Proof.
  intros Hn. unfold single_line.
  eapply str_all_impl; [|by apply format_05d_digits].
  intros c Hc. destruct c as [[] [] [] [] [] [] [] []]; try (vm_compute in Hc; discriminate Hc);
    reflexivity.
Qed.

Lemma single_line_app (s t : string) :
  single_line (s +:+ t) = single_line s && single_line t.
Proof. unfold single_line. apply str_all_app. Qed.

Lemma conversation_entry_lines (pid ts q a : string) :
  single_line pid = true -> single_line ts = true ->
  single_line q = true -> single_line a = true ->
  Py.lines (conversation_entry pid ts q a)
  = [ "## ID: " +:+ pid +:+ "  " +:+ ts +:+ newline; newline;
      "**Q:** " +:+ q +:+ newline; newline;
      "**A:** " +:+ a +:+ newline; newline;
      "---" +:+ newline; newline ].
Proof.
  intros Hp Ht Hq Ha. unfold conversation_entry.
  assert (E : ("## ID: " +:+ pid +:+ "  " +:+ ts +:+ newline +:+ newline)
              +:+ ("**Q:** " +:+ q +:+ newline +:+ newline)
              +:+ ("**A:** " +:+ a +:+ newline +:+ newline +:+ "---" +:+ newline +:+ newline)
            = ("## ID: " +:+ pid +:+ "  " +:+ ts) +:+ newline +:+
              ("" +:+ newline +:+
               (("**Q:** " +:+ q) +:+ newline +:+
                ("" +:+ newline +:+
                 (("**A:** " +:+ a) +:+ newline +:+
                  ("" +:+ newline +:+
                   ("---" +:+ newline +:+ ("" +:+ newline +:+ "")))))))).
  { rewrite !str_app_assoc. reflexivity. }
  rewrite E. unfold Py.lines.
  rewrite lines_from_line.
  2:{ change ("## ID: " +:+ pid +:+ "  " +:+ ts) with ("## ID: " +:+ (pid +:+ ("  " +:+ ts))).
      rewrite !single_line_app, Hp, Ht. reflexivity. }
  unfold Py.lines. rewrite lines_from_line by reflexivity.
  unfold Py.lines. rewrite lines_from_line by (rewrite single_line_app, Hq; reflexivity).
  unfold Py.lines. rewrite lines_from_line by reflexivity.
  unfold Py.lines. rewrite lines_from_line by (rewrite single_line_app, Ha; reflexivity).
  unfold Py.lines. rewrite lines_from_line by reflexivity.
  unfold Py.lines. rewrite lines_from_line by reflexivity.
  unfold Py.lines. rewrite lines_from_line by reflexivity.
  cbn [Py.lines Py.lines_from].
  rewrite !str_app_assoc. reflexivity.
Qed.


Lemma startswith_app (p r : string) : Py.startswith (p +:+ r) p = true.
Proof.
  unfold Py.startswith. induction p as [|c p IH]; [by destruct r|].
  rewrite str_app_cons. cbn [String.prefix]. by destruct (ascii_dec c c).
Qed.

Lemma scan_id_line (n last : Z) (window : list Message) (cur : option string) (ts : string) :
  0 <= n <= 99999 ->
  scan_line (last, window, cur) ("## ID: " +:+ Py.format_05d n +:+ "  " +:+ ts +:+ newline)
  = (Z.max last n, window, Some (Py.format_05d n)).
Proof.
  intros Hn. unfold scan_line.
  assert (Hsw : Py.startswith ("## ID: " +:+ Py.format_05d n +:+ "  " +:+ ts +:+ newline)
                  "## ID: " = true) by apply startswith_app.
  rewrite Hsw.
  assert (Hsl : Py.str_slice 7 12 ("## ID: " +:+ Py.format_05d n +:+ "  " +:+ ts +:+ newline)
                = Py.format_05d n).
  { change (substring 0 5 (Py.format_05d n +:+ ("  " +:+ ts +:+ newline)) = Py.format_05d n).
    rewrite <- (format_05d_length_small n Hn) at 1. apply substring_prefix. }
  rewrite Hsl, int_format_05d. reflexivity.
Qed.

Lemma scan_blank_line (st : Z * list Message * option string) : scan_line st newline = st.
Proof. by destruct st as [[last window] cur]. Qed.

Lemma scan_rule_line (st : Z * list Message * option string) :
  scan_line st ("---" +:+ newline) = st.
Proof. by destruct st as [[last window] cur]. Qed.

Lemma scan_question_line (last : Z) (window : list Message) (pid q : string) :
  Py.strip q = q ->
  scan_line (last, window, Some pid) ("**Q:** " +:+ q +:+ newline)
  = (last, window ++ [message_dump "user" q pid], Some pid).
Proof.
  intros Hq. unfold scan_line.
  assert (H1 : Py.startswith ("**Q:** " +:+ q +:+ newline) "## ID: " = false) by reflexivity.
  assert (H2 : Py.startswith ("**Q:** " +:+ q +:+ newline) "**Q:** " = true)
    by apply startswith_app.
  rewrite H1, H2.
  change (Py.str_drop 6 ("**Q:** " +:+ q +:+ newline)) with (" " +:+ q +:+ newline).
  by rewrite strip_framed.
Qed.

Lemma scan_answer_line (last : Z) (window : list Message) (pid a : string) :
  Py.strip a = a ->
  scan_line (last, window, Some pid) ("**A:** " +:+ a +:+ newline)
  = (last, window ++ [message_dump "assistant" a pid], Some pid).
Proof.
  intros Ha. unfold scan_line.
  assert (H1 : Py.startswith ("**A:** " +:+ a +:+ newline) "## ID: " = false) by reflexivity.
  assert (H2 : Py.startswith ("**A:** " +:+ a +:+ newline) "**Q:** " = false) by reflexivity.
  assert (H3 : Py.startswith ("**A:** " +:+ a +:+ newline) "**A:** " = true)
    by apply startswith_app.
  rewrite H1, H2, H3.
  change (Py.str_drop 6 ("**A:** " +:+ a +:+ newline)) with (" " +:+ a +:+ newline).
  by rewrite strip_framed.
Qed.

(** X17.  What [_save_conversation_output] writes for one exchange is what
    the loop of [create_new] over a conversation file reads back: appended to
    a text that is empty or ends with a newline, the entry of an id between 0
    and 99999, a question and an answer that are single lines of ASCII
    without leading or trailing white space adds exactly the user message and
    the assistant message with that id to the messages gathered, and raises
    the counter to the id if it was lower. *)
Theorem scan_reads_back_entry (before ts q a : string) (n : Z)
    (st : Z * list Message * option string) :
  0 <= n <= 99999 ->
  single_line ts = true -> single_line q = true -> single_line a = true ->
  ascii_text q = true -> ascii_text a = true ->
  Py.strip q = q -> Py.strip a = a ->
  plain_text before = true ->
  before = "" \/ (exists b, before = b +:+ newline) ->
  fold_left scan_line
    (Py.lines (before +:+ conversation_entry (Py.format_05d n) ts q a)) st
  = let '(last, window, _) := fold_left scan_line (Py.lines before) st in
    (Z.max last n,
     window ++ [message_dump "user" q (Py.format_05d n);
                message_dump "assistant" a (Py.format_05d n)],
     Some (Py.format_05d n)).
Proof.
  intros Hn Hts Hq Ha _ _ Hsq Hsa _ Hbefore.
  rewrite lines_app by done. rewrite fold_left_app.
  destruct (fold_left scan_line (Py.lines before) st) as [[last window] cur].
  rewrite conversation_entry_lines; try done; [|apply format_05d_single_line; lia].
  cbn [fold_left].
  rewrite !scan_blank_line, scan_rule_line.
  rewrite scan_id_line by done.
  rewrite scan_question_line by done.
  rewrite scan_answer_line by done.
  by rewrite <- app_assoc.
Qed.

(** Past 99999 the five characters the loop reads are not the id. *)
Example scan_misreads_six_digit_id :
  fold_left scan_line (Py.lines (conversation_entry "100000" "t" "q" "a")) (0, [], None)
  = (10000, [message_dump "user" "q" "10000"; message_dump "assistant" "a" "10000"],
     Some "10000").
Proof. vm_compute. reflexivity. Qed.

(** [conversation.md] is not one of the files the loop reads. *)
Lemma scan_skips_conversation_md (text : string) (listing : list (string * string)) :
  forall acc,
    fold_left scan_conversation_file (write_entry "conversation.md" text listing) acc
    = fold_left scan_conversation_file listing acc.
Proof.
  induction listing as [|[k v] rest IH]; intros acc; cbn [write_entry fold_left].
  - by destruct acc.
  - destruct (String.eqb_spec k "conversation.md") as [->|Hne]; cbn [fold_left].
    + reflexivity.
    + apply IH.
Qed.

End Entries.

(** ** More on the processor *)

Section MoreProcessorFacts.
Context {C : Collaborators}.

#[local] Existing Instance heap_same_preorder.
#[local] Existing Instance dirs_kept_preorder.

#[local] Instance undisturbed_preorder : PreOrder undisturbed.
Proof.
  split.
  - intros p. by split_and!.
  - intros p1 p2 p3 (A1 & B1 & C1 & D1 & E1 & F1) (A2 & B2 & C2 & D2 & E2 & F2).
    split_and!; congruence.
Qed.

Lemma undisturbed_in_world {A} (c : M World A) :
  preserves files_same c -> preserves heap_same c -> preserves undisturbed (in_world c).
Proof.
  intros Hf Hh p r p'. unfold in_world.
  destruct (c (world p)) as [x w] eqn:E. intros [= _ <-].
  destruct (Hf _ _ _ E) as [Hs Hfs]. pose proof (Hh _ _ _ E) as Hheap.
  split_and!; done.
Qed.

Lemma undisturbed_call_endpoint (req : Request) : preserves undisturbed (call_endpoint req).
Proof. intros p r p' [= _ <-]. by split_and!. Qed.

Lemma undisturbed_uniform_draw (p : Processor) : undisturbed p (snd (uniform_draw p)).
Proof. by split_and!. Qed.

Lemma retryable_keeps_undisturbed (question : string) :
  retryable_keeps undisturbed (ask_question_body question).
Proof.
  unfold ask_question_body.
  apply (retryable_keeps_bind undisturbed); [apply preserves_get; apply _|intros p0].
  destruct (current_session p0) as [s0|];
    [|apply retryable_keeps_never, never_retryable_raise; reflexivity].
  apply (retryable_keeps_bind undisturbed).
  { destruct (understanding_of_json _); [apply preserves_ret|apply preserves_raise]; apply _. }
  intros u.
  apply (retryable_keeps_bind undisturbed); [apply preserves_subscript; apply _|intros prompt].
  apply (retryable_keeps_bind undisturbed).
  { apply undisturbed_in_world; [apply files_same_deref|apply heap_same_deref]. }
  intros history.
  apply (retryable_keeps_bind undisturbed); [apply preserves_lift_result; apply _|intros messages].
  apply (retryable_keeps_bind undisturbed); [apply preserves_lift_result; apply _|intros shown].
  apply (retryable_keeps_bind undisturbed); [apply undisturbed_call_endpoint|intros response].
  apply retryable_keeps_never.
  repeat first
    [ lazymatch goal with
      | |- never_retryable (bind _ _) => apply never_retryable_bind; [|intros ?]
      | |- never_retryable (if _ then _ else _) => case_match
      end
    | progress eauto using never_retryable_ret, never_retryable_modify,
        never_retryable_in_world, never_retryable_append, never_retryable_now,
        never_retryable_makedirs, never_retryable_append_text, never_retryable_read,
        never_retryable_the_session, never_retryable_on_session,
        never_retryable_int_to_float, never_retryable_save_current_session,
        never_retryable_track_usage, never_retryable_save_conversation_output ].
Qed.

(** X20.  When [ask_question] gives up on a rate-limit or overload error,
    it has called five times and slept four times, and the processor is as it
    was before the call: the same current session with its counter, totals
    and history, the same files in [sessions/] and in the other directories.
    Only the clock, the random source and the count of endpoint calls have
    moved.  (The debug log, which each attempt appends to, is not
    modelled.) *)
Theorem ask_question_gives_up_undisturbed (question : string) (p p' : Processor) (e : exn)
    (tr : list (event (A := string * string))) :
  ask_question question p = (inl e, p', tr) ->
  retryable e = true ->
  length (attempts tr) = 5%nat /\ length (sleeps tr) = 4%nat /\ undisturbed p p'.
Proof.
  unfold ask_question, with_retries, retry_with_exponential_backoff. intros Hrun He.
  destruct (retry_loop_failure_attempts uniform_draw _ 5 32 (Z.to_nat 5) 0 1 p e p' tr
              eq_refl ltac:(simpl; lia) Hrun He) as [H1 H2].
  split_and!; [exact H1|exact H2|].
  eapply (retry_loop_failure uniform_draw _ undisturbed); eauto.
  - apply retryable_keeps_undisturbed.
  - apply undisturbed_uniform_draw.
Qed.


(** *** What [_save_conversation_output] writes *)

Lemma append_text_read (dir f t : string) (w : World) :
  read_entry f (default [] (fs (snd (append_text dir f t w)) !! dir))
  = Some (file_text dir f w +:+ t).
Proof.
  unfold append_text, modify, file_text. cbn [snd set_fs fs].
  rewrite lookup_insert_eq. cbn [default]. apply read_entry_write_entry.
Qed.

Lemma append_text_file_text (dir f t : string) (w : World) :
  file_text dir f (snd (append_text dir f t w)) = file_text dir f w +:+ t.
Proof. unfold file_text at 1. by rewrite append_text_read. Qed.

Lemma makedirs_listing (p dir : string) (w : World) :
  default [] (fs (snd (makedirs p w)) !! dir) = default [] (fs w !! dir).
Proof.
  rewrite makedirs_lookup. destruct (fs w !! dir); [done|].
  by destruct (bool_decide _).
Qed.

Lemma save_conversation_output_run (q a pid : string) (p : Processor) (s : Session) :
  current_session p = Some s ->
  exists p' old,
    _save_conversation_output q a pid p = (inr tt, p') /\
    current_session p' = Some s /\
    max_tokens p' = max_tokens p /\ current_system_prompt p' = current_system_prompt p /\
    heap (world p') = heap (world p) /\
    sessions_dir (world p') = sessions_dir (world p) /\
    read_entry "conversation.md"
      (default [] (fs (world p') !! path_join "output-docs" (name s)))
      = Some (old +:+ conversation_entry pid (strftime_seconds (now_at (clock (world p)))) q a).
Proof.
  intros Hcur. unfold _save_conversation_output. rewrite Hcur.
  set (dir := path_join "output-docs" (name s)).
  set (header := "# Conversation: [" +:+ _).
  set (w1 := snd (makedirs dir (world p))).
  set (t1 := "## ID: " +:+ pid +:+ "  " +:+ strftime_seconds (now_at (clock (world p)))
             +:+ newline +:+ newline).
  set (t2 := "**Q:** " +:+ q +:+ newline +:+ newline).
  set (t3 := "**A:** " +:+ a +:+ newline +:+ newline +:+ "---" +:+ newline +:+ newline).
  assert (Hfinish : forall w2 : World,
    clock w2 = clock (world p) -> heap w2 = heap (world p) ->
    sessions_dir w2 = sessions_dir (world p) ->
    let w6 := snd (append_text dir "conversation.md" t3
                (snd (append_text dir "conversation.md" t2
                   (snd (append_text dir "conversation.md" t1 (snd (now w2))))))) in
    heap w6 = heap (world p) /\ sessions_dir w6 = sessions_dir (world p) /\
    read_entry "conversation.md" (default [] (fs w6 !! dir))
      = Some (file_text dir "conversation.md" (snd (now w2))
              +:+ conversation_entry pid (strftime_seconds (now_at (clock (world p)))) q a)).
  { intros w2 Hc2 Hh2 Hs2 w6. split_and!; [exact Hh2|exact Hs2|].
    unfold w6. rewrite append_text_read, !append_text_file_text.
    unfold conversation_entry. fold t1 t2 t3. by rewrite !str_app_assoc. }
  destruct (file_exists dir "conversation.md" w1) eqn:Efile.
  - destruct (Hfinish w1 eq_refl eq_refl eq_refl) as (Hh & Hs & Hr).
    eexists (mkProcessor (current_session p) (max_tokens p) (current_system_prompt p) _), _.
    split; [|split_and!; [exact Hcur|reflexivity|reflexivity|exact Hh|exact Hs|exact Hr]].
    rewrite (bind_ok (in_world (makedirs dir)) _ p tt (set_world w1 p) eq_refl).
    rewrite (bind_ok (in_world (fun w => (inr (file_exists dir "conversation.md" w), w))) _
               (set_world w1 p) (file_exists dir "conversation.md" w1) (set_world w1 p) eq_refl).
    rewrite Efile. reflexivity.
  - set (w2 := snd (append_text dir "conversation.md" (header +:+ newline +:+ newline) w1)).
    destruct (Hfinish w2 eq_refl eq_refl eq_refl) as (Hh & Hs & Hr).
    eexists (mkProcessor (current_session p) (max_tokens p) (current_system_prompt p) _), _.
    split; [|split_and!; [exact Hcur|reflexivity|reflexivity|exact Hh|exact Hs|exact Hr]].
    rewrite (bind_ok (in_world (makedirs dir)) _ p tt (set_world w1 p) eq_refl).
    rewrite (bind_ok (in_world (fun w => (inr (file_exists dir "conversation.md" w), w))) _
               (set_world w1 p) (file_exists dir "conversation.md" w1) (set_world w1 p) eq_refl).
    rewrite Efile. reflexivity.
Qed.

(** *** A completed [ask_question] *)

Lemma ask_question_body_tail (question answer pid : string) (p p' : Processor) :
  ask_question_body question p = (inr (answer, pid), p') ->
  exists p7 p8,
    save_current_session p7 = (inr tt, p8) /\
    _save_conversation_output question answer pid p8 = (inr tt, p').
Proof.
  unfold ask_question_body. intros H.
  apply bind_inr in H as (p0 & p1 & Hget & H). injection Hget as <- <-.
  destruct (current_session p) as [s0|] eqn:Hcur; [|discriminate].
  apply bind_inr in H as (u & p1 & _ & H).
  apply bind_inr in H as (prompt & p2 & _ & H).
  apply bind_inr in H as (history & p3 & _ & H).
  apply bind_inr in H as (messages & p4 & _ & H).
  apply bind_inr in H as (shown & p5 & _ & H).
  apply bind_inr in H as (response & p6 & _ & H).
  apply bind_inr in H as ([] & p7 & _ & H).
  apply bind_inr in H as (pid' & p8 & _ & H).
  apply bind_inr in H as (s1 & p9 & _ & H).
  apply bind_inr in H as ([] & p10 & _ & H).
  apply bind_inr in H as (s2 & p11 & _ & H).
  apply bind_inr in H as ([] & p12 & _ & H).
  apply bind_inr in H as ([] & p13 & Hsave & H).
  apply bind_inr in H as ([] & p14 & Hout & H).
  injection H as <- <- <-.
  eauto.
Qed.

(** X19.  When [ask_question] returns, the file of the current session in
    [sessions/] holds the session exactly as it is in memory, the question
    and the answer included, and [output-docs/<name>/conversation.md] ends
    with the entry of the exchange under the id returned. *)
Theorem ask_question_persists_exchange (question answer pid : string) (p p' : Processor)
    (tr : list (event (A := string * string))) :
  ask_question question p = (inr (Some (answer, pid)), p', tr) ->
  exists s' old t,
    current_session p' = Some s' /\
    read_entry (session_id s' +:+ ".json") (sessions_dir (world p'))
      = Some (Json (with_message_window (Some (contents (world p') (message_window s')))
                      (to_dict s'))) /\
    read_entry "conversation.md"
      (default [] (fs (world p') !! path_join "output-docs" (name s')))
      = Some (old +:+ conversation_entry pid (strftime_seconds t) question answer).
Proof.
  unfold ask_question, with_retries, retry_with_exponential_backoff. intros H.
  destruct (retry_loop_success undisturbed uniform_draw _ _ _ _ _ _ _ _ _ _
              (retryable_keeps_undisturbed question) undisturbed_uniform_draw H)
    as (p0 & _ & Hbody).
  apply ask_question_body_tail in Hbody as (p7 & p8 & Hsave & Hout).
  apply save_current_session_inr in Hsave as (s7 & Hcur7 & Hcur8 & Hheap8 & Hfile8).
  set (s8 := set_last_accessed (now_at (clock (world p7))) s7) in *.
  destruct (save_conversation_output_run question answer pid p8 s8 Hcur8)
    as (p9 & old & Hrun & Hcur9 & _ & _ & Hheap9 & Hsd9 & Hlog).
  rewrite Hrun in Hout. injection Hout as <-.
  exists s8, old, (now_at (clock (world p8))). split_and!; [done| |done].
  rewrite Hsd9.
  assert (Hid : session_id s8 = session_id s7) by (by destruct s7).
  assert (Hmw : message_window s8 = message_window s7) by (by destruct s7).
  rewrite Hid, Hfile8. do 3 f_equal.
  unfold contents. by rewrite Hheap9, Hheap8, Hmw.
Qed.


(** *** What [ask_question] writes is not what [create_new] reads *)

#[local] Instance recovery_same_preorder : PreOrder recovery_same.
Proof.
  split.
  - by intros p dir acc.
  - intros p1 p2 p3 H1 H2 dir acc. by rewrite H2, H1.
Qed.

Lemma recovery_same_of_fs (p p' : Processor) :
  fs (world p') = fs (world p) -> recovery_same p p'.
Proof. intros H dir acc. unfold recovered. by rewrite H. Qed.

Lemma recovery_same_in_world {A} (c : M World A) :
  preserves files_same c -> preserves recovery_same (in_world c).
Proof.
  intros Hc p r p'. unfold in_world.
  destruct (c (world p)) as [x w] eqn:E. intros [= _ <-].
  apply recovery_same_of_fs. by destruct (Hc _ _ _ E).
Qed.

Lemma recovery_same_append (r : loc) (m : Message) :
  preserves recovery_same (in_world (append r m)).
Proof. intros p x p' [= _ <-]. by apply recovery_same_of_fs. Qed.

Lemma recovery_same_makedirs (d : string) : preserves recovery_same (in_world (makedirs d)).
Proof.
  intros p x p' [= _ <-]. intros dir acc. unfold recovered.
  change (fs (world (set_world _ p))) with (fs (snd (makedirs d (world p)))).
  by rewrite makedirs_listing.
Qed.

Lemma recovery_same_append_text (d t : string) :
  preserves recovery_same (in_world (append_text d "conversation.md" t)).
Proof.
  intros p x p' [= _ <-]. intros dir acc. unfold recovered.
  cbn [world set_world fs set_fs].
  destruct (decide (dir = d)) as [->|Hne].
  - rewrite lookup_insert_eq. cbn [default]. apply scan_skips_conversation_md.
  - by rewrite lookup_insert_ne.
Qed.

Lemma recovery_same_call_endpoint (req : Request) :
  preserves recovery_same (call_endpoint req).
Proof. intros p r p' [= _ <-]. by apply recovery_same_of_fs. Qed.

Lemma recovery_same_the_session : preserves recovery_same the_session.
Proof.
  intros p r p'. unfold the_session. destruct (current_session p); intros [= _ <-]; reflexivity.
Qed.

Lemma recovery_same_on_session {A} (method : Session -> Session * A) :
  preserves recovery_same (on_session method).
Proof.
  intros p r p'. unfold on_session. destruct (current_session p) as [s|].
  - destruct (method s). intros [= _ <-]. by apply recovery_same_of_fs.
  - intros [= _ <-]. reflexivity.
Qed.

Lemma recovery_same_save_current_session : preserves recovery_same save_current_session.
Proof.
  intros p r p'. unfold save_current_session. destruct (current_session p) as [s|].
  - destruct (save_session s (world p)) as [[x s'] w'] eqn:Es. intros [= _ <-].
    apply save_session_effect in Es as (_ & _ & Hfs). by apply recovery_same_of_fs.
  - intros [= _ <-]. reflexivity.
Qed.

Lemma recovery_same_int_to_float (n : Z) : preserves recovery_same (int_to_float n).
Proof.
  unfold int_to_float. destruct (float_of_int n); [apply preserves_ret|apply preserves_raise];
    apply _.
Qed.

Create HintDb recovery.
Hint Resolve preserves_ret preserves_raise preserves_lift_result preserves_subscript
  preserves_get recovery_same_append recovery_same_makedirs recovery_same_append_text
  recovery_same_call_endpoint recovery_same_the_session recovery_same_on_session
  recovery_same_save_current_session recovery_same_int_to_float
  files_same_deref files_same_now files_same_read recovery_same_in_world : recovery.






(** *** [ask_question] on a state it rejects *)

(** X21.  [ask_question] fails at once, with one attempt, no sleep, no call
    of the endpoint and the processor unchanged: with ValueError when there
    is no current session, with ValidationError when the stored summary is
    not a document understanding, with KeyError when [SYSTEM_PROMPTS] has no
    entry for the current prompt type, and with KeyError when a message of
    the window lacks its role or its content. *)
Theorem ask_question_rejects_before_calling (question : string) (p : Processor) :
  (current_session p = None ->
   ask_question question p = (inl ValueError, p, [Attempt (inl ValueError)])) /\
  (forall s, current_session p = Some s ->
     understanding_of_json (document_summary s) = None ->
     ask_question question p = (inl ValidationError, p, [Attempt (inl ValidationError)])) /\
  (forall s u, current_session p = Some s ->
     understanding_of_json (document_summary s) = Some u ->
     system_prompts (current_system_prompt p) = None ->
     ask_question question p = (inl KeyError, p, [Attempt (inl KeyError)])) /\
  (forall s u prompt, current_session p = Some s ->
     understanding_of_json (document_summary s) = Some u ->
     system_prompts (current_system_prompt p) = Some prompt ->
     ~ Forall has_role_and_content
         (Py.last_k (window_size s) (contents (world p) (message_window s))) ->
     ask_question question p = (inl KeyError, p, [Attempt (inl KeyError)])).
Proof.
  assert (Hone : forall e, retryable e = false ->
            ask_question_body question p = (inl e, p) ->
            ask_question question p = (inl e, p, [Attempt (inl e)])).
  { intros e He Hb. unfold ask_question, with_retries, retry_with_exponential_backoff.
    change (Z.to_nat 5) with 5%nat. cbn [retry_loop]. rewrite Hb, He. reflexivity. }
  split_and!.
  - intros Hcur. apply Hone; [reflexivity|].
    unfold ask_question_body, bind, get. by rewrite Hcur.
  - intros s Hcur Hu. apply Hone; [reflexivity|].
    unfold ask_question_body, bind, get. rewrite Hcur, Hu. reflexivity.
  - intros s u Hcur Hu Hp. apply Hone; [reflexivity|].
    unfold ask_question_body, bind, get. rewrite Hcur, Hu, Hp. reflexivity.
  - intros s u prompt Hcur Hu Hp Hbad. apply Hone; [reflexivity|].
    unfold ask_question_body, bind, get. rewrite Hcur, Hu, Hp. cbn [ret subscript].
    unfold in_world, deref. cbn [fst snd]. rewrite set_world_same.
    assert (Hw : window_messages
                   (Py.last_k (window_size s) (contents (world p) (message_window s)))
                 = inl KeyError).
    { induction (Py.last_k (window_size s) (contents (world p) (message_window s)))
        as [|m l IH]; [by destruct Hbad|].
      cbn [window_messages].
      destruct (role m) as [r|] eqn:Er; [|reflexivity].
      destruct (content m) as [c|] eqn:Ec; [|reflexivity].
      rewrite IH; [reflexivity|].
      intros Hl. apply Hbad. constructor; [|done]. split; eauto. }
    unfold build_messages. rewrite Hw. reflexivity.
Qed.

(** *** [process_documents] with no current session *)

Lemma process_documents_body_without_session (docs : list (string * string)) (nm : string)
    (p : Processor) :
  current_session p = None ->
  no_cached_understanding nm (world p) ->
  exists e p1,
    process_documents_body docs nm p = (inl e, p1) /\ undisturbed p p1 /\
    (forall prompt resp,
       system_prompts "analysis" = Some prompt ->
       messages_create (api_calls (world p)) (analysis_call prompt docs nm) = inr resp ->
       e = AttributeError /\ api_calls (world p1) = Datatypes.S (api_calls (world p))).
Proof.
  intros Hcur Hcache. unfold process_documents_body, no_cached_understanding in *.
  unfold bind at 1. unfold in_world at 1. cbn [fst snd]. rewrite Hcache.
  rewrite set_world_same.
  destruct (system_prompts "analysis") as [prompt|] eqn:Hp.
  2:{ exists KeyError, p. split_and!; [reflexivity|reflexivity|]. intros; congruence. }
  cbn [subscript]. unfold bind at 1. cbn [ret].
  unfold bind at 1. unfold call_endpoint, in_world. cbn [fst snd].
  fold (analysis_call prompt docs nm).
  destruct (messages_create (api_calls (world p)) (analysis_call prompt docs nm))
    as [e|resp] eqn:Hcall.
  { eexists _, _. split_and!; [reflexivity|by split_and!|]. intros ? ? [= <-] ?. congruence. }
  unfold bind at 1. unfold _track_usage, update_session, on_session, bind.
  cbn [current_session set_world]. rewrite Hcur.
  eexists _, _. split_and!; [reflexivity|by split_and!|].
  intros ? ? _ _. split; reflexivity.
Qed.

(** X22.  [process_documents] cannot make the first session: with no
    current session and no cached [understanding.md] for the name, it always
    raises, and leaves no session, no file and no directory behind.  When the
    analysis prompt exists and the endpoint answers, the error is the
    AttributeError of [_track_usage] on the missing session, raised after the
    one call was made.  (The debug log is not modelled.) *)
Theorem process_documents_needs_a_session (docs : list (string * string)) (nm : string)
    (p : Processor) :
  current_session p = None ->
  no_cached_understanding nm (world p) ->
  (exists e p' tr,
     process_documents docs nm p = (inl e, p', tr) /\ undisturbed p p') /\
  (forall prompt resp,
     system_prompts "analysis" = Some prompt ->
     messages_create (api_calls (world p)) (analysis_call prompt docs nm) = inr resp ->
     exists p',
       process_documents docs nm p = (inl AttributeError, p', [Attempt (inl AttributeError)]) /\
       api_calls (world p') = Datatypes.S (api_calls (world p))).
Proof.
  intros Hcur Hcache. split.
  - unfold process_documents, with_retries, retry_with_exponential_backoff.
    destruct (retry_loop_always_raises uniform_draw (process_documents_body docs nm)
                (fun p0 => undisturbed p p0) 5 32 (Z.to_nat 5)) with (i := 0) (d := 1) (s := p)
      as (e & p' & tr & Hrun & Hp'); try reflexivity; try (simpl; lia).
    + intros p0 Hp0.
      destruct Hp0 as (A0 & B0 & C0 & D0 & E0 & F0).
      destruct (process_documents_body_without_session docs nm p0) as (e & p1 & Hb & Hu & _).
      * congruence.
      * unfold no_cached_understanding in *. by rewrite F0.
      * exists e, p1. split; [done|]. etransitivity; [|exact Hu]. by split_and!.
    + intros p0 Hp0. etransitivity; [exact Hp0|]. apply undisturbed_uniform_draw.
    + eauto.
  - intros prompt resp Hp Hcall.
    destruct (process_documents_body_without_session docs nm p Hcur Hcache)
      as (e & p1 & Hb & _ & Hprecise).
    destruct (Hprecise prompt resp Hp Hcall) as [-> Hapi].
    exists p1. split; [|exact Hapi].
    unfold process_documents, with_retries, retry_with_exponential_backoff.
    change (Z.to_nat 5) with 5%nat. cbn [retry_loop]. rewrite Hb. reflexivity.
Qed.


(** *** The cached understanding *)

Lemma prefix_mono (sub x y : string) :
  String.prefix sub x = true -> String.prefix sub (x +:+ y) = true.
Proof.
  revert x. induction sub as [|c sub IH]; intros x H.
  - by destruct (x +:+ y).
  - destruct x as [|c' x]; [discriminate|].
    rewrite str_app_cons. cbn [String.prefix] in *.
    destruct (ascii_dec c c'); [by apply IH|discriminate].
Qed.

Lemma prefix_length (sub x : string) :
  String.prefix sub x = true -> (String.length sub <= String.length x)%nat.
Proof.
  revert x. induction sub as [|c sub IH]; intros x H; cbn [String.length]; [lia|].
  destruct x as [|c' x]; [discriminate|]. cbn [String.prefix String.length] in *.
  destruct (ascii_dec c c'); [|discriminate]. apply IH in H. lia.
Qed.

Lemma prefix_app_inv (sub x y : string) :
  String.prefix sub (x +:+ y) = true -> (String.length sub <= String.length x)%nat ->
  String.prefix sub x = true.
Proof.
  revert x. induction sub as [|c sub IH]; intros x H Hlen.
  - by destruct x.
  - destruct x as [|c' x]; [cbn [String.length] in Hlen; lia|].
    rewrite str_app_cons in H. cbn [String.prefix String.length] in *.
    destruct (ascii_dec c c'); [|discriminate]. apply IH; [done|lia].
Qed.

Lemma find_at_length (sub x : string) : forall i k,
  find_at sub x i = Some k -> (String.length sub <= String.length x)%nat.
Proof.
  induction x as [|c x IH]; intros i k; cbn [find_at].
  - destruct (String.prefix sub "") eqn:E; [|discriminate]. intros _. by apply prefix_length.
  - destruct (String.prefix sub (String c x)) eqn:E.
    + intros _. by apply prefix_length.
    + intros H. apply IH in H. cbn [String.length]. lia.
Qed.

Lemma find_at_app (sub x y : string) : forall i k,
  find_at sub x i = Some k -> find_at sub (x +:+ y) i = Some k.
Proof.
  induction x as [|c x IH]; intros i k.
  - cbn [find_at]. destruct (String.prefix sub "") eqn:E; [|discriminate].
    intros [= <-]. destruct sub; [|discriminate].
    change ("" +:+ y) with y. by destruct y.
  - rewrite str_app_cons. cbn [find_at].
    destruct (String.prefix sub (String c x)) eqn:E.
    + intros [= <-]. apply (prefix_mono _ _ y) in E. rewrite str_app_cons in E.
      by rewrite E.
    + intros H.
      destruct (String.prefix sub (String c (x +:+ y))) eqn:E2; [|by apply IH].
      exfalso. apply find_at_length in H.
      rewrite <- str_app_cons in E2. apply prefix_app_inv in E2; [congruence|].
      cbn [String.length]. lia.
Qed.

Lemma find_at_here (sub s : string) (i : nat) :
  String.prefix sub s = true -> find_at sub s i = Some i.
Proof. intros H. destruct s; cbn [find_at]; by rewrite H. Qed.

Lemma str_drop_app (a b : string) : Py.str_drop (String.length a) (a +:+ b) = b.
Proof. induction a as [|c a IH]; [by destruct b|]. exact IH. Qed.

Lemma understanding_file_split (prompt summary : string) :
  understanding_file prompt summary = understanding_file prompt "" +:+ summary.
Proof. unfold understanding_file. rewrite !str_app_assoc. reflexivity. Qed.

Lemma understanding_file_head (prompt : string) :
  exists head,
    understanding_file prompt "" = head +:+ (fence +:+ newline) /\
    String.length (understanding_file prompt "") = (String.length head + 5)%nat.
Proof.
  exists ("# Document Understanding" +:+ newline +:+ newline
          +:+ "Generated using system prompt:" +:+ newline +:+ fence +:+ prompt +:+ newline).
  assert (E : understanding_file prompt "" =
              ("# Document Understanding" +:+ newline +:+ newline
               +:+ "Generated using system prompt:" +:+ newline +:+ fence +:+ prompt +:+ newline)
              +:+ (fence +:+ newline)).
  { unfold understanding_file. rewrite !str_app_assoc. reflexivity. }
  split; [exact E|]. rewrite E, length_app_str. reflexivity.
Qed.

(** The summary the cached path takes out of the file the other path wrote. *)
Lemma cached_summary_is_written_summary (prompt summary : string) :
  py_find (fence +:+ newline) (understanding_file prompt "") 0
    = Z.of_nat (String.length (understanding_file prompt "")) - 5 ->
  let text := understanding_file prompt summary in
  str_from (py_find (newline +:+ newline) text (py_find (fence +:+ newline) text 0) + 2) text
  = summary.
Proof.
  intros Hfind text.
  destruct (understanding_file_head prompt) as (head & Hhead & Hlen).
  set (k0 := String.length head) in *.
  assert (Htext : text = head +:+ (fence +:+ newline) +:+ summary).
  { unfold text. rewrite understanding_file_split, Hhead. by rewrite !str_app_assoc. }
  assert (H1 : py_find (fence +:+ newline) text 0 = Z.of_nat k0).
  { assert (Hzero : forall sub s, py_find sub s 0
              = match find_at sub s 0 with Some k => Z.of_nat k | None => -1 end)
      by reflexivity.
    rewrite Hzero in *.
    destruct (find_at (fence +:+ newline) (understanding_file prompt "") 0) as [k|] eqn:E;
      [|lia].
    unfold text. rewrite understanding_file_split.
    rewrite (find_at_app _ _ summary _ _ E). lia. }
  rewrite H1.
  assert (H2 : py_find (newline +:+ newline) text (Z.of_nat k0) = Z.of_nat k0 + 3).
  { unfold py_find. destruct (Z.ltb_spec (Z.of_nat k0) 0) as [Hneg|_]; [lia|].
    rewrite Nat2Z.id, Htext. unfold k0. rewrite str_drop_app.
    change ((fence +:+ newline) +:+ summary)
      with (String "`" (String "`" (String "`" ((newline +:+ newline) +:+ summary)))).
    assert (Hno : forall r, String.prefix (newline +:+ newline) (String "`" r) = false)
      by reflexivity.
    cbn [find_at]. rewrite !Hno.
    rewrite find_at_here by apply (startswith_app (newline +:+ newline) summary). lia. }
  rewrite H2. unfold str_from.
  destruct (Z.ltb_spec (Z.of_nat k0 + 3 + 2) 0) as [Hneg|_]; [lia|].
  replace (Z.to_nat (Z.of_nat k0 + 3 + 2)) with (String.length (head +:+ (fence +:+ newline))).
  2:{ rewrite length_app_str. change (String.length (fence +:+ newline)) with 5%nat.
      unfold k0. lia. }
  rewrite Htext. rewrite <- (str_app_assoc head (fence +:+ newline) summary).
  apply str_drop_app.
Qed.

(** A text without carriage return is read as it is. *)
Lemma universal_newlines_id (s : string) :
  no_carriage_return s = true -> Py.universal_newlines s = s.
Proof.
  unfold no_carriage_return. induction s as [|c r IH]; [done|].
  cbn [Py.str_all Py.universal_newlines]. intros H. apply andb_prop in H as [Hc Hr].
  destruct (Ascii.eqb c "013"); [done|]. by rewrite IH.
Qed.

Lemma no_carriage_return_app (s t : string) :
  no_carriage_return (s +:+ t) = no_carriage_return s && no_carriage_return t.
Proof. unfold no_carriage_return. apply str_all_app. Qed.

Lemma understanding_file_no_carriage_return (prompt summary : string) :
  no_carriage_return prompt = true -> no_carriage_return summary = true ->
  no_carriage_return (understanding_file prompt summary) = true.
Proof.
  intros Hp Hs. unfold understanding_file.
  rewrite !no_carriage_return_app, Hp, Hs. reflexivity.
Qed.

(** X24.  The cached path of [process_documents] takes out of
    [understanding.md] the summary the file was written with, and goes on as
    the other path does after its call, without calling the endpoint,
    provided the prompt and the summary hold no carriage return, which the
    read would turn into a line feed, and the first [```] followed by an
    empty line in the file is the fence that closes the prompt. *)
Theorem cached_understanding_round_trip (docs : list (string * string)) (nm : string)
    (p : Processor) (prompt summary : string) :
  (fs (world p) !! path_join "processed-docs" nm ≫= read_entry "understanding.md")
    = Some (understanding_file prompt summary) ->
  no_carriage_return prompt = true ->
  no_carriage_return summary = true ->
  py_find (fence +:+ newline) (understanding_file prompt "") 0
    = Z.of_nat (String.length (understanding_file prompt "")) - 5 ->
  process_documents_body docs nm p = (exec adopt_session nm docs summary; ret summary) p.
Proof.
  intros Hfile Hprompt Hsummary Hfind. unfold process_documents_body.
  unfold bind at 1. unfold in_world at 1. cbn [fst snd].
  assert (Hread : match fs (world p) !! path_join "processed-docs" nm with
                  | Some listing => read_entry "understanding.md" listing
                  | None => None
                  end = Some (understanding_file prompt summary)).
  { destruct (fs (world p) !! path_join "processed-docs" nm); exact Hfile. }
  rewrite Hread, set_world_same. cbv zeta.
  rewrite (universal_newlines_id _
             (understanding_file_no_carriage_return _ _ Hprompt Hsummary)).
  pose proof (cached_summary_is_written_summary prompt summary Hfind) as Hs.
  cbv zeta in Hs. rewrite Hs. reflexivity.
Qed.


Lemma adopt_session_keeps_dirs (nm : string) (docs : list (string * string)) (summary : string)
    (p p' : Processor) r :
  adopt_session nm docs summary p = (r, p') -> dirs_kept (world p) (world p').
Proof.
  unfold adopt_session. unfold bind at 1. unfold in_world at 1.
  destruct (create_new nm (understanding_dump docs summary) 0 (world p)) as [[e|s] w1] eqn:Enew.
  { intros [= _ <-]. cbn. eapply dirs_kept_create_new, Enew. }
  cbn [fst snd]. unfold bind at 1. cbn [modify fst snd].
  unfold save_current_session. cbn [current_session set_current_session set_world world].
  destruct (save_session s w1) as [[x s'] w2] eqn:Es. intros [= _ <-]. cbn [world].
  apply save_session_effect in Es as (_ & _ & Hfs).
  etransitivity; [eapply dirs_kept_create_new, Enew|]. intros d l. by rewrite Hfs.
Qed.

(** X23.  An attempt of [process_documents] that found no cached
    understanding and returns a summary has left
    [processed-docs/<name>/understanding.md] holding the analysis prompt
    between fences and then that summary. *)
Theorem process_documents_caches_its_summary (docs : list (string * string)) (nm : string)
    (p p' : Processor) (summary : string) :
  no_cached_understanding nm (world p) ->
  process_documents_body docs nm p = (inr summary, p') ->
  exists prompt,
    system_prompts "analysis" = Some prompt /\
    (fs (world p') !! path_join "processed-docs" nm ≫= read_entry "understanding.md")
      = Some (understanding_file prompt summary).
Proof.
  unfold no_cached_understanding, process_documents_body. intros Hcache H.
  unfold bind at 1 in H. unfold in_world at 1 in H. cbn [fst snd] in H.
  rewrite Hcache, set_world_same in H.
  apply bind_inr in H as (prompt & p1 & Hp & H). apply subscript_inr in Hp as [Hp ->].
  exists prompt. split; [exact Hp|].
  apply bind_inr in H as (response & p2 & _ & H).
  apply bind_inr in H as ([] & p3 & _ & H).
  apply bind_inr in H as ([] & p4 & Hmk & H).
  apply bind_inr in H as ([] & p5 & Hwr & H).
  apply bind_inr in H as ([] & p6 & Hadopt & H).
  injection H as <- <-.
  injection Hwr as <-.
  apply adopt_session_keeps_dirs in Hadopt.
  cbn [world set_world fs set_fs] in Hadopt.
  erewrite Hadopt; [|apply lookup_insert_eq].
  cbn. apply read_entry_write_entry.
Qed.

End MoreProcessorFacts.

(** ** Reloading the documents *)

Section ReloadFacts.
Context {C : Collaborators}.

#[local] Existing Instance undisturbed_preorder.
#[local] Existing Instance heap_grows_preorder.

Lemma bind_inl {S A B} (c : M S A) (k : A -> M S B) s e s' :
  bind c k s = (inl e, s') ->
  c s = (inl e, s') \/ exists a s1, c s = (inr a, s1) /\ k a s1 = (inl e, s').
Proof.
  unfold bind. destruct (c s) as [[e0|a] s1]; [intros [= <- <-]; by left|].
  right. eauto.
Qed.

Lemma subscript_inl {S A} (o : option A) (s s' : S) (e : exn) :
  subscript o s = (inl e, s') -> e = KeyError.
Proof. destruct o; cbn; [discriminate|by intros [= <- _]]. Qed.

Lemma parse_iso_inl (t : string) (w w' : World) (e : exn) :
  parse_iso t w = (inl e, w') -> e = ValueError.
Proof. unfold parse_iso. destruct (fromisoformat t); cbn; [discriminate|by intros [= <- _]]. Qed.

(** The errors of [from_dict]. *)
Lemma from_dict_error (data : Data loc) (w w' : World) (e : exn) :
  from_dict data w = (inl e, w') -> e = KeyError \/ e = ValueError.
Proof.
  unfold from_dict. intros H.
  apply bind_inl in H as [H|(sid & w1 & _ & H)]; [left; eapply subscript_inl, H|].
  apply bind_inl in H as [H|(gen & w2 & _ & H)]; [discriminate|].
  apply bind_inl in H as [H|(nm & w3 & _ & H)]; [left; eapply subscript_inl, H|].
  apply bind_inl in H as [H|(summary & w4 & _ & H)]; [left; eapply subscript_inl, H|].
  apply bind_inl in H as [H|(mw & w5 & _ & H)]; [left; eapply subscript_inl, H|].
  apply bind_inl in H as [H|(ct & w6 & _ & H)]; [left; eapply subscript_inl, H|].
  apply bind_inl in H as [H|(cr & w7 & _ & H)]; [right; eapply parse_iso_inl, H|].
  apply bind_inl in H as [H|(at_ & w8 & _ & H)]; [left; eapply subscript_inl, H|].
  apply bind_inl in H as [H|(acc & w9 & _ & H)]; [right; eapply parse_iso_inl, H|].
  apply bind_inl in H as [H|(msgs & w10 & _ & H)]; [discriminate|].
  match type of H with (if ?b then _ else _) _ = _ => destruct b end; [|discriminate].
  unfold try_except in H.
  match type of H with match ?c with _ => _ end = _ => destruct c as [[e0|x] s1] eqn:Ec end;
    [|discriminate].
  apply bind_inl in Ec as [Ec|(m & w11 & _ & Ec)]; [|discriminate].
  unfold lift_result in Ec. injection Ec as Ec _.
  apply max_user_prompt_id_error in Ec as [->| ->]; discriminate.
Qed.

Lemma from_dict_message_window (data : Data loc) (w w' : World) (s : Session) :
  from_dict data w = (inr s, w') -> d_message_window data = Some (message_window s).
Proof.
  unfold from_dict. intros H.
  apply bind_inr in H as (sid & w1 & _ & H).
  apply bind_inr in H as (gen & w2 & _ & H).
  apply bind_inr in H as (nm & w3 & _ & H).
  apply bind_inr in H as (summary & w4 & _ & H).
  apply bind_inr in H as (mw & w5 & Hmw & H).
  apply subscript_inr in Hmw as [-> _].
  apply bind_inr in H as (ct & w6 & _ & H).
  apply bind_inr in H as (cr & w7 & _ & H).
  apply bind_inr in H as (at_ & w8 & _ & H).
  apply bind_inr in H as (acc & w9 & _ & H).
  apply bind_inr in H as (msgs & w10 & _ & H).
  match type of H with (if ?b then _ else _) _ = _ => destruct b end.
  - apply try_except_inr in H as [H|(e & s1 & _ & H)].
    + apply bind_inr in H as (m & w11 & _ & H). injection H as <- _.
      by destruct (d_branch_info data).
    + injection H as <- _. by destruct (d_branch_info data).
  - injection H as <- _. by destruct (d_branch_info data).
Qed.

(** The body of the first loop of [create_new] on a file that carries the
    name: it returns a session with the messages of the file, or raises
    KeyError or ValueError. *)
Lemma recover_named (nm : string) (d : Data (list Message)) (msgs : list Message)
    (w w' : World) r :
  d_name d = Some nm -> d_message_window d = Some msgs ->
  recover nm (Json d) w = (r, w') ->
  match r with
  | inr o => exists s, o = Some s /\ contents w' (message_window s) = msgs
  | inl e => e = KeyError \/ e = ValueError
  end.
Proof.
  intros Hnm Hmw. unfold recover, try_except, json_load. rewrite Hmw.
  destruct (contents_alloc msgs w) as (r0 & Ealloc & Hfresh & Hcont).
  set (w1 := set_heap (<[r0 := msgs]> (heap w)) w) in *.
  rewrite (bind_ok _ _ _ _ _ (bind_ok _ _ _ _ _ Ealloc)). cbn [ret].
  rewrite bool_decide_eq_true_2 by exact Hnm.
  assert (Hsome : is_Some (heap w1 !! r0)).
  { unfold w1. cbn. rewrite lookup_insert_eq. eauto. }
  assert (Hinner : forall r1 w2,
    bind (from_dict (with_message_window (Some r0) d))
      (fun session =>
         do msgs0 <- deref (message_window session);
         if negb (is_nil msgs0)
         then do max_id <- lift_result (max_user_prompt_id msgs0);
              ret (Some (set_last_prompt_id max_id session))
         else ret (Some session)) w1 = (r1, w2) ->
    match r1 with
    | inr o => exists s, o = Some s /\ contents w2 (message_window s) = msgs
    | inl e => e = KeyError \/ e = ValueError
    end).
  { intros r1 w2 H. destruct r1 as [e|o].
    - apply bind_inl in H as [H|(session & w3 & _ & H)]; [eapply from_dict_error, H|].
      apply bind_inl in H as [H|(l & w4 & _ & H)]; [discriminate|].
      destruct (negb (is_nil l)); [|discriminate].
      apply bind_inl in H as [H|(m & w5 & _ & H)]; [|discriminate].
      unfold lift_result in H. injection H as H _.
      apply max_user_prompt_id_error in H as [->| ->]; [by right|by left].
    - apply bind_inr in H as (session & w3 & Hfd & H).
      pose proof (from_dict_message_window _ _ _ _ Hfd) as Hr. cbn in Hr.
      injection Hr as Hr.
      pose proof (heap_grows_from_dict _ _ _ _ Hfd) as Hg.
      apply bind_inr in H as (l & w4 & Hd & H). unfold deref in Hd. injection Hd as <- <-.
      assert (Hc : contents w3 r0 = msgs).
      { rewrite (heap_grows_contents _ _ _ Hg Hsome). exact Hcont. }
      destruct (negb (is_nil (contents w3 (message_window session)))).
      + apply bind_inr in H as (m & w5 & Hm & H). apply lift_result_inr in Hm as [_ ->].
        injection H as <- <-. eexists. split; [reflexivity|]. cbn. by rewrite <- Hr.
      + injection H as <- <-. eexists. split; [reflexivity|]. by rewrite <- Hr. }
  match goal with
  | |- match ?c with _ => _ end = _ -> _ =>
      pose proof (Hinner (fst c) (snd c)) as He; destruct c as [[e|o] w2]
  end; specialize (He eq_refl); cbn [fst snd] in He.
  - destruct (bool_decide (e = JSONDecodeError)) eqn:Eb.
    + apply bool_decide_eq_true in Eb. destruct He; congruence.
    + intros [= <- <-]. exact He.
  - intros [= <- <-]. exact He.
Qed.

(** The first loop of [create_new] when a readable file carries the name. *)
Lemma find_existing_named (nm : string) (msgs : list Message) (d : Data (list Message)) :
  d_message_window d = Some msgs ->
  forall (files : list (string * file)) (w w' : World) r,
    first_named nm files = Some d ->
    find_existing nm files w = (r, w') ->
    match r with
    | inr o => exists s, o = Some s /\ contents w' (message_window s) = msgs
    | inl e => e = KeyError \/ e = ValueError
    end.
Proof.
  intros Hmw. induction files as [|[filename f] rest IH]; intros w w' r;
    cbn [first_named find_existing]; [discriminate|].
  destruct (Py.endswith filename ".json"); [|by apply IH].
  destruct f as [|d'].
  - intros Hd. rewrite (bind_ok _ _ _ _ _ (recover_skip_garbage nm w)). by apply IH.
  - destruct (bool_decide (d_name d' = Some nm)) eqn:Eb.
    + apply bool_decide_eq_true in Eb. intros [= ->].
      destruct (recover nm (Json d) w) as [r0 w0] eqn:Er.
      pose proof (recover_named nm d msgs w w0 r0 Eb Hmw Er) as Hr.
      destruct r0 as [e|o].
      * rewrite (bind_raise _ _ _ _ _ Er). by intros [= <- <-].
      * destruct Hr as (s & -> & Hc). rewrite (bind_ok _ _ _ _ _ Er).
        intros [= <- <-]. eauto.
    + apply bool_decide_eq_false in Eb. intros Hd.
      destruct (recover_skip_other nm d' w Eb) as (w0 & Hw0).
      rewrite (bind_ok _ _ _ _ _ Hw0). by apply IH.
Qed.

(** The errors of the first loop of [create_new]. *)
Lemma find_existing_error (nm : string) :
  forall (files : list (string * file)) (w w' : World) (e : exn),
    find_existing nm files w = (inl e, w') -> e = KeyError \/ e = ValueError.
Proof.
  induction files as [|[filename f] rest IH]; intros w w' e; cbn [find_existing];
    [discriminate|].
  destruct (Py.endswith filename ".json"); [|by apply IH].
  destruct f as [|d'].
  - rewrite (bind_ok _ _ _ _ _ (recover_skip_garbage nm w)). by apply IH.
  - destruct (decide (d_name d' = Some nm)) as [Hnm|Hne].
    + destruct (d_message_window d') as [msgs|] eqn:Hmw.
      * destruct (recover nm (Json d') w) as [r0 w0] eqn:Er.
        pose proof (recover_named nm d' msgs w w0 r0 Hnm Hmw Er) as Hr.
        destruct r0 as [e0|o].
        -- rewrite (bind_raise _ _ _ _ _ Er). by intros [= <- <-].
        -- destruct Hr as (s & -> & _). rewrite (bind_ok _ _ _ _ _ Er). discriminate.
      * unfold recover, try_except, json_load. rewrite Hmw. cbn [ret].
        intros H. apply bind_inl in H as [H|(o & w1 & Ho & H)].
        -- match type of H with
           | match ?c with _ => _ end = _ => destruct c as [[e0|x] w1] eqn:Ec
           end; [|discriminate].
           destruct (bool_decide (e0 = JSONDecodeError)); [discriminate|].
           injection H as <- <-.
           unfold bind at 1 in Ec. cbn [ret] in Ec.
           rewrite bool_decide_eq_true_2 in Ec by exact Hnm.
           apply bind_inl in Ec as [Ec|(s & w2 & _ & Ec)]; [eapply from_dict_error, Ec|].
           apply bind_inl in Ec as [Ec|(l & w3 & _ & Ec)]; [discriminate|].
           destruct (negb (is_nil l)); [|discriminate].
           apply bind_inl in Ec as [Ec|(m & w4 & _ & Ec)]; [|discriminate].
           unfold lift_result in Ec. injection Ec as Ec _.
           apply max_user_prompt_id_error in Ec as [->| ->]; [by right|by left].
        -- destruct o; [discriminate|]. by eapply IH.
    + destruct (recover_skip_other nm d' w Hne) as (w0 & Hw0).
      rewrite (bind_ok _ _ _ _ _ Hw0). by apply IH.
Qed.

Lemma create_new_named (nm summary : string) (lp : Z) (w w' : World) (s : Session)
    (d : Data (list Message)) (msgs : list Message) :
  first_named nm (sessions_dir w) = Some d -> d_message_window d = Some msgs ->
  create_new nm summary lp w = (inr s, w') ->
  contents w' (message_window s) = msgs.
Proof.
  intros Hd Hmw. unfold create_new. unfold bind at 1. cbn [fst snd].
  intros H. apply bind_inr in H as (o & w1 & Hfind & H).
  destruct (find_existing_named nm msgs d Hmw _ _ _ _ Hd Hfind) as (s0 & -> & Hc).
  injection H as <- <-. exact Hc.
Qed.

Lemma create_new_error (nm summary : string) (lp : Z) (w w' : World) (e : exn) :
  create_new nm summary lp w = (inl e, w') -> e = KeyError \/ e = ValueError.
Proof.
  unfold create_new. unfold bind at 1. cbn [fst snd]. intros H.
  apply bind_inl in H as [H|(o & w1 & _ & H)]; [eapply find_existing_error, H|].
  destruct o; [discriminate|].
  apply bind_inl in H as [H|(sid & w2 & _ & H)]; [discriminate|].
  apply bind_inl in H as [H|(cid & w3 & _ & H)]; [discriminate|].
  apply bind_inl in H as [H|(listing & w4 & _ & H)]; [discriminate|].
  match type of H with context [let '(_, _) := ?x in _] => destruct x as [last window] end.
  apply bind_inl in H as [H|([] & w5 & _ & H)]; [discriminate|].
  apply bind_inl in H as [H|([] & w6 & _ & H)]; [discriminate|].
  apply bind_inl in H as [H|([] & w7 & _ & H)]; [discriminate|].
  apply bind_inl in H as [H|(mw & w8 & _ & H)]; [discriminate|].
  apply bind_inl in H as [H|(created & w9 & _ & H)]; [discriminate|].
  apply bind_inl in H as [H|(accessed & w10 & _ & H)]; [discriminate|].
  discriminate.
Qed.

Lemma never_retryable_create_new (nm summary : string) (lp : Z) :
  never_retryable (create_new nm summary lp).
Proof. intros w e w' H. by apply create_new_error in H as [->| ->]. Qed.

Lemma never_retryable_adopt_session (nm : string) (docs : list (string * string))
    (summary : string) :
  never_retryable (adopt_session nm docs summary).
Proof.
  unfold adopt_session.
  apply never_retryable_bind;
    [apply never_retryable_in_world, never_retryable_create_new|intros s].
  apply never_retryable_bind; [apply never_retryable_modify|intros _].
  apply never_retryable_save_current_session.
Qed.

Lemma endswith_json (sid : string) : Py.endswith (sid +:+ ".json") ".json" = true.
Proof.
  unfold Py.endswith. rewrite length_app_str.
  change (String.length ".json") with 5%nat.
  replace (String.length sid + 5 - 5)%nat with (String.length sid) by lia.
  rewrite str_drop_app. apply andb_true_intro. split; [|reflexivity].
  apply Nat.leb_le. lia.
Qed.

(** Writing a file that carries the name and the messages leaves
    [create_new] with a file that holds these messages. *)
Lemma first_named_write_entry (nm filename : string) (d' : Data (list Message))
    (msgs : list Message) :
  Py.endswith filename ".json" = true ->
  d_name d' = Some nm -> d_message_window d' = Some msgs ->
  forall l : list (string * file),
    (exists d, first_named nm l = Some d /\ d_message_window d = Some msgs) ->
    exists d, first_named nm (write_entry filename (Json d') l) = Some d /\
              d_message_window d = Some msgs.
Proof.
  intros Hfn Hnm Hmw. induction l as [|[k v] rest IH]; intros (d & Hd & Hdm).
  - discriminate.
  - cbn [write_entry]. destruct (String.eqb_spec k filename) as [->|Hne].
    + cbn [first_named]. rewrite Hfn, bool_decide_eq_true_2 by exact Hnm. eauto.
    + cbn [first_named] in *. destruct (Py.endswith k ".json"); [|apply IH; eauto].
      destruct v as [|dk]; [apply IH; eauto|].
      destruct (bool_decide (d_name dk = Some nm)); [eauto|apply IH; eauto].
Qed.

(** [save_session] on the current session: the file written. *)
Lemma save_current_session_listing (p p' : Processor) :
  save_current_session p = (inr tt, p') ->
  exists s,
    current_session p = Some s /\
    current_session p' = Some (set_last_accessed (now_at (clock (world p))) s) /\
    heap (world p') = heap (world p) /\
    sessions_dir (world p')
      = write_entry (session_id s +:+ ".json")
          (Json (with_message_window (Some (contents (world p) (message_window s)))
                   (to_dict (set_last_accessed (now_at (clock (world p))) s))))
          (sessions_dir (world p)).
Proof.
  unfold save_current_session. destruct (current_session p) as [s|]; [|discriminate].
  unfold save_session, now, json_dump_to.
  change (serialisable (to_dict (set_last_accessed (now_at (clock (world p))) s)))
    with (serialisable (to_dict s)).
  destruct (serialisable (to_dict s)).
  - cbn. intros [= <-]. exists s. split_and!; reflexivity.
  - cbn. discriminate.
Qed.

(** The session a processor holds and the one [create_new] would find under
    its name have the same messages. *)
Lemma adopt_session_history (nm : string) (docs : list (string * string)) (summary : string)
    (p p' : Processor) (msgs : list Message) :
  (exists d, first_named nm (sessions_dir (world p)) = Some d /\
             d_message_window d = Some msgs) ->
  adopt_session nm docs summary p = (inr tt, p') ->
  exists s', current_session p' = Some s' /\ contents (world p') (message_window s') = msgs.
Proof.
  intros (d & Hd & Hmw). unfold adopt_session. intros H.
  apply bind_inr in H as (s1 & p1 & Hnew & H).
  unfold in_world in Hnew.
  destruct (create_new nm (understanding_dump docs summary) 0 (world p)) as [r w1] eqn:E.
  injection Hnew as -> <-.
  pose proof (create_new_named _ _ _ _ _ _ _ _ Hd Hmw E) as Hc.
  apply bind_inr in H as ([] & p2 & Hmod & H). injection Hmod as <-.
  apply save_current_session_listing in H as (s & Hs & Hcur & Hheap & _).
  cbn in Hs. injection Hs as <-.
  eexists. split; [exact Hcur|].
  unfold contents in *. rewrite Hheap. exact Hc.
Qed.

Lemma update_session_inr (f : Session -> Session) (p p' : Processor) (s : Session) :
  current_session p = Some s ->
  update_session f p = (inr tt, p') -> p' = set_current_session (Some (f s)) p.
Proof. unfold update_session, on_session. intros ->. by intros [= <-]. Qed.

Lemma int_to_float_inr (n : Z) (p p' : Processor) (f : float) :
  int_to_float n p = (inr f, p') -> p' = p.
Proof. unfold int_to_float. destruct (float_of_int n); [by intros [= _ <-]|discriminate]. Qed.

(** [_track_usage], when it returns, has written the file of the current
    session with the history it has. *)
Lemma track_usage_listing (r : Response) (p p' : Processor) (s : Session) :
  current_session p = Some s ->
  _track_usage r p = (inr tt, p') ->
  exists s',
    current_session p' = Some s' /\ name s' = name s /\
    message_window s' = message_window s /\
    heap (world p') = heap (world p) /\
    sessions_dir (world p')
      = write_entry (session_id s' +:+ ".json")
          (Json (with_message_window (Some (contents (world p) (message_window s)))
                   (to_dict s')))
          (sessions_dir (world p)).
Proof.
  intros Hcur. unfold _track_usage. intros H.
  apply bind_inr in H as ([] & p1 & H1 & H).
  apply (update_session_inr _ _ _ _ Hcur) in H1 as ->.
  apply bind_inr in H as ([] & p2 & H2 & H).
  eapply update_session_inr in H2; [|reflexivity]. subst p2.
  apply bind_inr in H as (fin & p3 & H3 & H). apply int_to_float_inr in H3 as ->.
  apply bind_inr in H as (fout & p4 & H4 & H). apply int_to_float_inr in H4 as ->.
  apply bind_inr in H as ([] & p5 & H5 & H).
  eapply update_session_inr in H5; [|reflexivity]. subst p5.
  apply save_current_session_listing in H as (s0 & Hs0 & Hcur' & Hheap & Hdir).
  cbn in Hs0. injection Hs0 as <-.
  eexists. split; [exact Hcur'|]. split_and!; [reflexivity|reflexivity|exact Hheap|exact Hdir].
Qed.

(** An attempt of [process_documents] that returns leaves a current session
    with the history of the session it started from, when the file that
    [create_new] finds under the name held that history. *)
Lemma process_documents_body_history (docs : list (string * string)) (p p' : Processor)
    (s : Session) (summary : string) :
  current_session p = Some s ->
  (exists d, first_named (name s) (sessions_dir (world p)) = Some d /\
             d_message_window d = Some (contents (world p) (message_window s))) ->
  process_documents_body docs (name s) p = (inr summary, p') ->
  exists s', current_session p' = Some s' /\
             contents (world p') (message_window s') = contents (world p) (message_window s).
Proof.
  intros Hcur Hstored. unfold process_documents_body. intros H.
  apply bind_inr in H as (cached & p0 & Hread & H).
  unfold in_world in Hread. injection Hread as _ <-. rewrite set_world_same in H.
  destruct cached as [bytes|].
  - apply bind_inr in H as ([] & p1 & Had & H). injection H as _ <-.
    eapply adopt_session_history; eauto.
  - apply bind_inr in H as (prompt & p1 & Hp & H). apply subscript_inr in Hp as [_ ->].
    apply bind_inr in H as (response & p2 & Hcall & H).
    unfold call_endpoint, in_world in Hcall.
    destruct (messages_create _ _) as [e|resp]; [discriminate|]. injection Hcall as <- Hp2.
    assert (Hcur2 : current_session p2 = Some s) by (by rewrite <- Hp2).
    assert (Hheap2 : heap (world p2) = heap (world p)) by (by rewrite <- Hp2).
    assert (Hdir2 : sessions_dir (world p2) = sessions_dir (world p)) by (by rewrite <- Hp2).
    clear Hp2.
    apply bind_inr in H as ([] & p3 & Htrack & H).
    apply (track_usage_listing _ _ _ s Hcur2) in Htrack
      as (s3 & Hcur3 & Hname & Hmw & Hheap & Hdir).
    apply bind_inr in H as ([] & p4 & Hmk & H). unfold in_world in Hmk. injection Hmk as <-.
    apply bind_inr in H as ([] & p5 & Hwr & H). unfold in_world in Hwr. injection Hwr as <-.
    apply bind_inr in H as ([] & p6 & Had & H). injection H as _ <-.
    assert (Hc2 : contents (world p2) (message_window s) = contents (world p) (message_window s))
      by (unfold contents; by rewrite Hheap2).
    eapply adopt_session_history; [|exact Had].
    cbn [world set_world sessions_dir makedirs write_text modify set_fs snd fst].
    rewrite Hdir, Hdir2, Hc2.
    apply first_named_write_entry; [apply endswith_json|by rewrite <- Hname|reflexivity|].
    exact Hstored.
Qed.

Lemma never_retryable_write_text (d f t : string) : never_retryable (write_text d f t).
Proof. apply never_retryable_modify. Qed.

Lemma retryable_keeps_process_documents_body (docs : list (string * string)) (nm : string) :
  retryable_keeps undisturbed (process_documents_body docs nm).
Proof.
  unfold process_documents_body.
  apply (retryable_keeps_bind undisturbed).
  { apply undisturbed_in_world; [apply files_same_read|apply heap_same_read]. }
  intros [bytes|].
  - apply retryable_keeps_never. apply never_retryable_bind;
      [apply never_retryable_adopt_session|intros _; apply never_retryable_ret].
  - apply (retryable_keeps_bind undisturbed); [apply preserves_subscript; apply _|intros prompt].
    apply (retryable_keeps_bind undisturbed); [apply undisturbed_call_endpoint|intros response].
    apply retryable_keeps_never.
    apply never_retryable_bind; [apply never_retryable_track_usage|intros _].
    apply never_retryable_bind;
      [apply never_retryable_in_world, never_retryable_makedirs|intros _].
    apply never_retryable_bind;
      [apply never_retryable_in_world, never_retryable_write_text|intros _].
    apply never_retryable_bind; [apply never_retryable_adopt_session|intros _].
    apply never_retryable_ret.
Qed.

(** [process_documents] under its decorator returns a summary when it
    returns. *)
Lemma process_documents_history (docs : list (string * string)) (p p' : Processor)
    (s : Session) (summary : string) tr :
  current_session p = Some s ->
  (exists d, first_named (name s) (sessions_dir (world p)) = Some d /\
             d_message_window d = Some (contents (world p) (message_window s))) ->
  process_documents docs (name s) p = (inr (Some summary), p', tr) ->
  exists s', current_session p' = Some s' /\
             contents (world p') (message_window s') = contents (world p) (message_window s).
Proof.
  intros Hcur Hstored. unfold process_documents, with_retries, retry_with_exponential_backoff.
  intros H.
  destruct (retry_loop_success undisturbed uniform_draw _ _ _ _ _ _ _ _ _ _
              (retryable_keeps_process_documents_body docs (name s))
              undisturbed_uniform_draw H)
    as (p0 & (A0 & _ & _ & D0 & E0 & _) & Hbody).
  assert (Hc0 : contents (world p0) (message_window s) = contents (world p) (message_window s))
    by (unfold contents; by rewrite D0).
  destruct (process_documents_body_history docs p0 p' s summary) as (s' & Hs' & Hc).
  - congruence.
  - rewrite E0, Hc0. exact Hstored.
  - exact Hbody.
  - exists s'. split; [exact Hs'|]. by rewrite Hc.
Qed.

Lemma retry_loop_none {S A} (uniform : S -> Q * S) (func : M S A) (m md : Z) (n : nat) :
  forall (i d : Z) (s s' : S) tr,
    retry_loop uniform func m md n i d s = (inr None, s', tr) ->
    i + Z.of_nat n = m -> (0 < n)%nat -> False.
Proof.
  induction n as [|n IH]; intros i d s s' tr; [intros _ _ ?; lia|]. cbn [retry_loop].
  destruct (func s) as [[e|v] s1]; [|discriminate].
  destruct (negb (retryable e)); [discriminate|].
  destruct (Z.eqb_spec i (m - 1)); [discriminate|].
  destruct (uniform s1) as [u s2].
  destruct (retry_loop uniform func m md n (i + 1) (Z.min (d * 2) md) s2)
    as [[r0 s3] tr0] eqn:El.
  intros [= -> _ _] Hn _.
  destruct n as [|n']; [lia|]. eapply IH; [exact El|lia|lia].
Qed.

(** [reload_documents], when it returns, on a session whose history is the
    one stored under its name. *)
Lemma reload_documents_truncates (context_window : option Z) (p p' : Processor) (s : Session) :
  current_session p = Some s ->
  (exists d, first_named (name s) (sessions_dir (world p)) = Some d /\
             d_message_window d = Some (contents (world p) (message_window s))) ->
  reload_documents context_window p = (inr tt, p') ->
  let kept := Py.last_k (reload_window context_window)
                (contents (world p) (message_window s)) in
  exists s',
    current_session p' = Some s' /\
    contents (world p') (message_window s') = kept /\
    read_entry (session_id s' +:+ ".json") (sessions_dir (world p'))
      = Some (Json (with_message_window (Some kept) (to_dict s'))).
Proof.
  intros Hcur Hstored H kept. unfold reload_documents in H.
  apply bind_inr in H as (p0 & p1 & Hget & H). injection Hget as <- <-.
  rewrite Hcur in H.
  apply bind_inr in H as (docs & p1 & Hload & H).
  assert (p1 = p) as ->.
  { unfold load_documents_from_directory, in_world in Hload.
    destruct (fs (world p) !! _); injection Hload as _ <-; apply set_world_same. }
  apply bind_inr in H as (summary & p2 & Hproc & H).
  destruct (process_documents docs (name s) p) as [[r0 p2'] tr] eqn:Eproc.
  injection Hproc as -> ->.
  destruct summary as [text|].
  2:{ exfalso. unfold process_documents, with_retries, retry_with_exponential_backoff in Eproc.
      eapply retry_loop_none; [exact Eproc|reflexivity|simpl; lia]. }
  destruct (process_documents_history docs p p2 s text tr Hcur Hstored Eproc)
    as (s2 & Hcur2 & Hc2).
  apply bind_inr in H as ([] & p3 & Hupd & H).
  apply (update_session_inr _ _ _ _ Hcur2) in Hupd as ->.
  apply bind_inr in H as (current & p4 & Hthe & H).
  apply the_session_inr in Hthe as [Hthe ->]. cbn in Hthe. injection Hthe as <-.
  apply bind_inr in H as (history & p4 & Hh & H).
  apply in_world_deref_inr in Hh as [-> ->].
  cbn [world set_current_session message_window set_document_summary] in H.
  rewrite Hc2 in H. fold kept in H.
  apply bind_inr in H as (sliced & p5 & Halloc & H).
  unfold in_world in Halloc. cbn [world set_current_session] in Halloc.
  destruct (contents_alloc kept (world p2)) as (r & E & Hfresh & Hc).
  rewrite E in Halloc. injection Halloc as <- <-.
  apply bind_inr in H as ([] & p6 & Hupd & H).
  eapply update_session_inr in Hupd; [|reflexivity]. subst p6.
  apply save_current_session_inr in H as (s6 & Hs6 & Hcur' & Hheap & Hfile).
  cbn [current_session set_current_session set_world] in Hs6. injection Hs6 as <-.
  eexists. split; [exact Hcur'|].
  cbn [world set_world set_current_session message_window set_message_window
       set_last_accessed session_id] in *.
  split.
  - unfold contents at 1. rewrite Hheap. cbn. by rewrite lookup_insert_eq.
  - rewrite Hfile. rewrite Hc. reflexivity.
Qed.

(** C9 (as amended).  [ask_question], whatever its outcome and however many
    attempts it takes, leaves the current session with the list object it
    had, holding what it held, in order, possibly followed by more.
    [reload_documents] does not.  On a session whose history is the one
    stored under its name in [sessions/], which is how [ask_question] leaves
    it, a call that returns leaves the current session with a new list that
    holds the last [window] messages of that history and nothing else, so at
    most [window] of them for a positive [window], and the file of the
    session holds that list: the earlier messages are gone from memory and
    from storage. *)
Theorem history_kept_but_by_reload :
  (forall (question : string) (p p' : Processor) r tr,
     ask_question question p = (r, p', tr) -> history_kept p p') /\
  (forall (context_window : option Z) (p p' : Processor) (s : Session),
     current_session p = Some s ->
     (exists d, first_named (name s) (sessions_dir (world p)) = Some d /\
                d_message_window d = Some (contents (world p) (message_window s))) ->
     reload_documents context_window p = (inr tt, p') ->
     exists s',
       current_session p' = Some s' /\
       contents (world p') (message_window s')
         = Py.last_k (reload_window context_window) (contents (world p) (message_window s)) /\
       read_entry (session_id s' +:+ ".json") (sessions_dir (world p'))
         = Some (Json (with_message_window
                         (Some (Py.last_k (reload_window context_window)
                                  (contents (world p) (message_window s))))
                         (to_dict s'))) /\
       (0 < reload_window context_window ->
        (length (contents (world p') (message_window s'))
         <= Z.to_nat (reload_window context_window))%nat)).
Proof.
  split.
  - intros question p p' r tr H. by eapply history_kept_ask_question.
  - intros cw p p' s Hcur Hstored H.
    destruct (reload_documents_truncates cw p p' s Hcur Hstored H) as (s' & H1 & H2 & H3).
    exists s'. split_and!; try done.
    intros Hpos. rewrite H2. by apply last_k_at_most.
Qed.

End ReloadFacts.

(** ** The claims on the scenario *)

Section OnScenario.
#[local] Existing Instance Scenario.collaborators.
Import Scenario.

(** C1.  A session made by [create_new] has window_size 10, the
    [DEFAULT_CONTEXT_WINDOW] that settings.py describes as a number of
    pairs; after ten questions it holds ten pairs, and the context
    [ask_question] builds for the next one holds the last ten messages, five
    pairs, and the question. *)
Theorem default_window_sends_five_pairs :
  window_size (session_of started) = DEFAULT_CONTEXT_WINDOW /\
  window_size (session_of after_ten) = 10 /\
  length (history_of after_ten) = 20%nat /\
  build_messages (history_of after_ten) (window_size (session_of after_ten)) "next"
    = inr [("user", "question"); ("assistant", "answer");
           ("user", "question"); ("assistant", "answer");
           ("user", "question"); ("assistant", "answer");
           ("user", "question"); ("assistant", "answer");
           ("user", "question"); ("assistant", "answer");
           ("user", "next")].
Proof. split_and!; vm_compute; reflexivity. Qed.

(** C3, as first stated, fails past 99999: the next id has six digits. *)
Lemma prompt_id_past_five_digits :
  snd (get_next_prompt_id (set_last_prompt_id 99999 (session_of started))) = "100000" /\
  String.length (snd (get_next_prompt_id (set_last_prompt_id 99999 (session_of started))))
    <> 5%nat.
Proof. split; [vm_compute; reflexivity|vm_compute; discriminate]. Qed.

(** C9, as first stated, fails on [reload_documents]: of the twelve messages
    stored after six questions, ten are left, in the session and in its
    file. *)
Lemma reload_documents_drops_history :
  reload_documents None after_six = (inr tt, after_reload) /\
  length (history_of after_six) = 12%nat /\
  length (history_of after_reload) = 10%nat /\
  (length <$> (read_entry "uuid-0.json" (sessions_dir (world after_reload))
               ≫= fun f => match f with Json d => d_message_window d | Garbage => None end))
    = Some 10%nat /\
  ~ history_kept after_six after_reload.
Proof.
  split; [vm_compute; reflexivity|].
  split; [vm_compute; reflexivity|].
  split; [vm_compute; reflexivity|].
  split; [vm_compute; reflexivity|].
  intros H.
  destruct (H (session_of after_six) eq_refl) as (s' & suffix & Hs' & Hmw & _).
  assert (Hcur : current_session after_reload = Some (session_of after_reload))
    by (vm_compute; reflexivity).
  rewrite Hcur in Hs'. injection Hs' as <-.
  vm_compute in Hmw. discriminate.
Qed.

Lemma history_kept_but_by_reload_witness :
  current_session after_six = Some (session_of after_six) /\
  first_named "main" (sessions_dir (world after_six))
    = Some (with_message_window (Some (history_of after_six))
              (to_dict (session_of after_six))) /\
  reload_documents (Some 1) after_six = (inr tt, trimmed) /\
  length (history_of after_six) = 12%nat /\
  exists s',
    current_session trimmed = Some s' /\
    contents (world trimmed) (message_window s') = Py.last_k 1 (history_of after_six) /\
    (length (contents (world trimmed) (message_window s')) <= 1)%nat.
Proof.
  assert (H1 : current_session after_six = Some (session_of after_six)) by reflexivity.
  assert (H2 : first_named "main" (sessions_dir (world after_six))
               = Some (with_message_window (Some (history_of after_six))
                         (to_dict (session_of after_six)))) by (vm_compute; reflexivity).
  assert (H3 : reload_documents (Some 1) after_six = (inr tt, trimmed))
    by (vm_compute; reflexivity).
  split; [exact H1|]. split; [exact H2|]. split; [exact H3|]. split; [reflexivity|].
  destruct (proj2 history_kept_but_by_reload (Some 1) after_six trimmed (session_of after_six)
              H1 (ex_intro _ _ (conj H2 eq_refl)) H3) as (s' & Hs' & Hc & _ & Hlen).
  exists s'. split_and!; [exact Hs'|exact Hc|exact (Hlen eq_refl)].
Defined.

Lemma create_branch_forks_witness :
  Py.contains "/" "alt" = false /\
  is_Some (heap (world after_six) !! message_window (session_of after_six)) /\
  exists child w',
    create_branch (session_of after_six) "alt" true (world after_six) = (inr child, w') /\
    name child = "main/alt" /\
    contents w' (message_window child) = history_of after_six /\
    message_window child <> message_window (session_of after_six).
Proof.
  assert (H1 : Py.contains "/" "alt" = false) by reflexivity.
  assert (H2 : is_Some (heap (world after_six) !! message_window (session_of after_six)))
    by (vm_compute; eauto).
  split; [exact H1|]. split; [exact H2|].
  destruct (create_branch_forks (session_of after_six) "alt" (world after_six) H1 H2)
    as [Hprops Hruns].
  destruct (Hruns ltac:(vm_compute; reflexivity)) as (child & w' & Hrun).
  exists child, w'. split; [exact Hrun|].
  destruct (Hprops child w' Hrun) as (Hname & _ & Hc & _ & Hne & _).
  split_and!; [exact Hname|exact Hc|exact Hne].
Defined.

Lemma create_branch_rejects_separator_witness :
  Py.contains "/" "a/b" = true /\
  create_branch (session_of after_six) "a/b" true (world after_six)
    = (inl ValueError, world after_six) /\
  processor_create_branch "a/b" true after_six = (inl ValueError, after_six).
Proof.
  split; [reflexivity|].
  apply (create_branch_rejects_separator (session_of after_six) "a/b" true
           (world after_six) after_six).
  reflexivity.
Defined.

Lemma create_new_recovers_counter_witness :
  first_named "main" (sessions_dir stale_world) = Some stale_snapshot /\
  d_last_prompt_id stale_snapshot = Some 2 /\
  user_prompt_ints (history_of after_six) = inr [1; 2; 3; 4; 5; 6] /\
  exists m r w',
    create_new "main" "another summary" 0 stale_world
      = (inr (set_last_prompt_id m
                (set_message_window r (set_last_prompt_id 2 (session_of after_six)))), w') /\
    contents w' r = history_of after_six /\
    m ∈ [1; 2; 3; 4; 5; 6] /\ Forall (fun x => x <= m) [1; 2; 3; 4; 5; 6].
Proof.
  assert (H1 : first_named "main" (sessions_dir stale_world) = Some stale_snapshot)
    by (vm_compute; reflexivity).
  assert (H2 : user_prompt_ints (history_of after_six) = inr [1; 2; 3; 4; 5; 6])
    by (vm_compute; reflexivity).
  split; [exact H1|]. split; [reflexivity|]. split; [exact H2|].
  exact (create_new_recovers_counter "main" "another summary" 0 stale_world
           (set_last_prompt_id 2 (session_of after_six)) (history_of after_six)
           1 [2; 3; 4; 5; 6] (fun d => eq_refl) H1 H2).
Defined.

Lemma usage_totals_accumulate_witness :
  current_session started = Some (session_of started) /\
  exists p' s',
    track_usages usages started = (inr tt, p') /\
    current_session p' = Some s' /\
    total_input_tokens s' = 300 /\
    total_output_tokens s' = 150 /\
    total_cost s'
      = PrimFloat.add (PrimFloat.add 0 (incremental_cost (mkResponse "a" 100 50)))
                      (incremental_cost (mkResponse "b" 200 100)) /\
    read_entry "uuid-0.json" (sessions_dir (world p'))
      = Some (Json (with_message_window (Some (contents (world p') (message_window s')))
                      (to_dict s'))).
Proof.
  assert (H1 : current_session started = Some (session_of started)) by reflexivity.
  split; [exact H1|].
  destruct (usage_totals_accumulate usages started (session_of started) H1 eq_refl)
    as (p' & s' & Hrun & Hcur & Hin & Hout & Hcost & Hfile).
  { repeat constructor; vm_compute; discriminate. }
  exists p', s'. split_and!; try done.
  by apply Hfile.
Defined.


Lemma retry_backoff_delays_witness :
  (forall n, (0 <= fst (steady_jitter n))%Q /\ (fst (steady_jitter n) <= 1 # 10)%Q) /\
  with_retries steady_jitter flaky 0%nat =
    (inr (Some "done"), 4%nat,
     [Attempt (inl RateLimitError); Sleep 1 (inject_Z 1 + (1 # 20) * inject_Z 1);
      Attempt (inl RateLimitError); Sleep 2 (inject_Z 2 + (1 # 20) * inject_Z 2);
      Attempt (inl RateLimitError); Sleep 4 (inject_Z 4 + (1 # 20) * inject_Z 4);
      Attempt (inr "done")]).
Proof.
  assert (H : forall n, (0 <= fst (steady_jitter n))%Q /\ (fst (steady_jitter n) <= 1 # 10)%Q).
  { intros n. cbn. split; unfold Qle; cbn; lia. }
  split; [exact H|].
  refine (proj2 (retry_backoff_delays steady_jitter flaky 0%nat 5 H)
            RateLimitError RateLimitError RateLimitError "done" 1%nat 2%nat 3%nat 4%nat
            (1 # 20)%Q (1 # 20)%Q (1 # 20)%Q 1%nat 2%nat 3%nat
            eq_refl eq_refl eq_refl eq_refl eq_refl eq_refl eq_refl eq_refl eq_refl eq_refl).
Defined.

(** Five overload errors in a row: five calls, four sleeps, and the fifth
    error reaches the caller. *)
Example five_failures :
  with_retries steady_jitter overloaded 0%nat =
    (inl InternalServerError, 5%nat,
     [Attempt (inl InternalServerError); Sleep 1 (inject_Z 1 + (1 # 20) * inject_Z 1);
      Attempt (inl InternalServerError); Sleep 2 (inject_Z 2 + (1 # 20) * inject_Z 2);
      Attempt (inl InternalServerError); Sleep 4 (inject_Z 4 + (1 # 20) * inject_Z 4);
      Attempt (inl InternalServerError); Sleep 8 (inject_Z 8 + (1 # 20) * inject_Z 8);
      Attempt (inl InternalServerError)]).
Proof. reflexivity. Qed.

(** The two usages of the scenario: the cost that accumulates. *)
Example two_usages_cost :
  incremental_cost (mkResponse "a" 100 50) = 0x1.13404ea4a8c16p-10%float /\
  incremental_cost (mkResponse "b" 200 100) = 0x1.13404ea4a8c16p-9%float /\
  PrimFloat.add (PrimFloat.add 0 (incremental_cost (mkResponse "a" 100 50)))
                (incremental_cost (mkResponse "b" 200 100))
    = 0x1.9ce075f6fd221p-9%float.
Proof. split_and!; vm_compute; reflexivity. Qed.

Lemma context_is_last_messages_witness :
  Forall has_role_and_content (history_of after_ten) /\
  0 < 10 /\
  exists ms,
    build_messages (history_of after_ten) 10 "next" = inr (ms ++ [("user", "next")]) /\
    ms = map role_and_content (skipn (length (history_of after_ten) - Z.to_nat 10)
                                 (history_of after_ten)) /\
    length ms = Nat.min (length (history_of after_ten)) (Z.to_nat 10).
Proof.
  assert (H : Forall has_role_and_content (history_of after_ten)).
  { vm_compute. repeat constructor; eauto. }
  split; [exact H|]. split; [lia|].
  exact (context_is_last_messages (history_of after_ten) 10 "next" H ltac:(lia)).
Defined.


Lemma processor_create_branch_cannot_save_witness :
  current_session after_six = Some (session_of after_six) /\
  create_branch (session_of after_six) "alt" true (world after_six)
    = (inr branch_child, branch_world) /\
  exists p',
    processor_create_branch "alt" true after_six = (inl TypeError, p') /\
    current_session p' = Some (session_of after_six) /\
    read_entry (session_id branch_child +:+ ".json") (sessions_dir (world p')) = Some Garbage.
Proof.
  assert (H1 : current_session after_six = Some (session_of after_six)) by reflexivity.
  assert (H2 : create_branch (session_of after_six) "alt" true (world after_six)
               = (inr branch_child, branch_world)) by (vm_compute; reflexivity).
  split; [exact H1|]. split; [exact H2|].
  exact (processor_create_branch_cannot_save "alt" true after_six
           (session_of after_six) branch_child branch_world H1 H2).
Defined.

(** The builtins on the values the program meets. *)
Example builtins_agree_with_python :
  Py.format_05d 1 = "00001" /\ Py.format_05d 100000 = "100000" /\
  Py.format_05d (-4) = "-0004" /\
  Py.int " 00012 " = Some 12 /\ Py.int "1_0" = Some 10 /\ Py.int "1__0" = None /\
  Py.int "abc" = None /\ Py.int "-7" = Some (-7) /\ Py.int "" = None /\
  Py.last_k 2 [1; 2; 3] = [2; 3] /\ Py.last_k 0 [1; 2; 3] = [1; 2; 3] /\
  Py.last_k 5 [1; 2; 3] = [1; 2; 3] /\ Py.last_k (-1) [1; 2; 3] = [2; 3] /\
  Py.endswith "a.json" ".json" = true /\ Py.endswith "json" ".json" = false /\
  Py.contains "/" "a/b" = true /\ Py.contains "/" "ab" = false /\
  path_join "output-docs" "main/alt" = "output-docs/main/alt" /\
  float_of_int (2 ^ 1024) = None.
Proof. split_and!; vm_compute; reflexivity. Qed.


(** *** The further properties on the scenario *)

Lemma retry_only_after_transient_failure_witness :
  0 < 5 /\
  (let '(r, s', tr) := retry_with_exponential_backoff steady_jitter flaky 5 1 32 0%nat in
   (1 <= length (attempts tr) <= Z.to_nat 5)%nat /\
   length (sleeps tr) = (length (attempts tr) - 1)%nat /\
   (forall k o, (Datatypes.S k < length (attempts tr))%nat ->
      attempts tr !! k = Some o -> transient_failure o) /\
   (exists o, last (attempts tr) = Some o /\ r = outcome_of o /\
      ((length (attempts tr) < Z.to_nat 5)%nat -> ~ transient_failure o))).
Proof.
  split; [lia|].
  exact (retry_only_after_transient_failure steady_jitter flaky 0%nat 5 1 32 ltac:(lia)).
Defined.


Lemma load_session_reads_back_save_witness :
  serialisable (to_dict (session_of after_six)) = true /\
  (last_prompt_id (session_of after_six) <> 0 \/
   contents (world after_six) (message_window (session_of after_six)) = []) /\
  exists w1 r w2,
    save_session (session_of after_six) (world after_six)
      = (inr tt, set_last_accessed (now_at (clock (world after_six))) (session_of after_six),
         w1) /\
    load_session "uuid-0" w1
      = (inr (Some (set_message_window r
                      (set_last_accessed (now_at (clock (world after_six)))
                         (session_of after_six)))), w2) /\
    contents w2 r = history_of after_six.
Proof.
  assert (H1 : serialisable (to_dict (session_of after_six)) = true) by reflexivity.
  assert (H2 : last_prompt_id (session_of after_six) <> 0 \/
               contents (world after_six) (message_window (session_of after_six)) = [])
    by (left; vm_compute; discriminate).
  split; [exact H1|]. split; [exact H2|].
  destruct (load_session_reads_back_save (session_of after_six) (world after_six)
              (fun d => eq_refl) H1 H2)
    as (w1 & r & w2 & Hsave & Hload & _ & Hc & _).
  exists w1, r, w2. split_and!; [exact Hsave|exact Hload|exact Hc].
Defined.


Lemma create_new_never_saves_witness :
  stays_below "main/alt" = true /\
  sessions_dir (snd (create_new "main/alt" "{}" 0 (world after_six)))
    = sessions_dir (world after_six).
Proof.
  split; [reflexivity|].
  exact (create_new_never_saves "main/alt" "{}" 0 (world after_six) eq_refl).
Defined.

Lemma create_new_raises_on_unnumbered_history_witness :
  first_named "main" (sessions_dir (world trimmed))
    = Some (with_message_window (Some (history_of trimmed)) (to_dict (session_of trimmed))) /\
  history_of trimmed = [message_dump "assistant" "answer" "00006"] /\
  max_user_prompt_id (history_of trimmed) = inl ValueError /\
  (exists w', create_new "main" "{}" 0 (world trimmed) = (inl ValueError, w')) /\
  (exists s w',
     bind (json_load (Json (with_message_window (Some (history_of trimmed))
                              (to_dict (session_of trimmed))))) from_dict (world trimmed)
       = (inr s, w')).
Proof.
  assert (H1 : first_named "main" (sessions_dir (world trimmed))
               = Some (with_message_window (Some (history_of trimmed))
                         (to_dict (session_of trimmed))))
    by (vm_compute; reflexivity).
  assert (H2 : history_of trimmed = [message_dump "assistant" "answer" "00006"])
    by (vm_compute; reflexivity).
  assert (H3 : max_user_prompt_id (history_of trimmed) = inl ValueError)
    by (vm_compute; reflexivity).
  split; [exact H1|]. split; [exact H2|]. split; [exact H3|].
  refine (proj2 (create_new_raises_on_unnumbered_history "main" "{}" 0 (world trimmed)
                   (session_of trimmed) (history_of trimmed) ValueError
                   (fun d => eq_refl) H1 _ H3)).
  rewrite H2. discriminate.
Defined.

Lemma create_branch_resumes_stored_branch_witness :
  Py.contains "/" "alt" = false /\
  first_named "main/alt" (sessions_dir alt_world)
    = Some (with_message_window (Some alt_history) (to_dict alt_session)) /\
  user_prompt_ints alt_history = inr [3] /\
  exists child w',
    create_branch (session_of after_six) "alt" false alt_world = (inr child, w') /\
    session_id child = "uuid-9" /\
    contents w' (message_window child) = alt_history.
Proof.
  assert (H1 : Py.contains "/" "alt" = false) by reflexivity.
  assert (H2 : first_named "main/alt" (sessions_dir alt_world)
               = Some (with_message_window (Some alt_history) (to_dict alt_session)))
    by (vm_compute; reflexivity).
  assert (H3 : user_prompt_ints alt_history = inr [3]) by reflexivity.
  split; [exact H1|]. split; [exact H2|]. split; [exact H3|].
  destruct (create_branch_resumes_stored_branch (session_of after_six) "alt" false alt_world
              alt_session alt_history 3 [] (fun d => eq_refl) H1 H2 H3)
    as (child & w' & Hrun & Hid & _ & _ & _ & _ & _ & Hc).
  exists child, w'. split_and!; [exact Hrun|exact Hid|exact (Hc eq_refl)].
Defined.

Lemma get_session_by_name_none_means_all_readable_witness :
  NoDup (map fst (sessions_dir (world after_six))) /\
  get_session_by_name "other" (world after_six) = (inr None, not_found_world) /\
  forall fn f, (fn, f) ∈ sessions_dir (world after_six) -> Py.endswith fn ".json" = true ->
    exists d, f = Json d /\ d_name d <> Some "other".
Proof.
  assert (H1 : NoDup (map fst (sessions_dir (world after_six))))
    by (vm_compute; apply NoDup_singleton).
  assert (H2 : get_session_by_name "other" (world after_six) = (inr None, not_found_world))
    by (vm_compute; reflexivity).
  split; [exact H1|]. split; [exact H2|].
  exact (get_session_by_name_none_means_all_readable "other" (world after_six)
           not_found_world H1 H2).
Defined.

(** The directory of six files: two names are listed, in order. *)
Example list_sessions_on_directory :
  list_sessions listing_world = inr [("alpha", 1); ("beta", 2)].
Proof. vm_compute. reflexivity. Qed.

Lemma list_sessions_counts_first_listable_witness :
  list_sessions listing_world = inr [("alpha", 1); ("beta", 2)] /\
  forall nm k, (nm, k) ∈ [("alpha", 1); ("beta", 2)]
               <-> first_listable (sessions_dir listing_world) nm k.
Proof.
  assert (H : list_sessions listing_world = inr [("alpha", 1); ("beta", 2)])
    by (vm_compute; reflexivity).
  split; [exact H|].
  exact (list_sessions_counts_first_listable listing_world [("alpha", 1); ("beta", 2)] H).
Defined.

Lemma scan_reads_back_entry_witness :
  0 <= 7 <= 99999 /\
  fold_left scan_line
    (Py.lines (("# Conversation: [main]" +:+ newline +:+ newline)
               +:+ conversation_entry (Py.format_05d 7) "2025-01-01 10:00:00"
                     "What is it?" "A thing.")) (0, [], None)
  = let '(last, window, _) :=
      fold_left scan_line (Py.lines ("# Conversation: [main]" +:+ newline +:+ newline))
        (0, [], None) in
    (Z.max last 7,
     window ++ [message_dump "user" "What is it?" (Py.format_05d 7);
                message_dump "assistant" "A thing." (Py.format_05d 7)],
     Some (Py.format_05d 7)).
Proof.
  split; [lia|].
  apply (scan_reads_back_entry ("# Conversation: [main]" +:+ newline +:+ newline)
           "2025-01-01 10:00:00" "What is it?" "A thing." 7 (0, [], None));
    try reflexivity; try lia.
  right. exists ("# Conversation: [main]" +:+ newline). reflexivity.
Defined.

Lemma ask_question_persists_exchange_witness :
  ask_question "question" started
    = (inr (Some ("answer", "00001")), after_one, [Attempt (inr ("answer", "00001"))]) /\
  exists s' old t,
    current_session after_one = Some s' /\
    read_entry (session_id s' +:+ ".json") (sessions_dir (world after_one))
      = Some (Json (with_message_window (Some (contents (world after_one) (message_window s')))
                      (to_dict s'))) /\
    read_entry "conversation.md"
      (default [] (fs (world after_one) !! path_join "output-docs" (name s')))
      = Some (old +:+ conversation_entry "00001" (strftime_seconds t) "question" "answer").
Proof.
  assert (H : ask_question "question" started
              = (inr (Some ("answer", "00001")), after_one,
                 [Attempt (inr ("answer", "00001"))]))
    by (vm_compute; reflexivity).
  split; [exact H|].
  exact (ask_question_persists_exchange "question" "answer" "00001" started after_one _ H).
Defined.

Lemma process_documents_needs_a_session_witness :
  current_session fresh_processor = None /\
  no_cached_understanding "main" (world fresh_processor) /\
  (exists e p' tr,
     process_documents [] "main" fresh_processor = (inl e, p', tr) /\
     undisturbed fresh_processor p') /\
  exists p',
    process_documents [] "main" fresh_processor
      = (inl AttributeError, p', [Attempt (inl AttributeError)]) /\
    api_calls (world p') = 1%nat.
Proof.
  assert (H1 : current_session fresh_processor = None) by reflexivity.
  assert (H2 : no_cached_understanding "main" (world fresh_processor)) by reflexivity.
  split; [exact H1|]. split; [exact H2|].
  destruct (process_documents_needs_a_session [] "main" fresh_processor H1 H2) as [Hall Hone].
  split; [exact Hall|].
  exact (Hone "ANALYSIS" (mkResponse "answer" 100 50) eq_refl eq_refl).
Defined.

Lemma process_documents_caches_its_summary_witness :
  no_cached_understanding "notes" (world started) /\
  process_documents_body [] "notes" started = (inr "answer", analysed) /\
  exists prompt,
    system_prompts "analysis" = Some prompt /\
    (fs (world analysed) !! path_join "processed-docs" "notes" ≫= read_entry "understanding.md")
      = Some (understanding_file prompt "answer").
Proof.
  assert (H1 : no_cached_understanding "notes" (world started)) by (vm_compute; reflexivity).
  assert (H2 : process_documents_body [] "notes" started = (inr "answer", analysed))
    by (vm_compute; reflexivity).
  split; [exact H1|]. split; [exact H2|].
  exact (process_documents_caches_its_summary [] "notes" started analysed "answer" H1 H2).
Defined.

Lemma cached_understanding_round_trip_witness :
  (fs (world cached_processor) !! path_join "processed-docs" "main"
     ≫= read_entry "understanding.md")
    = Some (understanding_file "ANALYSIS" "answer") /\
  no_carriage_return "ANALYSIS" = true /\
  no_carriage_return "answer" = true /\
  process_documents_body [] "main" cached_processor
    = (exec adopt_session "main" [] "answer"; ret "answer") cached_processor.
Proof.
  assert (H1 : (fs (world cached_processor) !! path_join "processed-docs" "main"
                  ≫= read_entry "understanding.md")
               = Some (understanding_file "ANALYSIS" "answer")) by (vm_compute; reflexivity).
  split; [exact H1|]. split; [reflexivity|]. split; [reflexivity|].
  apply (cached_understanding_round_trip [] "main" cached_processor "ANALYSIS" "answer" H1
           eq_refl eq_refl).
  vm_compute. reflexivity.
Defined.

End OnScenario.

(** ** The outage *)

Section OnOutage.
#[local] Existing Instance Outage.busy.

Lemma ask_question_gives_up_undisturbed_witness :
  ask_question "question" Outage.waiting
    = (inl InternalServerError, Outage.gave_up, Outage.gave_up_trace) /\
  retryable InternalServerError = true /\
  length (attempts Outage.gave_up_trace) = 5%nat /\
  length (sleeps Outage.gave_up_trace) = 4%nat /\
  undisturbed Outage.waiting Outage.gave_up.
Proof.
  assert (H : ask_question "question" Outage.waiting
              = (inl InternalServerError, Outage.gave_up, Outage.gave_up_trace))
    by (vm_compute; reflexivity).
  split; [exact H|]. split; [reflexivity|].
  exact (ask_question_gives_up_undisturbed "question" Outage.waiting Outage.gave_up
           InternalServerError Outage.gave_up_trace H eq_refl).
Defined.

End OnOutage.
